(** * InfraLens (DrawMyInfra): a shallow embedding of [app.py]

    The core of the application is embedded function by function:
    the helpers ([find_col], [safe], [fmt_pct]), the VCF 9 compatibility
    lookup, the two workbook parsers and their dispatcher, the licence
    calculator, the CSV formatters and the Excalidraw layout.

    Conventions of the embedding.
    - A Python [str] is a [string]; each [ascii] stands for one code point
      below 256 (Latin-1).  The character classes of [str.strip],
      [str.lower], [str.isdigit] and of the [re] module ([\s], [\d],
      [re.I]) are the Unicode ones restricted to that range.  The few
      characters of the source outside it (the emoji of the labels, the
      em dash) are kept as the bytes of their UTF-8 encoding; they are only
      concatenated, never inspected.
    - A Python [dict] is an association list in insertion order
      ([dict_get], [dict_set]): iteration order is observable in the
      source.
    - Python [int] is [Z], and [int(text)] has the limit of CPython on
      the number of digits (4300).  A [float] of the licence calculator
      is an IEEE 754 double ([pyfloat]): the value of a finite double as
      a [Q], an infinity or a NaN; products and sums are rounded to the
      nearest double, ties to even ([round64]), and [float(int)] raises
      [OverflowError] beyond the doubles.
    - The conversions [float(text)] and the [:.0f] format are taken as
      operations of a class ([PyFloat]).
    - [uuid.uuid4] is a counter threaded through a state monad. *)

From Stdlib Require Import List String Ascii Bool Arith ZArith QArith Qround Lia.
From Stdlib Require Import Qpower Qabs.
From Stdlib Require Import Sorting.Sorted Sorting.Permutation.
Import ListNotations.

Open Scope string_scope.
Open Scope Z_scope.

(* ------------------------------------------------------------------ *)
(** ** Python strings *)

Module PyStr.

(** The double quote and the line feed, as characters and as strings. *)
Definition DQ : ascii := "034"%char.
Definition LF : ascii := "010"%char.
Definition CR : ascii := "013"%char.
Definition dq : string := String DQ "".
Definition lf : string := String LF "".

Definition between (lo hi n : nat) : bool := ((lo <=? n) && (n <=? hi))%nat.

(** [str.isspace] on one character (also the class [\s]). *)
Definition is_space (c : ascii) : bool :=
  let n := nat_of_ascii c in
  between 9 13 n || between 28 32 n || (n =? 133)%nat || (n =? 160)%nat.

(** The class [\d]: decimal digits. *)
Definition is_digit (c : ascii) : bool := between 48 57 (nat_of_ascii c).

(** One character of [str.isdigit]: the decimal digits and the
    superscripts 1, 2 and 3. *)
Definition is_isdigit_char (c : ascii) : bool :=
  let n := nat_of_ascii c in
  is_digit c || (n =? 178)%nat || (n =? 179)%nat || (n =? 185)%nat.

Definition lower_char (c : ascii) : ascii :=
  let n := nat_of_ascii c in
  if between 65 90 n || (between 192 222 n && negb (n =? 215)%nat)
  then ascii_of_nat (n + 32) else c.

(** [s.lower()] *)
Fixpoint lower (s : string) : string :=
  match s with
  | "" => ""
  | String c t => String (lower_char c) (lower t)
  end.

Fixpoint lstrip (s : string) : string :=
  match s with
  | "" => ""
  | String c t => if is_space c then lstrip t else s
  end.

Fixpoint rstrip (s : string) : string :=
  match s with
  | "" => ""
  | String c t =>
      let t' := rstrip t in
      if is_space c && (t' =? "")%string then "" else String c t'
  end.

(** [s.strip()] *)
Definition strip (s : string) : string := rstrip (lstrip s).

(** [sub in s] *)
Fixpoint contains (sub s : string) : bool :=
  String.prefix sub s ||
  match s with
  | "" => false
  | String _ t => contains sub t
  end.

(** [sep.join(ls)] *)
Definition join (sep : string) (ls : list string) : string :=
  String.concat sep ls.

Fixpoint all_chars (p : ascii -> bool) (s : string) : bool :=
  match s with
  | "" => true
  | String c t => p c && all_chars p t
  end.

(** [s.isdigit()] *)
Definition isdigit (s : string) : bool :=
  negb (s =? "")%string && all_chars is_isdigit_char s.

(** [s.replace(old, new)] for a non-empty [old]: the occurrences are
    replaced from left to right; [skip] counts the characters of an
    occurrence still to be dropped. *)
Fixpoint replace_from (skip : nat) (old new s : string) : string :=
  match s with
  | "" => ""
  | String c t =>
      match skip with
      | S k => replace_from k old new t
      | O =>
          if String.prefix old s
          then new ++ replace_from (String.length old - 1) old new t
          else String c (replace_from O old new t)
      end
  end.

Definition replace (old new s : string) : string := replace_from 0 old new s.

(** [str(n)] for a non-negative [n], least significant digit last. *)
Definition digit_char (d : nat) : ascii := ascii_of_nat (48 + d).

Fixpoint str_of_nat_fuel (fuel n : nat) (acc : string) : string :=
  match fuel with
  | O => acc
  | S f =>
      let acc' := String (digit_char (n mod 10)) acc in
      if (n / 10 =? 0)%nat then acc' else str_of_nat_fuel f (n / 10) acc'
  end.

Definition str_of_nat (n : nat) : string := str_of_nat_fuel (S n) n "".

(** [str(z)] for a Python [int]. *)
Definition str_of_Z (z : Z) : string :=
  if z <? 0 then "-" ++ str_of_nat (Z.to_nat (- z)) else str_of_nat (Z.to_nat z).

(** [int(s)] for a text made of decimal digits. *)
Fixpoint int_of_digits (acc : Z) (s : string) : Z :=
  match s with
  | "" => acc
  | String c t => int_of_digits (10 * acc + Z.of_nat (nat_of_ascii c - 48)) t
  end.

(** [sorted(ls)] on strings: the order of [str] is the order of code
    points, which is [String.leb]. *)
Fixpoint insert_sorted (x : string) (l : list string) : list string :=
  match l with
  | [] => [x]
  | y :: t => if String.leb x y then x :: l else y :: insert_sorted x t
  end.

Fixpoint sorted (l : list string) : list string :=
  match l with
  | [] => []
  | x :: t => insert_sorted x (sorted t)
  end.

(** The UTF-8 bytes of a character outside Latin-1. *)
Definition utf8 (bytes : list nat) : string :=
  string_of_list_ascii (map ascii_of_nat bytes).

End PyStr.
Import PyStr.

(* ------------------------------------------------------------------ *)
(** ** Ordered dictionaries *)

Definition dict (V : Type) : Type := list (string * V).

Fixpoint dict_get {V} (d : dict V) (k : string) : option V :=
  match d with
  | [] => None
  | (k', v) :: t => if (k' =? k)%string then Some v else dict_get t k
  end.

(** [d[k] = v]: an existing key keeps its place, a new one goes last. *)
Fixpoint dict_set {V} (d : dict V) (k : string) (v : V) : dict V :=
  match d with
  | [] => [(k, v)]
  | (k', v') :: t =>
      if (k' =? k)%string then (k', v) :: t else (k', v') :: dict_set t k v
  end.

(** [{key(x): val(x) for x in xs}] *)
Definition dict_comp {A V} (key : A -> string) (val : A -> V) (xs : list A) : dict V :=
  fold_left (fun d x => dict_set d (key x) (val x)) xs [].

(* ------------------------------------------------------------------ *)
(** ** The regular expressions of the source *)

Module Re.

(** The longest run of digits at the front of [s], and what follows. *)
Fixpoint take_digits (s : string) : string * string :=
  match s with
  | "" => ("", "")
  | String c t =>
      if is_digit c
      then let (d, r) := take_digits t in (String c d, r)
      else ("", s)
  end.

(** [\d+] at the front of [s]. *)
Definition digits1 (s : string) : option (string * string) :=
  let (d, r) := take_digits s in
  if (d =? "")%string then None else Some (d, r).

(** [\d+(\.\d+){k}] at the front of [s]: the text matched and the rest.
    A digit run is followed by a character that is not a digit, so the
    greedy choice is the only one that can succeed. *)
Fixpoint match_dotted (k : nat) (s : string) : option (string * string) :=
  match digits1 s with
  | None => None
  | Some (d, r) =>
      match k with
      | O => Some (d, r)
      | S k' =>
          match r with
          | String "." r' =>
              match match_dotted k' r' with
              | Some (m, r'') => Some (d ++ "." ++ m, r'')
              | None => None
              end
          | _ => None
          end
      end
  end.

(** [re.search] of a pattern anchored nowhere: the first position, from
    the left, where [m] matches. *)
Fixpoint search (m : string -> option (string * string)) (s : string)
  : option string :=
  match m s with
  | Some (g, _) => Some g
  | None =>
      match s with
      | "" => None
      | String _ t => search m t
      end
  end.

(** [re.search(r'(\d+\.\d+\.\d+)', s)], group 1. *)
Definition search_version3 (s : string) : option string :=
  search (match_dotted 2) s.

(** [re.search(r'(\d+\.\d+\.\d+\.\d+)', s)], group 1. *)
Definition search_version4 (s : string) : option string :=
  search (match_dotted 3) s.

(** A literal matched without regard to case ([re.I]): what follows it. *)
Fixpoint ci_literal (lit s : string) : option string :=
  match lit, s with
  | "", _ => Some s
  | String a l, String b t =>
      if Ascii.eqb (lower_char a) (lower_char b) then ci_literal l t else None
  | String _ _, "" => None
  end.

(** [\s*] and [\s+], greedy. *)
Fixpoint spaces0 (s : string) : string :=
  match s with
  | "" => ""
  | String c t => if is_space c then spaces0 t else s
  end.

Definition spaces1 (s : string) : option string :=
  match s with
  | String c t => if is_space c then Some (spaces0 t) else None
  | "" => None
  end.

(** [\.?] *)
Definition opt_dot (s : string) : string :=
  match s with
  | String "." t => t
  | _ => s
  end.

(** [Dell\s+] and then, optionally, [Inc\.?] and [\s*]. *)
Definition alt_dell (s : string) : option string :=
  match ci_literal "Dell" s with
  | None => None
  | Some r =>
      match spaces1 r with
      | None => None
      | Some r1 =>
          match ci_literal "Inc" r1 with
          | Some r2 => Some (spaces0 (opt_dot r2))
          | None => Some r1
          end
      end
  end.

(** [HPE?\s+] *)
Definition alt_hp (s : string) : option string :=
  match ci_literal "HP" s with
  | None => None
  | Some r =>
      match ci_literal "E" r with
      | Some r1 =>
          match spaces1 r1 with
          | Some r2 => Some r2
          | None => spaces1 r
          end
      | None => spaces1 r
      end
  end.

(** [word\s+] *)
Definition alt_word (w s : string) : option string :=
  match ci_literal w s with
  | None => None
  | Some r => spaces1 r
  end.

Definition or_else {A} (a b : option A) : option A :=
  match a with Some _ => a | None => b end.

(** [_VENDOR_PREFIX_RE.sub('', s)]: the pattern is anchored at the start
    and matches at least one character, so at most one match is
    removed. *)
Definition sub_vendor_prefix (s : string) : string :=
  match
    or_else (alt_dell s)
      (or_else (alt_hp s)
         (or_else (alt_word "Lenovo" s)
            (or_else (alt_word "Cisco" s) (alt_word "Fujitsu" s))))
  with
  | Some r => r
  | None => s
  end.

(** [vCenter Server\s+(\d+\.\d+\.\d+)] with [re.IGNORECASE], group 1. *)
Definition match_vcenter (s : string) : option (string * string) :=
  match ci_literal "vCenter Server" s with
  | None => None
  | Some r =>
      match spaces1 r with
      | None => None
      | Some r1 => match_dotted 2 r1
      end
  end.

Definition search_vcenter (s : string) : option string := search match_vcenter s.

End Re.

(* ------------------------------------------------------------------ *)
(** ** VCF 9 compatibility *)

(** The labels, with their emoji as UTF-8. *)
Definition CHECK_MARK : string := utf8 [226; 156; 133]%nat.
Definition WARNING_SIGN : string := utf8 [226; 154; 160; 239; 184; 143]%nat.
Definition CROSS_MARK : string := utf8 [226; 157; 140]%nat.
Definition EM_DASH : string := utf8 [226; 128; 148]%nat.

Record verdict : Type := { status : string; label : string }.

(** An entry of [vcf9_hcl.json]. *)
Record hcl_entry : Type := { m : string; r : list string }.

Definition build_vcf9_lookup (hcl_data : list hcl_entry) : dict (list string) :=
  dict_comp (fun entry => lower (strip (m entry))) r hcl_data.

Definition normalize_model (model : string) : string :=
  strip (Re.sub_vendor_prefix model).

Definition _vcf9_label (releases : list string) : string :=
  let versions := sorted (map (replace "ESXi " "") releases) in
  CHECK_MARK ++ " VCF " ++ join " + " versions ++ " Ready".

(** The loop [for hcl_model, releases in lookup.items()]. *)
Fixpoint first_related (norm : string) (items : dict (list string))
  : option (list string) :=
  match items with
  | [] => None
  | (hcl_model, releases) :: t =>
      if contains norm hcl_model || contains hcl_model norm
      then Some releases
      else first_related norm t
  end.

Definition check_vcf9_compat (model : string) (lookup : dict (list string)) : verdict :=
  if (model =? "")%string then
    {| status := "unknown"; label := WARNING_SIGN ++ " VCF9 ?" |}
  else
    let norm := lower (normalize_model model) in
    match dict_get lookup norm with
    | Some releases => {| status := "compatible"; label := _vcf9_label releases |}
    | None =>
        match first_related norm lookup with
        | Some releases => {| status := "compatible"; label := _vcf9_label releases |}
        | None => {| status := "incompatible"; label := CROSS_MARK ++ " Not VCF9 Ready" |}
        end
    end.


(* ------------------------------------------------------------------ *)
(** ** Exceptions *)

Inductive exn : Type :=
| ValueError (msg : string)
| OverflowError (msg : string).

Inductive result (A : Type) : Type :=
| Ok (a : A)
| Raise (e : exn).
Arguments Ok {A} a.
Arguments Raise {A} e.

Definition bind {A B} (x : result A) (f : A -> result B) : result B :=
  match x with
  | Ok a => f a
  | Raise e => Raise e
  end.

Notation "x <- e ;; k" := (bind e (fun x => k))
  (at level 61, e at next level, right associativity).

(** A loop whose body may raise: the results of the iterations, in order,
    or the first exception. *)
Fixpoint for_each {A B} (f : A -> result B) (xs : list A) : result (list B) :=
  match xs with
  | [] => Ok []
  | x :: t =>
      y <- f x ;;
      ys <- for_each f t ;;
      Ok (y :: ys)
  end.

(* ------------------------------------------------------------------ *)
(** ** Numbers read from text *)

(** What [int(float(text))] does. *)
Inductive coerced : Type :=
| IntVal (z : Z)      (* a value *)
| NotANumber          (* [ValueError] *)
| Infinite.           (* [OverflowError]: the float is an infinity *)

Class PyFloat : Type := {
  (** [int(float(text))] *)
  int_of_float : string -> coerced;
  (** [f"{float(text):.0f}"], or [None] when [float(text)] raises
      [ValueError] *)
  format_0f : string -> option string
}.

(* ------------------------------------------------------------------ *)
(** ** Workbooks *)

(** A cell of a data frame: [None] is NaN, [Some s] a value whose [str]
    is [s]. *)
Definition cell : Type := option string.

(** A data frame whose column labels are texts, as a header row of text
    cells gives them.  [find_col] calls [str.lower] on every label and
    raises [AttributeError] on a label that is a number or a date: such
    frames are not of this type. *)
Record sheet : Type := {
  columns : list string;
  rows : list (list cell)
}.

(** What [pd.ExcelFile] returns on the bytes of a workbook: the sheets in
    the order of [xls.sheet_names].  Bytes that [pd.ExcelFile] refuses,
    with an exception of its own, give no workbook. *)
Definition workbook : Type := list (string * sheet).

Definition sheet_names (xls : workbook) : list string := map fst xls.

(** [xls.parse(name, header=0)] *)
Definition xls_parse (xls : workbook) (name : string) : option sheet :=
  dict_get xls name.

(** [{s.lower(): s for s in xls.sheet_names}] *)
Definition sheet_names_lower (xls : workbook) : dict string :=
  dict_comp lower (fun s => s) (sheet_names xls).

Definition is_empty (s : string) : bool := (s =? "")%string.

(** A Python value used as a condition: [None] and [''] are false. *)
Definition truthy (o : option string) : option string :=
  match o with
  | Some s => if is_empty s then None else Some s
  | None => None
  end.

Fixpoint row_lookup (cols : list string) (row : list cell) (col : string)
  : option cell :=
  match cols, row with
  | c :: cs, v :: vs => if (c =? col)%string then Some v else row_lookup cs vs col
  | _, _ => None
  end.

(** [row[col]] for a column of the frame. *)
Definition row_at (df : sheet) (row : list cell) (col : string) : cell :=
  match row_lookup (columns df) row col with
  | Some v => v
  | None => None
  end.

(** [row.get(col, "")] *)
Definition row_get (df : sheet) (row : list cell) (col : string) : cell :=
  match row_lookup (columns df) row col with
  | Some v => v
  | None => Some ""
  end.

Fixpoint first_candidate (cols_lower : dict string) (candidates : list string)
  : option string :=
  match candidates with
  | [] => None
  | c :: t =>
      match dict_get cols_lower (lower c) with
      | Some col => Some col
      | None => first_candidate cols_lower t
      end
  end.

Definition find_col (df : sheet) (candidates : list string) : option string :=
  let cols_lower := dict_comp lower (fun c => c) (columns df) in
  first_candidate cols_lower candidates.

Definition safe (val : cell) : string :=
  match val with
  | None => ""
  | Some s => strip s
  end.

Section Parsers.
Context {py : PyFloat}.

(** [fmt_pct] on a text. *)
Definition fmt_pct (v : string) : string :=
  match format_0f v with
  | Some t => t ++ "%"
  | None => if is_empty v then EM_DASH else strip v
  end.

(** [fmt_pct] on a cell: NaN is a float. *)
Definition fmt_pct_cell (v : cell) : string :=
  match v with
  | None => "nan%"
  | Some s => fmt_pct s
  end.

Record host : Type := {
  hostname : string;
  cluster : string;
  model : string;
  esxi : string;
  vms : string;
  cpu : string;
  mem : string;
  svc : string;
  sockets : Z;
  cores_per_socket : Z;
  vcf9 : option verdict       (* the key is absent until a host is annotated *)
}.

Record site : Type := {
  site_name : string;
  clusters : dict (list host);
  vcenter_version : string;
  total_hosts : Z;
  total_vms : Z
}.

(** [x or d] on texts. *)
Definition or_default (x d : string) : string := if is_empty x then d else x.

(** [safe(row[col]) if col else d] *)
Definition field (df : sheet) (row : list cell) (col : option string) (d : string)
  : string :=
  match truthy col with
  | Some c => safe (row_at df row c)
  | None => d
  end.

(** The [try: int(float(safe(row[col])))] block: 0 when the column is
    absent or the text is no number; an infinity is not caught. *)
Definition count_field (df : sheet) (row : list cell) (col : option string)
  : result Z :=
  match truthy col with
  | Some c =>
      match int_of_float (safe (row_at df row c)) with
      | IntVal z => Ok z
      | NotANumber => Ok 0
      | Infinite => Raise (OverflowError "cannot convert float infinity to integer")
      end
  | None => Ok 0
  end.

(** Lines 265-268: the ESXi version shortened to major.minor.patch. *)
Definition shorten_version (esxi : string) : string :=
  match Re.search_version3 esxi with
  | Some g => g
  | None => esxi
  end.

(** [clusters.setdefault(c, []).append(h)] *)
Definition setdefault_append (clusters : dict (list host)) (c : string) (h : host)
  : dict (list host) :=
  match dict_get clusters c with
  | Some hs => dict_set clusters c (hs ++ [h])%list
  | None => dict_set clusters c [h]
  end.

Definition group_by_cluster (hosts : list host) : dict (list host) :=
  fold_left (fun d h => setdefault_append d (cluster h) h) hosts [].

(** The limit of the interpreter on the number of digits of a text that
    [int] converts. *)
Definition MAX_STR_DIGITS : Z := 4300.

(** The number of decimal digits at the front of [v], which [int]
    counts before it converts. *)
Definition leading_digits (v : string) : Z :=
  Z.of_nat (String.length (fst (Re.take_digits v))).

Definition too_long (v : string) : bool := MAX_STR_DIGITS <? leading_digits v.

Definition EXCEEDS_LIMIT (v : string) : exn :=
  ValueError ("Exceeds the limit (4300 digits) for integer string conversion: value has " ++
              str_of_Z (leading_digits v) ++
              " digits; use sys.set_int_max_str_digits() to increase the limit").

(** The message shows at most 200 characters of the text in quotes. *)
Definition INVALID_LITERAL (v : string) : exn :=
  ValueError ("invalid literal for int() with base 10: " ++
              substring 0 200 ("'" ++ v ++ "'")).

(** [int(v) if v.isdigit() else 0]: [int] refuses a text that starts with
    more than 4300 decimal digits, and the superscript digits that
    [isdigit] accepts. *)
Definition vm_count (v : string) : result Z :=
  if isdigit v then
    if too_long v then Raise (EXCEEDS_LIMIT v)
    else if all_chars is_digit v then Ok (int_of_digits 0 v)
    else Raise (INVALID_LITERAL v)
  else Ok 0.

Fixpoint sum_vms (hosts : list host) : result Z :=
  match hosts with
  | [] => Ok 0
  | h :: t =>
      n <- vm_count (vms h) ;;
      rest <- sum_vms t ;;
      Ok (n + rest)
  end.

Definition keep {A} (xs : list (option A)) : list A :=
  flat_map (fun o => match o with Some a => [a] | None => [] end) xs.

(** One iteration of the loop over the rows of vHost: [None] is
    [continue]. *)
Definition rvtools_host (vh : sheet) (col_host col_cluster col_model col_esxi
    col_vms col_cpu col_mem col_svc col_sockets col_cores_cpu : option string)
    (row : list cell) : result (option host) :=
  let hostname := field vh row col_host "" in
  if is_empty hostname then Ok None else
  let cluster := field vh row col_cluster "Default" in
  let model := field vh row col_model "" in
  let esxi := field vh row col_esxi "" in
  let vms := field vh row col_vms "" in
  let cpu := field vh row col_cpu "" in
  let mem := field vh row col_mem "" in
  let svc := field vh row col_svc "" in
  let esxi_short := shorten_version esxi in
  sockets_val <- count_field vh row col_sockets ;;
  cores_val <- count_field vh row col_cores_cpu ;;
  Ok (Some {| hostname := hostname;
              cluster := or_default cluster "Default";
              model := model;
              esxi := esxi_short;
              vms := or_default vms "0";
              cpu := fmt_pct cpu;
              mem := fmt_pct mem;
              svc := svc;
              sockets := sockets_val;
              cores_per_socket := cores_val;
              vcf9 := None |}).

(** The loop over [vs[col_fn].dropna()]. *)
Fixpoint first_vcenter_version (vals : list cell) : string :=
  match vals with
  | [] => ""
  | None :: t => first_vcenter_version t
  | Some val :: t =>
      let s := strip val in
      match Re.or_else (Re.search_vcenter s) (Re.search_version4 s) with
      | Some g => g
      | None => first_vcenter_version t
      end
  end.

Definition rvtools_vcenter_version (xls : workbook) : string :=
  match truthy (dict_get (sheet_names_lower xls) "vsource") with
  | None => ""
  | Some vsource_sheet =>
      match xls_parse xls vsource_sheet with
      | None => ""
      | Some vs =>
          match truthy (find_col vs ["Fullname"; "Full Name"; "Version"; "Name"]) with
          | None => ""
          | Some col_fn =>
              first_vcenter_version (map (fun row => row_at vs row col_fn) (rows vs))
          end
      end
  end.

Definition no_sheet (name : string) : exn :=
  ValueError ("Worksheet named '" ++ name ++ "' not found").

Definition parse_rvtools (xls : workbook) (site_name : string) : result site :=
  match dict_get (sheet_names_lower xls) "vhost" with
  | None => Raise (ValueError ("No vHost sheet found in " ++ site_name))
  | Some vhost_sheet =>
      match xls_parse xls vhost_sheet with
      | None => Raise (no_sheet vhost_sheet)
      | Some vh =>
          let col_host := find_col vh ["VM Host"; "Host"; "DNS Name"; "Name"] in
          let col_cluster := find_col vh ["Cluster"; "Cluster Name"] in
          let col_model := find_col vh ["Model"; "Hardware Model"] in
          let col_esxi := find_col vh ["ESX Version"; "ESXi Version"; "Version"] in
          let col_vms := find_col vh ["# VMs"; "VMs"; "Number of VMs"; "#VMs"] in
          let col_cpu := find_col vh ["CPU usage %"; "CPU %"; "CPU Usage %"; "CPU%"] in
          let col_mem := find_col vh ["Memory usage %"; "Mem %"; "Memory %"; "Mem%"] in
          let col_svc := find_col vh ["Service Tag"; "Serial Number"; "SN"] in
          let col_sockets :=
            find_col vh ["# CPU"; "CPUs"; "CPU Sockets"; "Sockets"; "Num CPU"] in
          let col_cores_cpu :=
            find_col vh ["Cores per CPU"; "# Cores per CPU"; "Cores Per Socket"] in
          found <- for_each (rvtools_host vh col_host col_cluster col_model col_esxi
                               col_vms col_cpu col_mem col_svc col_sockets
                               col_cores_cpu) (rows vh) ;;
          let hosts := keep found in
          let vcenter_version := rvtools_vcenter_version xls in
          let clusters := group_by_cluster hosts in
          total_vms <- sum_vms hosts ;;
          Ok {| site_name := site_name;
                clusters := clusters;
                vcenter_version := vcenter_version;
                total_hosts := Z.of_nat (List.length hosts);
                total_vms := total_vms |}
      end
  end.

(** The loop that fills [perf_map]: the last row of a host name wins. *)
Definition liveoptics_perf_map (perf_df : sheet) : dict (list cell) :=
  fold_left
    (fun perf_map row =>
       let h := safe (row_get perf_df row "Host") in
       if is_empty h then perf_map else dict_set perf_map h row)
    (rows perf_df) [].

(** [perf.get(col, "")] where [perf] is a row of the performance sheet or
    the empty dict. *)
Definition perf_get (perf_df : option sheet) (perf : option (list cell)) (col : string)
  : cell :=
  match perf_df, perf with
  | Some df, Some row => row_get df row col
  | _, _ => Some ""
  end.

Definition liveoptics_host (hosts_df : sheet) (perf_df : option sheet)
    (perf_map : dict (list cell)) (col_lo_sockets col_lo_cores_cpu : option string)
    (row : list cell) : result (option host) :=
  let hostname := safe (row_get hosts_df row "Host Name") in
  if is_empty hostname then Ok None else
  let os_str := safe (row_get hosts_df row "OS") in
  let esxi_short :=
    match Re.search_version3 os_str with
    | Some g => g
    | None => ""
    end in
  let perf := dict_get perf_map hostname in
  sockets_val <- count_field hosts_df row col_lo_sockets ;;
  cores_val <- count_field hosts_df row col_lo_cores_cpu ;;
  Ok (Some {| hostname := hostname;
              cluster := or_default (safe (row_get hosts_df row "Cluster")) "Default";
              model := safe (row_get hosts_df row "Model");
              esxi := esxi_short;
              vms := or_default (safe (row_get hosts_df row "Guest VM Count")) "0";
              cpu := fmt_pct_cell (perf_get perf_df perf "Average CPU %");
              mem := fmt_pct_cell (perf_get perf_df perf "Average Memory %");
              svc := safe (row_get hosts_df row "Serial No");
              sockets := sockets_val;
              cores_per_socket := cores_val;
              vcf9 := None |}).

(** [hosts_df.empty] *)
Definition df_empty (df : sheet) : bool :=
  match rows df, columns df with
  | [], _ | _, [] => true
  | _, _ => false
  end.

Definition liveoptics_vcenter_version (hosts_df : sheet) : string :=
  if df_empty hosts_df then "" else
  match rows hosts_df with
  | [] => ""
  | row0 :: _ =>
      match Re.search_version3 (safe (row_get hosts_df row0 "vCenter")) with
      | Some g => g
      | None => ""
      end
  end.

Definition parse_liveoptics (xls : workbook) (site_name : string) : result site :=
  match dict_get (sheet_names_lower xls) "esx hosts" with
  | None => Raise (ValueError ("No 'ESX Hosts' sheet found in " ++ site_name))
  | Some hosts_sheet =>
      match xls_parse xls hosts_sheet with
      | None => Raise (no_sheet hosts_sheet)
      | Some hosts_df =>
          let col_lo_sockets := find_col hosts_df ["CPU Sockets"; "Sockets"] in
          let col_lo_cores_cpu :=
            find_col hosts_df ["Cores Per Socket"; "Cores per CPU"] in
          let perf_df :=
            match truthy (dict_get (sheet_names_lower xls) "esx performance") with
            | Some perf_sheet => xls_parse xls perf_sheet
            | None => None
            end in
          let perf_map :=
            match perf_df with
            | Some df => liveoptics_perf_map df
            | None => []
            end in
          let vcenter_version := liveoptics_vcenter_version hosts_df in
          found <- for_each (liveoptics_host hosts_df perf_df perf_map
                               col_lo_sockets col_lo_cores_cpu) (rows hosts_df) ;;
          let hosts := keep found in
          let clusters := group_by_cluster hosts in
          total_vms <- sum_vms hosts ;;
          Ok {| site_name := site_name;
                clusters := clusters;
                vcenter_version := vcenter_version;
                total_hosts := Z.of_nat (List.length hosts);
                total_vms := total_vms |}
      end
  end.

(** [x in xs] on a list of texts. *)
Definition mem_str (x : string) (xs : list string) : bool :=
  existsb (String.eqb x) xs.

Definition parse_file (xls : workbook) (site_name : string) : result site :=
  let sheets_lower := map lower (sheet_names xls) in
  if mem_str "vhost" sheets_lower then parse_rvtools xls site_name
  else if mem_str "esx hosts" sheets_lower then parse_liveoptics xls site_name
  else Raise (ValueError (dq ++ site_name ++ dq ++
                          " is not a recognised RVTools or LiveOptics export")).

End Parsers.

(* ------------------------------------------------------------------ *)
(** ** VCF 9 readiness report *)

(** A row of the report; the keys [site], [cluster], ... of the source
    carry the prefix [vr_] here. *)
Record vcf9_row : Type := {
  vr_site : string;
  vr_cluster : string;
  vr_hostname : string;
  vr_model : string;
  vr_esxi : string;
  vr_status : string;
  vr_label : string
}.

Record vcf9_report : Type := {
  vr_rows : list vcf9_row;
  vr_compatible : Z;
  vr_incompatible : Z;
  vr_unknown : Z;
  vr_total : Z
}.

(** The three nested loops of the reports: sites, then the clusters of a
    site in their order, then the hosts of a cluster. *)
Definition for_hosts {S : Type} (body : string -> string -> host -> S -> S)
    (sites : list site) (init : S) : S :=
  fold_left
    (fun acc st =>
       fold_left
         (fun acc (item : string * list host) =>
            fold_left (fun acc h => body (site_name st) (fst item) h acc)
                      (snd item) acc)
         (clusters st) acc)
    sites init.

Definition vcf9_of (h : host) : verdict :=
  match vcf9 h with
  | Some v => v
  | None => {| status := "unknown"; label := "N/A" |}
  end.

Definition build_vcf9_report (sites : list site) : vcf9_report :=
  let step (site_name cluster_name : string) (h : host) (acc : vcf9_report) :=
    let v := vcf9_of h in
    let row := {| vr_site := site_name; vr_cluster := cluster_name;
                  vr_hostname := hostname h; vr_model := model h;
                  vr_esxi := esxi h; vr_status := status v;
                  vr_label := label v |} in
    let is_c := (status v =? "compatible")%string in
    let is_i := (status v =? "incompatible")%string in
    {| vr_rows := (vr_rows acc ++ [row])%list;
       vr_compatible := vr_compatible acc + (if is_c then 1 else 0);
       vr_incompatible :=
         vr_incompatible acc + (if is_c then 0 else if is_i then 1 else 0);
       vr_unknown :=
         vr_unknown acc + (if is_c then 0 else if is_i then 0 else 1);
       vr_total := 0 |} in
  let counted :=
    for_hosts step sites
      {| vr_rows := []; vr_compatible := 0; vr_incompatible := 0;
         vr_unknown := 0; vr_total := 0 |} in
  {| vr_rows := vr_rows counted;
     vr_compatible := vr_compatible counted;
     vr_incompatible := vr_incompatible counted;
     vr_unknown := vr_unknown counted;
     vr_total := Z.of_nat (List.length (vr_rows counted)) |}.

(** [f'"{v}"'] *)
Definition quoted (v : string) : string := dq ++ v ++ dq.

Definition vcf9_fields (row : vcf9_row) : list string :=
  [vr_site row; vr_cluster row; vr_hostname row; vr_model row; vr_esxi row;
   vr_label row].

Definition vcf9_report_csv (report : vcf9_report) : string :=
  let lines :=
    "Site,Cluster,Hostname,Model,ESXi Version,VCF9 Status"
    :: map (fun row => join "," (map quoted (vcf9_fields row))) (vr_rows report) in
  join lf lines.

(* ------------------------------------------------------------------ *)
(** ** Python floats *)

(** Rounding to the nearest integer, ties to even. *)
Definition round_half_even (q : Q) : Z :=
  let f := Qfloor q in
  match ((q - inject_Z f) ?= 1 # 2)%Q with
  | Lt => f
  | Gt => f + 1
  | Eq => if Z.even f then f else f + 1
  end.

(** A Python [float] is an IEEE 754 binary64 number: a finite double,
    given by its value, an infinity or a NaN.  The negative zero is left
    out: the calculator starts from [0.0], multiplies numbers that are
    not zero and adds, and none of these gives it. *)
Inductive pyfloat : Type :=
| Finite (q : Q)
| PosInf
| NegInf
| NaN.

Definition pow2 (e : Z) : Q := (2 ^ e)%Q.

(** The exponent [b] with [2^b <= |q| < 2^(b+1)], for [q] other than 0. *)
Definition binade (q : Q) : Z :=
  let b0 := Z.log2 (Z.abs (Qnum q)) - Z.log2 (Z.pos (Qden q)) in
  if Qle_bool (pow2 b0) (Qabs q) then b0 else b0 - 1.

(** The double nearest to [q], ties to even: 53 bits of precision, the
    least exponent that of the subnormal numbers, and an infinity from
    [2^1024] on. *)
Definition round64 (q : Q) : pyfloat :=
  if Qeq_bool q 0 then Finite 0 else
  let e := Z.max (binade q - 52) (-1074) in
  let r := (inject_Z (round_half_even (q / pow2 e)) * pow2 e)%Q in
  if Qle_bool (pow2 1024) (Qabs r)
  then (if Qle_bool 0 q then PosInf else NegInf)
  else Finite (Qred r).

(** [float(z)] for a Python [int], as [int * float] and [int + float]
    convert their [int]. *)
Definition INT_TOO_LARGE : exn :=
  OverflowError "int too large to convert to float".

Definition float_of_int (z : Z) : result pyfloat :=
  match round64 (inject_Z z) with
  | Finite q => Ok (Finite q)
  | _ => Raise INT_TOO_LARGE
  end.

(** The sign of an infinity times a number that is not zero. *)
Definition signed_inf (positive : bool) : pyfloat :=
  if positive then PosInf else NegInf.

(** [a * b] on floats. *)
Definition float_mul (a b : pyfloat) : pyfloat :=
  match a, b with
  | NaN, _ | _, NaN => NaN
  | Finite x, Finite y => round64 (x * y)
  | Finite x, PosInf | PosInf, Finite x =>
      if Qeq_bool x 0 then NaN else signed_inf (Qle_bool 0 x)
  | Finite x, NegInf | NegInf, Finite x =>
      if Qeq_bool x 0 then NaN else signed_inf (negb (Qle_bool 0 x))
  | PosInf, PosInf | NegInf, NegInf => PosInf
  | PosInf, NegInf | NegInf, PosInf => NegInf
  end.

(** [a + b] on floats. *)
Definition float_add (a b : pyfloat) : pyfloat :=
  match a, b with
  | NaN, _ | _, NaN => NaN
  | Finite x, Finite y => round64 (x + y)
  | Finite _, PosInf | PosInf, Finite _ | PosInf, PosInf => PosInf
  | Finite _, NegInf | NegInf, Finite _ | NegInf, NegInf => NegInf
  | PosInf, NegInf | NegInf, PosInf => NaN
  end.

(** [z * f] for an [int] and a [float]. *)
Definition int_times_float (z : Z) (f : pyfloat) : result pyfloat :=
  x <- float_of_int z ;;
  Ok (float_mul x f).

Definition two_digits (n : nat) : string :=
  String (digit_char (n / 10)) (String (digit_char (n mod 10)) "").

(** [f'{q:.2f}'] for the value of a finite double. *)
Definition fmt_2f (q : Q) : string :=
  let h := Z.to_nat (Z.abs (round_half_even (q * 100)%Q)) in
  (if Qlt_le_dec q 0 then "-" else "") ++
  str_of_nat (h / 100) ++ "." ++ two_digits (h mod 100).

(** [f'{x:.2f}'] *)
Definition fmt_float (x : pyfloat) : string :=
  match x with
  | Finite q => fmt_2f q
  | PosInf => "inf"
  | NegInf => "-inf"
  | NaN => "nan"
  end.

(* ------------------------------------------------------------------ *)
(** ** Licence calculator *)

(** A line of the licence report; the keys of the source carry the prefix
    [lr_] where a field of [host] has the same name. *)
Record license_row : Type := {
  lr_site : string;
  lr_cluster : string;
  lr_hostname : string;
  lr_sockets : Z;
  lr_cores_per_socket : Z;
  foundation_cores : Z;
  entitled_tib : pyfloat;
  missing : bool
}.

Record license_report : Type := {
  lr_rows : list license_row;
  total_cores : Z;
  total_tib : pyfloat;
  missing_count : Z;
  deployment_type : string;
  tib_per_core : pyfloat
}.

Definition tib_per_core_of (deployment_type : string) : pyfloat :=
  if (deployment_type =? "VCF")%string then Finite 1 else Finite (1 # 4).

(** The variables that the loops of [calculate_licensing] update: [rows],
    [total_cores], [total_tib] and [missing_count]. *)
Record license_vars : Type := {
  lv_rows : list license_row;
  lv_total_cores : Z;
  lv_total_tib : pyfloat;
  lv_missing_count : Z
}.

(** The body of the innermost loop of [calculate_licensing]: the product
    of the cores, a Python [int], and the multiplier is a float product,
    and raises when the cores are beyond the floats. *)
Definition license_host (tib_per_core : pyfloat) (site_name cluster_name : string)
    (h : host) (vars : license_vars) : result license_vars :=
  let sockets := sockets h in
  let cores_per_socket := cores_per_socket h in
  if (sockets =? 0) || (cores_per_socket =? 0) then
    Ok {| lv_rows :=
            (lv_rows vars ++
             [{| lr_site := site_name; lr_cluster := cluster_name;
                 lr_hostname := hostname h; lr_sockets := sockets;
                 lr_cores_per_socket := cores_per_socket;
                 foundation_cores := 0; entitled_tib := Finite 0;
                 missing := true |}])%list;
          lv_total_cores := lv_total_cores vars;
          lv_total_tib := lv_total_tib vars;
          lv_missing_count := lv_missing_count vars + 1 |}
  else
    let effective_cores := Z.max cores_per_socket 16 in
    let foundation_cores := sockets * effective_cores in
    entitled_tib <- int_times_float foundation_cores tib_per_core ;;
    Ok {| lv_rows :=
            (lv_rows vars ++
             [{| lr_site := site_name; lr_cluster := cluster_name;
                 lr_hostname := hostname h; lr_sockets := sockets;
                 lr_cores_per_socket := cores_per_socket;
                 foundation_cores := foundation_cores;
                 entitled_tib := entitled_tib; missing := false |}])%list;
          lv_total_cores := lv_total_cores vars + foundation_cores;
          lv_total_tib := float_add (lv_total_tib vars) entitled_tib;
          lv_missing_count := lv_missing_count vars |}.

Definition license_start : license_vars :=
  {| lv_rows := []; lv_total_cores := 0; lv_total_tib := Finite 0;
     lv_missing_count := 0 |}.

(** The loops stop at the first host whose product raises. *)
Definition calculate_licensing (sites : list site) (deployment_type : string)
  : result license_report :=
  let tib_per_core := tib_per_core_of deployment_type in
  vars <- for_hosts
            (fun site_name cluster_name h acc =>
               vars <- acc ;;
               license_host tib_per_core site_name cluster_name h vars)
            sites (Ok license_start) ;;
  Ok {| lr_rows := lv_rows vars;
        total_cores := lv_total_cores vars;
        total_tib := lv_total_tib vars;
        missing_count := lv_missing_count vars;
        deployment_type := deployment_type;
        tib_per_core := tib_per_core |}.

(** The text between two fields of a quoted line: quote, comma, quote. *)
Definition qcq : string := dq ++ "," ++ dq.

Definition license_fields (row : license_row) : list string :=
  let fc := if missing row then "" else str_of_Z (foundation_cores row) in
  let et := if missing row then "" else fmt_float (entitled_tib row) in
  [lr_site row; lr_cluster row; lr_hostname row; str_of_Z (lr_sockets row);
   str_of_Z (lr_cores_per_socket row); fc; et].

(** The f-string of a data line, piece by piece. *)
Definition license_line (row : license_row) : string :=
  let fc := if missing row then "" else str_of_Z (foundation_cores row) in
  let et := if missing row then "" else fmt_float (entitled_tib row) in
  dq ++ lr_site row ++ qcq ++ lr_cluster row ++ qcq ++ lr_hostname row ++ qcq ++
  str_of_Z (lr_sockets row) ++ qcq ++ str_of_Z (lr_cores_per_socket row) ++ qcq ++
  fc ++ qcq ++ et ++ dq.

Definition license_total_line (report : license_report) : string :=
  dq ++ "Total" ++ qcq ++ qcq ++ qcq ++ qcq ++ qcq ++
  str_of_Z (total_cores report) ++ qcq ++ fmt_float (total_tib report) ++ dq.

Definition license_report_csv (report : license_report) : string :=
  let lines :=
    (("Site,Cluster,Hostname,Sockets,Cores per Socket,Foundation Cores,Entitled TiB"
     :: map license_line (lr_rows report)) ++ [license_total_line report])%list in
  join lf lines.

(* ------------------------------------------------------------------ *)
(** ** Reading a CSV line back

    The reader against which the formatters are checked: fields are
    separated by commas; a field that starts with a double quote runs to
    the closing one, a doubled quote inside it standing for one quote. *)

Inductive csv_state : Type :=
| FieldStart        (* at the start of a field *)
| Unquoted          (* inside a field without quotes *)
| Quoted            (* inside a quoted field *)
| QuoteSeen.        (* after a quote met inside a quoted field *)

Definition push (cur : string) (c : ascii) : string := cur ++ String c "".

Fixpoint csv_read (st : csv_state) (cur : string) (done : list string) (s : string)
  : option (list string) :=
  match s with
  | "" =>
      match st with
      | Quoted => None
      | _ => Some (done ++ [cur])%list
      end
  | String c t =>
      match st with
      | FieldStart =>
          if Ascii.eqb c DQ then csv_read Quoted "" done t
          else if Ascii.eqb c "," then csv_read FieldStart "" (done ++ [""])%list t
          else csv_read Unquoted (push "" c) done t
      | Unquoted =>
          if Ascii.eqb c DQ then None
          else if Ascii.eqb c "," then csv_read FieldStart "" (done ++ [cur])%list t
          else csv_read Unquoted (push cur c) done t
      | Quoted =>
          if Ascii.eqb c DQ then csv_read QuoteSeen cur done t
          else csv_read Quoted (push cur c) done t
      | QuoteSeen =>
          if Ascii.eqb c DQ then csv_read Quoted (push cur c) done t
          else if Ascii.eqb c "," then csv_read FieldStart "" (done ++ [cur])%list t
          else None
      end
  end.

Definition csv_read_line (line : string) : option (list string) :=
  csv_read FieldStart "" [] line.

(** [text.split("\n")] *)
Fixpoint split_lines_from (cur : string) (s : string) : list string :=
  match s with
  | "" => [cur]
  | String c t =>
      if Ascii.eqb c LF then cur :: split_lines_from "" t
      else split_lines_from (push cur c) t
  end.

Definition split_lines (s : string) : list string := split_lines_from "" s.

(** A field value without double quote and without line break. *)
Definition plain_char (c : ascii) : bool :=
  negb (Ascii.eqb c DQ) && negb (Ascii.eqb c LF) && negb (Ascii.eqb c CR).

Definition plain (v : string) : bool := all_chars plain_char v.

(* ------------------------------------------------------------------ *)
(** ** Excalidraw generation *)

Record palette : Type := {
  zone_bg : string; zone_stroke : string;
  hdr_bg : string; hdr_text : string;
  cluster_bg : string; cluster_stroke : string;
  host_bg : string; host_stroke : string;
  host_text : string
}.

Definition mk_palette (zb zs hb ht cb cs ob os ot : string) : palette :=
  {| zone_bg := zb; zone_stroke := zs; hdr_bg := hb; hdr_text := ht;
     cluster_bg := cb; cluster_stroke := cs; host_bg := ob; host_stroke := os;
     host_text := ot |}.

Definition PALETTES : list palette :=
  [ mk_palette "#E3F5F4" "#2DC4B8" "#2DC4B8" "#FFFFFF" "#EAF8F7" "#2DC4B8"
               "#FFFFFF" "#7DD4CE" "#0D4A45";
    mk_palette "#E8F0FB" "#1A5DAD" "#1A5DAD" "#FFFFFF" "#EDF3FD" "#1A5DAD"
               "#FFFFFF" "#5B9BD5" "#0D3B78";
    mk_palette "#E8F5EE" "#1E8449" "#1E8449" "#FFFFFF" "#EDF7F1" "#1E8449"
               "#FFFFFF" "#52BE80" "#145A32";
    mk_palette "#EDE8F7" "#5B3DAB" "#5B3DAB" "#FFFFFF" "#F3F0FB" "#5B3DAB"
               "#FFFFFF" "#9B7DD4" "#3D2580";
    mk_palette "#EAF0F0" "#2E7D8C" "#2E7D8C" "#FFFFFF" "#EEF4F5" "#2E7D8C"
               "#FFFFFF" "#6BB8C4" "#1A4D56";
    mk_palette "#FAE8E8" "#C0392B" "#C0392B" "#FFFFFF" "#FDF0F0" "#C0392B"
               "#FFFFFF" "#E57373" "#7B241C" ].

(** [PALETTES[idx % len(PALETTES)]] *)
Definition palette_at (idx : nat) : palette :=
  nth (idx mod List.length PALETTES) PALETTES
      (mk_palette "" "" "" "" "" "" "" "" "").

Definition ZONE_W : Z := 780.
Definition COLS : Z := 3.
Definition HOST_W : Z := 230.
Definition HOST_H : Z := 120.
Definition CLUSTER_H : Z := 28.
Definition HEADER_H : Z := 65.
Definition PAD : Z := 12.
Definition COL_GAP : Z := 10.
Definition ROW_GAP : Z := 8.
Definition ZONE_GAP : Z := 30.
Definition CANVAS_X : Z := 60.
Definition CANVAS_Y : Z := 60.

(** An element of the document.  The keys that the source sets to the same
    constant in every element (angle, fillStyle, opacity, ...) and the
    seed, a hash of the identifier, are left out.  [el_roundness] is the
    [value] of the key [roundness], which only rectangles have; the keys
    from [text] on exist in text elements only. *)
Record element : Type := {
  el_id : nat;
  el_type : string;
  el_x : Z; el_y : Z; el_width : Z; el_height : Z;
  el_strokeColor : string;
  el_backgroundColor : string;
  el_roundness : option Z;
  el_boundElements : list nat;
  el_text : option string;
  el_fontSize : option Z;
  el_fontFamily : option Z;
  el_verticalAlign : option string;
  el_containerId : option nat
}.

(** Identifiers are drawn from a counter. *)
Definition gen (A : Type) : Type := nat -> A * nat.

Definition ret {A} (a : A) : gen A := fun n => (a, n).

Definition bind_gen {A B} (g : gen A) (f : A -> gen B) : gen B :=
  fun n => let (a, n') := g n in f a n'.

Notation "x <~ e ;; k" := (bind_gen e (fun x => k))
  (at level 61, e at next level, right associativity).

Definition uid : gen nat := fun n => (n, S n).

Definition rect (id_ : nat) (x y w h : Z) (bg stroke text : string) (font_size : Z)
    (bold : bool) (text_color v_align : string) (rounded : Z) : gen (list element) :=
  let el bound :=
    {| el_id := id_; el_type := "rectangle";
       el_x := x; el_y := y; el_width := w; el_height := h;
       el_strokeColor := stroke; el_backgroundColor := bg;
       el_roundness := Some rounded; el_boundElements := bound;
       el_text := None; el_fontSize := None; el_fontFamily := None;
       el_verticalAlign := None; el_containerId := None |} in
  if is_empty text then ret [el []] else
  txt_id <~ uid ;;
  let txt :=
    {| el_id := txt_id; el_type := "text";
       el_x := x; el_y := y; el_width := w; el_height := h;
       el_strokeColor := text_color; el_backgroundColor := "transparent";
       el_roundness := None; el_boundElements := [];
       el_text := Some text;
       el_fontSize := Some (if bold then font_size + 1 else font_size);
       el_fontFamily := Some (if bold then 1 else 3);
       el_verticalAlign := Some v_align; el_containerId := Some id_ |} in
  ret [el [txt_id]; txt].

Definition MIDDLE_DOT : string := String "183"%char "".

(** [(len(chosts) + COLS - 1) // COLS] *)
Definition grid_rows (chosts : list host) : Z :=
  (Z.of_nat (List.length chosts) + COLS - 1) / COLS.

Definition host_label (vcf9_enabled : bool) (h : host) : string :=
  let lines :=
    [ hostname h;
      if is_empty (model h) then EM_DASH else model h;
      if is_empty (svc h) then "SVC: " ++ EM_DASH else "SVC: " ++ svc h;
      if is_empty (esxi h) then "ESXi " ++ EM_DASH else "ESXi " ++ esxi h;
      "VMs:" ++ vms h ++ "  CPU:" ++ cpu h ++ "  Mem:" ++ mem h ] in
  let lines :=
    match vcf9 h with
    | Some v => if vcf9_enabled then (lines ++ [label v])%list else lines
    | None => lines
    end in
  join lf lines.

Definition host_stroke_of (p : palette) (vcf9_enabled : bool) (h : host) : string :=
  match vcf9 h with
  | Some v =>
      if vcf9_enabled && (status v =? "incompatible")%string
      then "#E57373" else host_stroke p
  | None => host_stroke p
  end.

(** The loop [for i, h in enumerate(chosts)], from index [i] on. *)
Fixpoint host_boxes (p : palette) (vcf9_enabled : bool) (x_cursor cy host_h : Z)
    (i : Z) (chosts : list host) : gen (list element) :=
  match chosts with
  | [] => ret []
  | h :: t =>
      let col_i := i mod COLS in
      let row_i := i / COLS in
      let hx := x_cursor + PAD + col_i * (HOST_W + COL_GAP) in
      let hy := cy + row_i * (host_h + ROW_GAP) in
      h_id <~ uid ;;
      h_els <~ rect h_id hx hy HOST_W host_h (host_bg p)
                 (host_stroke_of p vcf9_enabled h) (host_label vcf9_enabled h)
                 9 false (host_text p) "middle" 6 ;;
      rest <~ host_boxes p vcf9_enabled x_cursor cy host_h (i + 1) t ;;
      ret (h_els ++ rest)%list
  end.

(** The loop [for cname, chosts in clusters.items()] that draws. *)
Fixpoint cluster_bands (p : palette) (vcf9_enabled : bool) (x_cursor host_h : Z)
    (cy : Z) (clusters : dict (list host)) : gen (list element) :=
  match clusters with
  | [] => ret []
  | (cname, chosts) :: t =>
      c_id <~ uid ;;
      c_els <~ rect c_id (x_cursor + PAD) cy (ZONE_W - 2 * PAD) CLUSTER_H
                 (cluster_bg p) (cluster_stroke p) cname 11 true
                 (zone_stroke p) "middle" 4 ;;
      let cy := cy + CLUSTER_H + PAD in
      let rows := grid_rows chosts in
      hs <~ host_boxes p vcf9_enabled x_cursor cy host_h 0 chosts ;;
      let cy := cy + rows * (host_h + ROW_GAP) + PAD in
      rest <~ cluster_bands p vcf9_enabled x_cursor host_h cy t ;;
      ret (c_els ++ hs ++ rest)%list
  end.

(** The loop that computes the height of a zone. *)
Definition zone_height (host_h : Z) (clusters : dict (list host)) : Z :=
  let zone_inner_y :=
    fold_left
      (fun z (item : string * list host) =>
         z + (CLUSTER_H + PAD + grid_rows (snd item) * (host_h + ROW_GAP)))
      clusters (HEADER_H + PAD) in
  zone_inner_y + PAD.

(** The text of the header of a site ([hdr_text] in the source). *)
Definition site_header (st : site) : string :=
  let header :=
    site_name st ++ "  " ++ MIDDLE_DOT ++ "  " ++ str_of_Z (total_hosts st) ++
    " hosts  " ++ MIDDLE_DOT ++ "  " ++ str_of_Z (total_vms st) ++ " VMs" in
  if is_empty (vcenter_version st) then header
  else header ++ lf ++ "vCenter " ++ vcenter_version st.

(** One iteration of the loop over the sites. *)
Definition site_zone (vcf9_enabled : bool) (host_h : Z) (idx : nat) (st : site)
    (x_cursor : Z) : gen (list element) :=
  let p := palette_at idx in
  let zone_h := zone_height host_h (clusters st) in
  zone_id <~ uid ;;
  let y0 := CANVAS_Y in
  zone_els <~ rect zone_id x_cursor y0 ZONE_W zone_h (zone_bg p) (zone_stroke p)
                "" 12 false "#1C2E44" "middle" 12 ;;
  let header := site_header st in
  hdr_id <~ uid ;;
  hdr_els <~ rect hdr_id x_cursor y0 ZONE_W HEADER_H (hdr_bg p) (hdr_bg p)
               header 14 true (hdr_text p) "middle" 10 ;;
  let cy := y0 + HEADER_H + PAD in
  cl <~ cluster_bands p vcf9_enabled x_cursor host_h cy (clusters st) ;;
  ret (zone_els ++ hdr_els ++ cl)%list.

(** The loop [for idx, site in enumerate(sites)], from index [idx] on: the
    elements and the final [x_cursor]. *)
Fixpoint site_zones (vcf9_enabled : bool) (host_h : Z) (idx : nat) (x_cursor : Z)
    (sites : list site) : gen (list element * Z) :=
  match sites with
  | [] => ret ([], x_cursor)
  | st :: t =>
      els <~ site_zone vcf9_enabled host_h idx st x_cursor ;;
      rest <~ site_zones vcf9_enabled host_h (S idx) (x_cursor + ZONE_W + ZONE_GAP) t ;;
      ret ((els ++ fst rest)%list, snd rest)
  end.

Definition legend_text : string :=
  "VCF 9 Compatibility" ++ lf ++ CHECK_MARK ++ " VCF x.x Ready" ++ lf ++
  CROSS_MARK ++ " Not VCF9 Ready" ++ lf ++ WARNING_SIGN ++ " VCF9 ? " ++
  EM_DASH ++ " model unknown".

(** The document that [json.dumps] serialises. *)
Record document : Type := {
  doc_type : string;
  doc_version : Z;
  doc_source : string;
  elements : list element;
  viewBackgroundColor : string
}.

Definition host_height (vcf9_enabled : bool) : Z :=
  if vcf9_enabled then 140 else HOST_H.

Definition generate_elements (sites : list site) (vcf9_enabled : bool)
  : gen (list element) :=
  let host_h := host_height vcf9_enabled in
  zs <~ site_zones vcf9_enabled host_h 0 CANVAS_X sites ;;
  let x_cursor := snd zs in
  if vcf9_enabled then
    legend_id <~ uid ;;
    legend_els <~ rect legend_id x_cursor CANVAS_Y 220 90 "#FFF9E6" "#D4A017"
                    legend_text 9 false "#4A4A00" "middle" 8 ;;
    ret (fst zs ++ legend_els)%list
  else ret (fst zs).

Definition generate_excalidraw (sites : list site) (vcf9_enabled : bool) : document :=
  {| doc_type := "excalidraw";
     doc_version := 2;
     doc_source := "https://excalidraw.com";
     elements := fst (generate_elements sites vcf9_enabled 0%nat);
     viewBackgroundColor := "#F4F5F7" |}.

(** The kinds of rectangle are told apart by their corner radius: 12 for
    a site zone, 10 for a site header, 4 for a cluster label bar, 6 for a
    host box and 8 for the legend. *)
Definition is_rect_of (rounded : Z) (e : element) : bool :=
  (el_type e =? "rectangle")%string &&
  match el_roundness e with
  | Some v => v =? rounded
  | None => false
  end.

Definition is_zone : element -> bool := is_rect_of 12.
Definition is_cluster_label : element -> bool := is_rect_of 4.
Definition is_host_box : element -> bool := is_rect_of 6.

(** Two boxes overlap when their interiors meet. *)
Definition overlap (a b : element) : Prop :=
  el_x a < el_x b + el_width b /\ el_x b < el_x a + el_width a /\
  el_y a < el_y b + el_height b /\ el_y b < el_y a + el_height a.

(* ------------------------------------------------------------------ *)
(** ** What the properties speak of *)

(** *** The label as the specification words it

    The specification describes the label of a compatible model as the
    list of the distinct version strings of the entry.  [_vcf9_label] is
    compared with this reading below. *)

Definition distinct_versions (releases : list string) : list string :=
  nodup string_dec (map (replace "ESXi " "") releases).

Definition label_of_distinct_versions (releases : list string) : string :=
  CHECK_MARK ++ " VCF " ++ join " + " (sorted (distinct_versions releases)) ++ " Ready".

(** [a <= b] on texts, as a proposition. *)
Definition str_le (a b : string) : Prop := String.leb a b = true.

(** *** Version patterns *)

(** A non-empty run of decimal digits. *)
Definition digit_run (d : string) : Prop :=
  d <> "" /\ all_chars is_digit d = true.

(** [dotted k v]: [v] is [k + 1] digit runs separated by dots. *)
Inductive dotted : nat -> string -> Prop :=
| dotted_one d : digit_run d -> dotted 0 d
| dotted_more k d v : digit_run d -> dotted k v -> dotted (S k) (d ++ "." ++ v).

(** A text that is exactly major.minor.patch. *)
Definition version_pattern (v : string) : Prop := dotted 2 v.

(** [s] has a part that satisfies [P]. *)
Definition occurs (P : string -> Prop) (s : string) : Prop :=
  exists pre v post, P v /\ s = pre ++ v ++ post.

(** What follows a digit run that cannot be extended. *)
Definition run_end (r : string) : Prop :=
  match r with
  | "" => True
  | String c _ => is_digit c = false
  end.

(** *** Host rows and cluster maps *)

(** The frame that each parser reads its hosts from. *)
Definition frame_of (xls : workbook) (lower_name : string) : option sheet :=
  match dict_get (sheet_names_lower xls) lower_name with
  | Some name => xls_parse xls name
  | None => None
  end.

(** The host name that each parser reads in a row. *)
Definition rvtools_hostname (vh : sheet) (row : list cell) : string :=
  field vh row (find_col vh ["VM Host"; "Host"; "DNS Name"; "Name"]) "".

Definition liveoptics_hostname (hosts_df : sheet) (row : list cell) : string :=
  safe (row_get hosts_df row "Host Name").

(** The rows of the host frame whose host name is not empty. *)
Definition named_rows (name_of : sheet -> list cell -> string) (df : option sheet)
  : list (list cell) :=
  match df with
  | Some d => filter (fun row => negb (is_empty (name_of d row))) (rows d)
  | None => []
  end.

(** The named rows of the host sheet that the dispatcher's choice of
    parser reads. *)
Definition parsed_rows (xls : workbook) : list (list cell) :=
  if mem_str "vhost" (map lower (sheet_names xls))
  then named_rows rvtools_hostname (frame_of xls "vhost")
  else named_rows liveoptics_hostname (frame_of xls "esx hosts").

(** The number of hosts over all the clusters of a cluster map. *)
Definition hosts_in_clusters {H : Type} (clusters : dict (list H)) : nat :=
  list_sum (map (fun item => List.length (snd item)) clusters).

(** *** Licence lines *)

(** The hosts of a list of sites in the order of the three loops of the
    reports, each with the name of its site and of its cluster. *)
Definition hosts_of_sites (sites : list site) : list (string * string * host) :=
  flat_map
    (fun st =>
       flat_map
         (fun item : string * list host =>
            map (fun h => (site_name st, fst item, h)) (snd item))
         (clusters st))
    sites.

Definition sumZ (l : list Z) : Z := fold_right Z.add 0 l.

(** What a licence line says of its host. *)
Definition line_host (row : license_row) : string * string * string * Z * Z :=
  (lr_site row, lr_cluster row, lr_hostname row, lr_sockets row,
   lr_cores_per_socket row).

Definition host_line (item : string * string * host)
  : string * string * string * Z * Z :=
  let '(site_name, cluster_name, h) := item in
  (site_name, cluster_name, hostname h, sockets h, cores_per_socket h).

(** The rule of the calculator for one line, with multiplier [mult]: the
    entitlement is the float product of the cores and the multiplier. *)
Definition license_rule (mult : pyfloat) (row : license_row) : Prop :=
  if (lr_sockets row =? 0) || (lr_cores_per_socket row =? 0)
  then missing row = true /\ foundation_cores row = 0 /\
       entitled_tib row = Finite 0
  else missing row = false /\
       foundation_cores row =
         lr_sockets row * Z.max (lr_cores_per_socket row) 16 /\
       int_times_float (foundation_cores row) mult = Ok (entitled_tib row).

(** The float [x] is finite and has the value [q]. *)
Definition float_is (x : pyfloat) (q : Q) : Prop :=
  match x with
  | Finite v => (v == q)%Q
  | _ => False
  end.

(** [total_tib] as the loop leaves it: the entitlements added one after
    the other, from [acc]. *)
Definition float_sum (acc : pyfloat) (l : list pyfloat) : pyfloat :=
  fold_left float_add l acc.

(** The cores that the calculator charges a host. *)
Definition licensed_cores (h : host) : Z :=
  if (sockets h =? 0) || (cores_per_socket h =? 0) then 0
  else sockets h * Z.max (cores_per_socket h) 16.

(** [float(z)] does not raise. *)
Definition float_range (z : Z) : bool :=
  match float_of_int z with
  | Ok _ => true
  | Raise _ => false
  end.

(** The body of the loops of [calculate_licensing] for one host, the
    exception of an earlier host passed on. *)
Definition license_step (mult : pyfloat) (acc : result license_vars)
    (item : string * string * host) : result license_vars :=
  let '(s, c, h) := item in
  vars <- acc ;; license_host mult s c h vars.

(** The cores of all the hosts are within the floats. *)
Definition cores_in_range (sites : list site) : bool :=
  forallb (fun item : string * string * host => float_range (licensed_cores (snd item)))
          (hosts_of_sites sites).

(** The multiplier as a number. *)
Definition multiplier (deployment_type : string) : Q :=
  if (deployment_type =? "VCF")%string then 1 else 1 # 4.

(** The cores of the lines add up, in absolute value, to less than
    [2^53]: every product and every partial sum is then a double. *)
Definition exact_cores (rws : list license_row) : Prop :=
  sumZ (map (fun row => Z.abs (foundation_cores row)) rws) < 2 ^ 53.

(** The lines that count in the totals. *)
Definition counted (rws : list license_row) : list license_row :=
  filter (fun row => negb (missing row)) rws.

(** *** CSV lines *)

(** A text without line feed. *)
Definition one_line (v : string) : bool :=
  all_chars (fun c => negb (Ascii.eqb c LF)) v.

(** A text without double quote. *)
Definition quote_free (v : string) : bool :=
  all_chars (fun c => negb (Ascii.eqb c DQ)) v.

(** A text without comma. *)
Definition comma_free (v : string) : bool :=
  all_chars (fun c => negb (Ascii.eqb c ",")) v.

Definition vcf9_csv_header : string :=
  "Site,Cluster,Hostname,Model,ESXi Version,VCF9 Status".

Definition license_csv_header : string :=
  "Site,Cluster,Hostname,Sockets,Cores per Socket,Foundation Cores,Entitled TiB".

(** The fields of the last line of the licence CSV. *)
Definition license_total_fields (report : license_report) : list string :=
  ["Total"; ""; ""; ""; ""; str_of_Z (total_cores report);
   fmt_float (total_tib report)].

(** A licence line whose three texts are plain. *)
Definition plain_license_row (row : license_row) : Prop :=
  plain (lr_site row) = true /\ plain (lr_cluster row) = true /\
  plain (lr_hostname row) = true.

(** *** The layout as plain geometry *)

(** A box: x, y, width and height. *)
Definition box : Type := (Z * Z * Z * Z)%type.

Definition geometry (e : element) : box :=
  (el_x e, el_y e, el_width e, el_height e).

Definition boxes_overlap (a b : box) : Prop :=
  let '(ax, ay, aw, ah) := a in
  let '(bx, by_, bw, bh) := b in
  ax < bx + bw /\ bx < ax + aw /\ ay < by_ + bh /\ by_ < ay + ah.

(** The boxes of the rectangles of corner radius [k] among [els], in the
    order of the document. *)
Definition shapes (k : Z) (els : list element) : list box :=
  map geometry (filter (is_rect_of k) els).

Definition only (k rounded : Z) (b : box) : list box :=
  if k =? rounded then [b] else [].

(** The box of the host of index [i] in a cluster drawn from [cy] on. *)
Definition host_box_at (x_cursor cy host_h i : Z) : box :=
  (x_cursor + PAD + (i mod COLS) * (HOST_W + COL_GAP),
   cy + (i / COLS) * (host_h + ROW_GAP), HOST_W, host_h).

Fixpoint host_grid (x_cursor cy host_h i : Z) (count : nat) : list box :=
  match count with
  | O => []
  | S count' =>
      host_box_at x_cursor cy host_h i :: host_grid x_cursor cy host_h (i + 1) count'
  end.

(** The rectangles of radius [k] that the clusters of a site give. *)
Fixpoint band_rects (k x_cursor host_h cy : Z) (clusters : dict (list host))
  : list box :=
  match clusters with
  | [] => []
  | (_, chosts) :: t =>
      (only k 4 (x_cursor + PAD, cy, ZONE_W - 2 * PAD, CLUSTER_H) ++
       (if k =? 6
        then host_grid x_cursor (cy + CLUSTER_H + PAD) host_h 0 (List.length chosts)
        else []) ++
       band_rects k x_cursor host_h
         (cy + CLUSTER_H + PAD + grid_rows chosts * (host_h + ROW_GAP) + PAD) t)%list
  end.

(** The rectangles of radius [k] that the sites give. *)
Fixpoint zone_rects (k host_h x_cursor : Z) (sites : list site) : list box :=
  match sites with
  | [] => []
  | st :: t =>
      (only k 12 (x_cursor, CANVAS_Y, ZONE_W, zone_height host_h (clusters st)) ++
       only k 10 (x_cursor, CANVAS_Y, ZONE_W, HEADER_H) ++
       band_rects k x_cursor host_h (CANVAS_Y + HEADER_H + PAD) (clusters st) ++
       zone_rects k host_h (x_cursor + ZONE_W + ZONE_GAP) t)%list
  end.

(** No cluster of the first map has more hosts than the cluster at the
    same place in the second. *)
Definition no_more_hosts (c1 c2 : dict (list host)) : Prop :=
  Forall2 (fun a b => (List.length (snd a) <= List.length (snd b))%nat) c1 c2.

(** *** Reading a cluster off the document *)










(* ------------------------------------------------------------------ *)
(** ** Sample data *)

Definition digits_text (s : string) : bool :=
  negb (is_empty s) && all_chars is_digit s && (String.length s <=? 15)%nat.

(** A [PyFloat] that follows Python on the texts of at most fifteen
    decimal digits, which a float holds exactly, and rejects every other
    text.  The sample workbooks contain no other numeric text. *)
Definition digits_float : PyFloat :=
  {| int_of_float := fun s =>
       if digits_text s then IntVal (int_of_digits 0 s) else NotANumber;
     format_0f := fun s =>
       if digits_text s then Some (str_of_Z (int_of_digits 0 s)) else None |}.

Definition sample_lookup : dict (list string) :=
  build_vcf9_lookup
    [ {| m := "PowerEdge R640"; r := ["ESXi 9.0"; "ESXi 8.0 U3"] |};
      {| m := "ProLiant DL380 Gen10"; r := ["ESXi 9.0"; "ESXi 9.0"] |} ].

(** An RVTools export: four hosts, three of them in ClusterA and one in
    ClusterB, and a row without host name. *)
Definition rvtools_row (name clu vm : string) : list cell :=
  [Some name; Some clu; Some "Dell Inc. PowerEdge R640";
   Some "VMware ESXi 7.0.3 build-19193900"; Some vm; Some "35"; Some "61";
   Some "ABC1234"; Some "2"; Some "8"].

Definition sample_rvtools : workbook :=
  [ ("vInfo", {| columns := ["VM"]; rows := [[Some "vm-001"]] |});
    ("vHost",
     {| columns := ["Host"; "Cluster"; "Model"; "ESX Version"; "# VMs";
                    "CPU usage %"; "Memory usage %"; "Service Tag"; "# CPU";
                    "Cores per CPU"];
        rows := [ rvtools_row "esx01.lab" "ClusterA" "12";
                  rvtools_row "esx02.lab" "ClusterA" "9";
                  [None; Some "ClusterA"; None; None; None; None; None; None;
                   None; None];
                  rvtools_row "esx03.lab" "ClusterA" "n/a";
                  rvtools_row "esx04.lab" "ClusterB" "4" ] |});
    ("vSource",
     {| columns := ["Name"; "Fullname"];
        rows := [[Some "vc01.lab";
                  Some "VMware vCenter Server 7.0.3 build-19234570"]] |}) ].

(** A LiveOptics export: two hosts and a row whose host name is blank. *)
Definition sample_liveoptics : workbook :=
  [ ("ESX Hosts",
     {| columns := ["Host Name"; "Cluster"; "Model"; "OS"; "Guest VM Count";
                    "Serial No"; "CPU Sockets"; "Cores Per Socket"; "vCenter"];
        rows := [ [Some "lo-esx1"; Some "Prod"; Some "HPE ProLiant DL380 Gen10";
                   Some "VMware ESXi 8.0.2"; Some "20"; Some "SN1"; Some "2";
                   Some "24"; Some "vc 8.0.2"];
                  [Some "   "; Some "Prod"; None; None; None; None; None; None;
                   None];
                  [Some "lo-esx2"; None; Some "ProLiant DL380 Gen10"; None;
                   Some "7"; Some "SN2"; Some "2"; None; None] ] |});
    ("ESX Performance",
     {| columns := ["Host"; "Average CPU %"; "Average Memory %"];
        rows := [[Some "lo-esx1"; Some "41"; Some "77"]] |}) ].

(** A workbook of neither format. *)
Definition sample_other : workbook :=
  [ ("Sheet1", {| columns := ["a"]; rows := [] |}) ].

Definition empty_site : site :=
  {| site_name := ""; clusters := []; vcenter_version := "";
     total_hosts := 0; total_vms := 0 |}.

Definition site_of (res : result site) : site :=
  match res with
  | Ok st => st
  | Raise _ => empty_site
  end.

(** The sites parsed from the two sample exports. *)
Definition paris : site := site_of (@parse_file digits_float sample_rvtools "Paris").
Definition lyon : site := site_of (@parse_file digits_float sample_liveoptics "Lyon").

(** A readiness report whose first site name holds a comma. *)
Definition sample_vcf9_report : vcf9_report :=
  {| vr_rows :=
       [ {| vr_site := "Paris, France"; vr_cluster := "ClusterA";
            vr_hostname := "esx01.lab"; vr_model := "PowerEdge R640";
            vr_esxi := "7.0.3"; vr_status := "compatible";
            vr_label := "VCF 8.0 U3 + 9.0 Ready" |};
         {| vr_site := "Lyon"; vr_cluster := "Default";
            vr_hostname := "lo-esx2"; vr_model := ""; vr_esxi := "";
            vr_status := "unknown"; vr_label := "VCF9 ?" |} ];
     vr_compatible := 1; vr_incompatible := 0; vr_unknown := 1; vr_total := 2 |}.

(** The licence report of the two sample sites. *)
Definition sample_license_report : license_report :=
  match calculate_licensing [paris; lyon] "VCF" with
  | Ok report => report
  | Raise _ =>
      {| lr_rows := []; total_cores := 0; total_tib := Finite 0;
         missing_count := 0; deployment_type := "VCF";
         tib_per_core := Finite 1 |}
  end.

(** Two values with a double quote: the first has no comma and no line
    break; the second has a comma between two double quotes. *)
Definition quote_inside : string := "a" ++ dq ++ "b".
Definition field_break_inside : string := "x" ++ dq ++ "," ++ dq ++ "y".

(* ------------------------------------------------------------------ *)
(** ** What the further properties speak of *)

(** The last element of a list that satisfies [p]. *)
Fixpoint find_last {A} (p : A -> bool) (xs : list A) : option A :=
  match xs with
  | [] => None
  | x :: t =>
      match find_last p t with
      | Some y => Some y
      | None => if p x then Some x else None
      end
  end.

(** The texts of a list in the order in which they are first seen. *)
Fixpoint first_seen (l : list string) : list string :=
  match l with
  | [] => []
  | x :: t => x :: filter (fun y => negb (y =? x)%string) (first_seen t)
  end.

(** The key under which [build_vcf9_lookup] files an entry. *)
Definition hcl_key (e : hcl_entry) : string := lower (strip (m e)).

(** A VM count that [str.isdigit] accepts and [int] refuses. *)
Definition bad_vm_text (v : string) : bool :=
  isdigit v && (too_long v || negb (all_chars is_digit v)).

(** What [int] raises on such a text. *)
Definition int_error (v : string) : exn :=
  if too_long v then EXCEEDS_LIMIT v else INVALID_LITERAL v.

(** The number of VMs that a host adds to [total_vms]. *)
Definition vm_value (v : string) : Z :=
  if isdigit v then int_of_digits 0 v else 0.

(** All the hosts of a cluster map, cluster after cluster. *)
Definition hosts_of_clusters (clusters : dict (list host)) : list host :=
  List.concat (map snd clusters).

(** What a parser guarantees of a host filed under cluster [c]. *)
Definition well_formed_host (c : string) (h : host) : Prop :=
  cluster h = c /\ hostname h <> "" /\ strip (hostname h) = hostname h /\
  vms h <> "".

Definition OVERFLOW : exn :=
  OverflowError "cannot convert float infinity to integer".

Section RowOutcomes.
Context {py : PyFloat}.

(** The count of a row reads as an infinite float. *)
Definition reads_infinite (df : sheet) (row : list cell) (col : option string) : bool :=
  match count_field df row col with
  | Ok _ => false
  | Raise _ => true
  end.

(** A named row of vHost whose socket or core count is infinite. *)
Definition rvtools_overflows (vh : sheet) (row : list cell) : bool :=
  negb (is_empty (rvtools_hostname vh row)) &&
  (reads_infinite vh row
     (find_col vh ["# CPU"; "CPUs"; "CPU Sockets"; "Sockets"; "Num CPU"]) ||
   reads_infinite vh row
     (find_col vh ["Cores per CPU"; "# Cores per CPU"; "Cores Per Socket"])).

(** The VM count that [parse_rvtools] keeps for a row. *)
Definition rvtools_vms (vh : sheet) (row : list cell) : string :=
  or_default (field vh row (find_col vh ["# VMs"; "VMs"; "Number of VMs"; "#VMs"]) "")
             "0".

Definition rvtools_bad_vms (vh : sheet) (row : list cell) : bool :=
  negb (is_empty (rvtools_hostname vh row)) && bad_vm_text (rvtools_vms vh row).

Definition liveoptics_overflows (df : sheet) (row : list cell) : bool :=
  negb (is_empty (liveoptics_hostname df row)) &&
  (reads_infinite df row (find_col df ["CPU Sockets"; "Sockets"]) ||
   reads_infinite df row (find_col df ["Cores Per Socket"; "Cores per CPU"])).

Definition liveoptics_vms (df : sheet) (row : list cell) : string :=
  or_default (safe (row_get df row "Guest VM Count")) "0".

Definition liveoptics_bad_vms (df : sheet) (row : list cell) : bool :=
  negb (is_empty (liveoptics_hostname df row)) && bad_vm_text (liveoptics_vms df row).

End RowOutcomes.

Definition NO_VHOST (site_name : string) : exn :=
  ValueError ("No vHost sheet found in " ++ site_name).

Definition NO_ESX_HOSTS (site_name : string) : exn :=
  ValueError ("No 'ESX Hosts' sheet found in " ++ site_name).

Definition UNRECOGNISED (site_name : string) : exn :=
  ValueError (dq ++ site_name ++ dq ++
              " is not a recognised RVTools or LiveOptics export").

(** A [PyFloat] like [digits_float] that also knows the infinite float. *)
Definition inf_float : PyFloat :=
  {| int_of_float := fun s =>
       if (s =? "inf")%string then Infinite else @int_of_float digits_float s;
     format_0f := @format_0f digits_float |}.

(** A vHost sheet with one host: its sockets and its VM count are given. *)
Definition one_host_export (n_sockets n_vms : string) : workbook :=
  [ ("vHost",
     {| columns := ["Host"; "# CPU"; "# VMs"];
        rows := [[Some "esx01.lab"; Some n_sockets; Some n_vms]] |}) ].

(** The text made of the superscript two. *)
Definition SUPERSCRIPT_TWO : string := String "178"%char "".

(** An ESX Hosts sheet with one host: its sockets and its VM count are
    given. *)
Definition one_host_liveoptics (n_sockets n_vms : string) : workbook :=
  [ ("ESX Hosts",
     {| columns := ["Host Name"; "CPU Sockets"; "Guest VM Count"];
        rows := [[Some "lo-esx1"; Some n_sockets; Some n_vms]] |}) ].


(** The cluster map as a grouping: the cluster names as first seen, each
    with the hosts of that cluster in their order. *)
Definition grouped (hosts : list host) : dict (list host) :=
  map (fun c => (c, filter (fun h => (cluster h =? c)%string) hosts))
      (first_seen (map cluster hosts)).

(** What a parser guarantees of a cluster map. *)
Definition well_formed_clusters (clusters : dict (list host)) : Prop :=
  NoDup (map fst clusters) /\
  Forall (fun item : string * list host =>
            fst item <> "" /\ snd item <> [] /\
            Forall (well_formed_host (fst item)) (snd item))
         clusters.

(** A text that is a version, or holds none. *)
Definition version_or_none (s : string) : Prop :=
  version_pattern s \/ ~ occurs version_pattern s.

(** What a parser guarantees of a host besides its cluster: the host is
    not yet annotated and its version is shortened where it can be. *)
Definition fresh_host (h : host) : Prop :=
  vcf9 h = None /\ version_or_none (esxi h).

(** A vCenter version as the parsers leave it. *)
Definition vcenter_version_form (v : string) : Prop :=
  v = "" \/ dotted 2 v \/ dotted 3 v.

(** [norm in hcl_model or hcl_model in norm] *)
Definition related (norm hcl_model : string) : bool :=
  contains norm hcl_model || contains hcl_model norm.

(** No key of the table is related to [norm]. *)
Definition unrelated (norm : string) (items : dict (list string)) : bool :=
  forallb (fun k => negb (related norm k)) (map fst items).



(** *** Readiness report *)

(** The row that the report gives a host. *)
Definition vcf9_row_of (item : string * string * host) : vcf9_row :=
  let '(site_name, cluster_name, h) := item in
  {| vr_site := site_name; vr_cluster := cluster_name;
     vr_hostname := hostname h; vr_model := model h; vr_esxi := esxi h;
     vr_status := status (vcf9_of h); vr_label := label (vcf9_of h) |}.

(** The number of rows of a status. *)
Definition with_status (s : string) (rws : list vcf9_row) : Z :=
  Z.of_nat (List.length (filter (fun row => (vr_status row =? s)%string) rws)).

(** The number of rows that are neither compatible nor incompatible. *)
Definition with_other_status (rws : list vcf9_row) : Z :=
  Z.of_nat (List.length
              (filter (fun row => negb (vr_status row =? "compatible")%string &&
                                  negb (vr_status row =? "incompatible")%string) rws)).

(** [h["vcf9"] = check_vcf9_compat(h["model"], vcf9_lookup)] *)
Definition annotate_host (lookup : dict (list string)) (h : host) : host :=
  {| hostname := hostname h; cluster := cluster h; model := model h;
     esxi := esxi h; vms := vms h; cpu := cpu h; mem := mem h; svc := svc h;
     sockets := sockets h; cores_per_socket := cores_per_socket h;
     vcf9 := Some (check_vcf9_compat (model h) lookup) |}.

(** The loops that annotate every host of every cluster of every site
    (the upload routes, after [build_vcf9_lookup]). *)
Definition annotate_vcf9 (lookup : dict (list string)) (sites : list site)
  : list site :=
  map (fun st =>
         {| site_name := site_name st;
            clusters := map (fun item : string * list host =>
                               (fst item, map (annotate_host lookup) (snd item)))
                            (clusters st);
            vcenter_version := vcenter_version st;
            total_hosts := total_hosts st;
            total_vms := total_vms st |})
      sites.

(** The hosts of the sites with their model empty. *)
Definition without_model (sites : list site) : list (string * string * host) :=
  filter (fun item : string * string * host => (model (snd item) =? "")%string)
         (hosts_of_sites sites).

(** The row that the report gives a host once it is annotated. *)
Definition annotated_row (lookup : dict (list string))
    (item : string * string * host) : vcf9_row :=
  vcf9_row_of (fst item, annotate_host lookup (snd item)).

(** A site as [parse_file] returns it. *)
Definition parsed_site {py : PyFloat} (st : site) : Prop :=
  exists xls name, parse_file xls name = Ok st.

(** *** Licence types *)

(** The deployment type that the licence routes pass on:
    [request.form.get('license_type', 'VCF')], replaced by ['VCF'] when
    it is neither ['VCF'] nor ['VVF']. *)
Definition license_type (form_value : option string) : string :=
  let deployment_type :=
    match form_value with
    | Some v => v
    | None => "VCF"
    end in
  if mem_str deployment_type ["VCF"; "VVF"] then deployment_type else "VCF".

(** The sockets of the lines that count. *)
Definition counted_sockets (rws : list license_row) : Z :=
  sumZ (map lr_sockets (counted rws)).

(* ------------------------------------------------------------------ *)
(** ** Licence report as text *)

(** [c * n] for a text of one character. *)
Fixpoint fill (c : ascii) (n : nat) : string :=
  match n with
  | O => ""
  | S k => String c (fill c k)
  end.

(** [s.ljust(w)] and [s.rjust(w)] *)
Definition ljust (s : string) (w : nat) : string :=
  s ++ fill " " (w - String.length s).

Definition rjust (s : string) (w : nat) : string :=
  fill " " (w - String.length s) ++ s.

(** The local function [pad] of [license_report_txt]. *)
Definition pad (s : string) (w : nat) (right : bool) : string :=
  if right then rjust s w else ljust s w.

(** The list [cols] of the six column widths. *)
Record widths : Type := {
  col0 : nat; col1 : nat; col2 : nat; col3 : nat; col4 : nat; col5 : nat
}.

Definition txt_fc (row : license_row) : string :=
  if missing row then "-" else str_of_Z (foundation_cores row).

Definition txt_et (row : license_row) : string :=
  if missing row then "-" else fmt_float (entitled_tib row).

(** The body of the loop that widens the columns. *)
Definition widen (cols : widths) (row : license_row) : widths :=
  {| col0 := Nat.max (col0 cols) (String.length (lr_cluster row));
     col1 := Nat.max (col1 cols) (String.length (lr_hostname row));
     col2 := Nat.max (col2 cols) (String.length (str_of_Z (lr_sockets row)));
     col3 := Nat.max (col3 cols)
               (String.length (str_of_Z (lr_cores_per_socket row)));
     col4 := Nat.max (col4 cols) (String.length (txt_fc row));
     col5 := Nat.max (col5 cols) (String.length (txt_et row)) |}.

(** The widths of the headers. *)
Definition header_cols : widths :=
  {| col0 := String.length "CLUSTER";
     col1 := String.length "VMHOST";
     col2 := String.length "NUM_CPU_SOCKETS";
     col3 := String.length "NUM_CPU_CORES_PER_SOCKET";
     col4 := String.length "FOUNDATION_LICENSE_CORE_COUNT";
     col5 := String.length "VSAN_LICENSE_TIB_COUNT" |}.

Definition license_cols (report : license_report) : widths :=
  let cols := fold_left widen (lr_rows report) header_cols in
  {| col0 := Nat.max (col0 cols) 5;
     col1 := col1 cols;
     col2 := col2 cols;
     col3 := col3 cols;
     col4 := Nat.max (col4 cols) (String.length (str_of_Z (total_cores report)));
     col5 := Nat.max (col5 cols) (String.length (fmt_float (total_tib report))) |}.

(** Six cells joined by a space: the first two padded on the right, the
    others on the left. *)
Definition txt_line (cols : widths) (f0 f1 f2 f3 f4 f5 : string) : string :=
  join " " [pad f0 (col0 cols) false; pad f1 (col1 cols) false;
            pad f2 (col2 cols) true; pad f3 (col3 cols) true;
            pad f4 (col4 cols) true; pad f5 (col5 cols) true].

Definition txt_hdr_line (cols : widths) : string :=
  txt_line cols "CLUSTER" "VMHOST" "NUM_CPU_SOCKETS" "NUM_CPU_CORES_PER_SOCKET"
           "FOUNDATION_LICENSE_CORE_COUNT" "VSAN_LICENSE_TIB_COUNT".

Definition txt_sep_line (cols : widths) : string :=
  join " " [fill "-" (col0 cols); fill "-" (col1 cols); fill "-" (col2 cols);
            fill "-" (col3 cols); fill "-" (col4 cols); fill "-" (col5 cols)].

Definition txt_host_line (cols : widths) (row : license_row) : string :=
  txt_line cols (lr_cluster row) (lr_hostname row)
           (if missing row then "-" else str_of_Z (lr_sockets row))
           (if missing row then "-" else str_of_Z (lr_cores_per_socket row))
           (txt_fc row) (txt_et row).

Definition txt_total_line (cols : widths) (report : license_report) : string :=
  txt_line cols "Total" "-" "-" "-" (str_of_Z (total_cores report))
           (fmt_float (total_tib report)).

(** The lines of the host table: header, rule, hosts and total. *)
Definition host_table (report : license_report) : list string :=
  let cols := license_cols report in
  (txt_hdr_line cols :: txt_sep_line cols ::
   map (txt_host_line cols) (lr_rows report) ++ [txt_total_line cols report])%list.

(** The loop that fills [cluster_tib]. *)
Definition cluster_tib (rws : list license_row) : dict pyfloat :=
  fold_left
    (fun d row =>
       if missing row then d
       else dict_set d (lr_cluster row)
              (float_add (match dict_get d (lr_cluster row) with
                          | Some v => v
                          | None => Finite 0
                          end) (entitled_tib row)))
    rws [].

(** [max(..., default=0)] over lengths. *)
Definition max_of (l : list nat) : nat := fold_right Nat.max 0%nat l.

Definition cluster_tib_total (ct : dict pyfloat) : pyfloat :=
  fold_left (fun acc (item : string * pyfloat) => float_add acc (snd item)) ct
            (Finite 0).

Definition cluster_cw0 (ct : dict pyfloat) : nat :=
  Nat.max (Nat.max (String.length "CLUSTER") (max_of (map String.length (map fst ct))))
          5.

Definition cluster_cw1 (ct : dict pyfloat) (report : license_report) : nat :=
  Nat.max (Nat.max (String.length "VSAN_ENTITLED_TIB")
                   (max_of (map (fun v => String.length (fmt_float v)) (map snd ct))))
          (String.length (fmt_float (total_tib report))).

(** The lines of the cluster table: header, rule, clusters and total. *)
Definition cluster_table (report : license_report) : list string :=
  let ct := cluster_tib (lr_rows report) in
  let cw0 := cluster_cw0 ct in
  let cw1 := cluster_cw1 ct report in
  ((ljust "CLUSTER" cw0 ++ " " ++ rjust "VSAN_ENTITLED_TIB" cw1)%string ::
   (fill "-" cw0 ++ " " ++ fill "-" cw1)%string ::
   map (fun item : string * pyfloat =>
          (ljust (fst item) cw0 ++ " " ++ rjust (fmt_float (snd item)) cw1)%string) ct ++
   [(ljust "Total" cw0 ++ " " ++
     rjust (fmt_float (cluster_tib_total ct)) cw1)%string])%list.

Definition license_report_txt (report : license_report) : string :=
  let dt := deployment_type report in
  let full_name :=
    if (dt =? "VCF")%string then "VMware Cloud Foundation (VCF) Instance"
    else "VMware vSphere Foundation (VVF)" in
  join lf
    ([("Sizing Results for " ++ full_name ++ ":")%string; ""; "Host Information"; ""] ++
     host_table report ++
     [""; "Cluster Information"; ""] ++
     cluster_table report ++
     [""; ("Total Required " ++ dt ++ " Compute Licenses: " ++
           str_of_Z (total_cores report))%string;
      "Total Required vSAN Add-on Licenses: N/A (requires actual vSAN capacity data)";
      ""])%list.

(** The width of a line of the host table. *)
Definition table_width (cols : widths) : nat :=
  (col0 cols + col1 cols + col2 cols + col3 cols + col4 cols + col5 cols + 5)%nat.

(** No column of [a] is wider than in [b]. *)
Definition wider (a b : widths) : Prop :=
  (col0 a <= col0 b /\ col1 a <= col1 b /\ col2 a <= col2 b /\
   col3 a <= col3 b /\ col4 a <= col4 b /\ col5 a <= col5 b)%nat.

(** The texts of a line fit the columns. *)
Definition row_fits (cols : widths) (row : license_row) : Prop :=
  (String.length (lr_cluster row) <= col0 cols /\
   String.length (lr_hostname row) <= col1 cols /\
   String.length (str_of_Z (lr_sockets row)) <= col2 cols /\
   String.length (str_of_Z (lr_cores_per_socket row)) <= col3 cols /\
   String.length (txt_fc row) <= col4 cols /\
   String.length (txt_et row) <= col5 cols)%nat.

(** The amount of a cluster in the table: the entitlements of its lines
    that count, added one after the other. *)
Definition cluster_amount (c : string) (rws : list license_row) : pyfloat :=
  float_sum (Finite 0)
            (map entitled_tib
                 (filter (fun row => (lr_cluster row =? c)%string) (counted rws))).

(** The cores of the lines of a cluster that count. *)
Definition cluster_cores (c : string) (rws : list license_row) : Z :=
  sumZ (map foundation_cores
            (filter (fun row => (lr_cluster row =? c)%string) (counted rws))).

(** *** Identifiers and bound texts *)

(** A rectangle alone, or a rectangle and then the text bound to it. *)
Definition bound_group (g : list element) : Prop :=
  match g with
  | [e] =>
      el_type e = "rectangle" /\ el_boundElements e = [] /\ el_containerId e = None
  | [e; t] =>
      el_type e = "rectangle" /\ el_type t = "text" /\
      el_boundElements e = [el_id t] /\ el_containerId e = None /\
      el_containerId t = Some (el_id e) /\ el_boundElements t = [] /\
      geometry t = geometry e /\
      (exists s, el_text t = Some s /\ s <> "")
  | _ => False
  end.

(** The elements are such groups, one after the other. *)
Definition grouped_elements (els : list element) : Prop :=
  exists groups, els = List.concat groups /\ Forall bound_group groups.

(** Elements drawn with the identifiers from [n] up to [n'], in order. *)
Definition chunked (n : nat) (els : list element) (n' : nat) : Prop :=
  grouped_elements els /\ map el_id els = seq n (n' - n) /\ (n <= n')%nat.

(** *** Where the zones stand *)

(** The left edge of the zone of the site of index [k]. *)
Definition zone_x (k : nat) : Z := CANVAS_X + Z.of_nat k * (ZONE_W + ZONE_GAP).

(** The zones and the headers of the sites, the first at index [k]. *)
Definition zone_boxes (hh : Z) (k : nat) (sites : list site) : list box :=
  map (fun item : nat * site =>
         (zone_x (fst item), CANVAS_Y, ZONE_W, zone_height hh (clusters (snd item))))
      (combine (seq k (List.length sites)) sites).

Definition header_boxes (k : nat) (sites : list site) : list box :=
  map (fun i => (zone_x i, CANVAS_Y, ZONE_W, HEADER_H)) (seq k (List.length sites)).

(** The legend, when it is drawn after [n] sites. *)
Definition legend_box (n : nat) : box := (zone_x n, CANVAS_Y, 220, 90).

(** The lower edge of a box. *)
Definition box_bottom (b : box) : Z := let '(_, y, _, h) := b in y + h.

(** How far below the zone the lowest host box may reach: a pad for each
    cluster but the last, less the pad and the gap under the last row. *)
Definition zone_overrun (clusters : dict (list host)) : Z :=
  PAD * Z.of_nat (List.length clusters) - 2 * PAD - ROW_GAP.

(** The height that a cluster adds to its zone. *)
Definition band_height (hh : Z) (item : string * list host) : Z :=
  CLUSTER_H + PAD + grid_rows (snd item) * (hh + ROW_GAP).

(** The host is marked incompatible and the check is enabled. *)
Definition alerted (vcf9_enabled : bool) (h : host) : bool :=
  vcf9_enabled &&
  match vcf9 h with
  | Some v => (status v =? "incompatible")%string
  | None => false
  end.

(** The host that a line of the performance sheet is about. *)
Definition perf_host (perf_df : sheet) (row : list cell) : string :=
  safe (row_get perf_df row "Host").

(** A host of which only the name and the CPU counts matter. *)
Definition bare_host (name clu : string) (n_sockets n_cores : Z) : host :=
  {| hostname := name; cluster := clu; model := ""; esxi := "";
     vms := "0"; cpu := ""; mem := ""; svc := "";
     sockets := n_sockets; cores_per_socket := n_cores; vcf9 := None |}.

(** Two sites with a cluster of the same name: under VVF the hosts are
    entitled to 4.0, 2^55 and 4.0 TiB, in this order. *)
Definition uneven_sites : list site :=
  [ {| site_name := "S1";
       clusters := [("A", [bare_host "h1" "A" 1 16]);
                    ("B", [bare_host "h2" "B" (2 ^ 53) 16])];
       vcenter_version := ""; total_hosts := 2; total_vms := 0 |};
    {| site_name := "S2";
       clusters := [("A", [bare_host "h3" "A" 1 16])];
       vcenter_version := ""; total_hosts := 1; total_vms := 0 |} ].

(** A text of 4301 decimal digits, one more than [int] accepts. *)
Definition LONG_NUMBER : string := fill "1" 4301.

(* ================================================================== *)
(** * Properties *)

(* ------------------------------------------------------------------ *)
(** ** Compatibility lookup *)

Lemma insert_sorted_perm x l : Permutation (insert_sorted x l) (x :: l).
Proof.
  induction l as [|y t IH]; simpl.
  - apply Permutation_refl.
  - destruct (String.leb x y).
    + apply Permutation_refl.
    + eapply Permutation_trans; [apply perm_skip, IH | apply perm_swap].
Qed.

Lemma sorted_perm l : Permutation (sorted l) l.
Proof.
  induction l as [|x t IH]; simpl.
  - constructor.
  - eapply Permutation_trans; [apply insert_sorted_perm | now apply perm_skip].
Qed.

Lemma insert_sorted_hd x y l :
  str_le y x -> HdRel str_le y l -> HdRel str_le y (insert_sorted x l).
Proof.
  intros Hyx Hl. destruct l as [|z t]; simpl.
  - now constructor.
  - destruct (String.leb x z); constructor; trivial.
    now inversion Hl.
Qed.

Lemma insert_sorted_sorted x l :
  Sorted str_le l -> Sorted str_le (insert_sorted x l).
Proof.
  induction 1 as [|y t Ht IH Hhd]; simpl.
  - repeat constructor.
  - destruct (String.leb x y) eqn:E.
    + constructor; [now constructor | now constructor].
    + constructor; trivial.
      apply insert_sorted_hd; trivial.
      destruct (String.leb_total x y) as [H|H]; [congruence | exact H].
Qed.

Lemma sorted_sorted l : Sorted str_le (sorted l).
Proof.
  induction l as [|x t IH]; simpl.
  - constructor.
  - now apply insert_sorted_sorted.
Qed.

Lemma nodup_id (l : list string) : NoDup l -> nodup string_dec l = l.
Proof. apply nodup_fixed_point. Qed.

(** C3. The compatibility check is total and deterministic: for every
    model text, the empty one included, and every lookup table, the
    verdict carries exactly one of the statuses compatible, incompatible
    and unknown; the empty model gets the status unknown and a fixed
    label, the one that the legend of the diagram explains as
    [model unknown]. *)
Theorem check_vcf9_compat_total (model : string) (lookup : dict (list string)) :
  (exists! s, In s ["compatible"; "incompatible"; "unknown"] /\
              status (check_vcf9_compat model lookup) = s) /\
  check_vcf9_compat "" lookup =
    {| status := "unknown"; label := WARNING_SIGN ++ " VCF9 ?" |} /\
  contains (label (check_vcf9_compat "" lookup) ++ " " ++ EM_DASH ++ " model unknown")
           legend_text = true.
Proof.
  split; [|split; reflexivity].
  exists (status (check_vcf9_compat model lookup)).
  split.
  - split; [|reflexivity].
    unfold check_vcf9_compat.
    destruct (model =? "")%string; simpl; [tauto|].
    destruct (dict_get _ _); simpl; [tauto|].
    destruct (first_related _ _); simpl; tauto.
  - intros s [_ Hs]. exact Hs.
Qed.

(** C10. The status is unknown exactly when the model text is empty: a
    non-empty model is found compatible or incompatible whatever the
    lookup table. *)
Theorem check_vcf9_compat_unknown_iff (model : string) (lookup : dict (list string)) :
  (status (check_vcf9_compat model lookup) = "unknown" <-> model = "") /\
  (model <> "" ->
   status (check_vcf9_compat model lookup) = "compatible" \/
   status (check_vcf9_compat model lookup) = "incompatible").
Proof.
  unfold check_vcf9_compat.
  destruct (String.eqb_spec model "") as [E|E].
  - simpl. split; [tauto | congruence].
  - destruct (dict_get _ _); [|destruct (first_related _ _)]; simpl;
      (split; [split; [discriminate | congruence] | tauto]).
Qed.

Lemma check_vcf9_compat_unknown_iff_witness :
  status (check_vcf9_compat "Supermicro X11" sample_lookup) = "compatible" \/
  status (check_vcf9_compat "Supermicro X11" sample_lookup) = "incompatible".
Proof.
  apply (proj2 (check_vcf9_compat_unknown_iff "Supermicro X11" sample_lookup)).
  discriminate.
Defined.

(** C4, as amended.  When the normalised model is a key of the lookup table, the
    verdict is compatible and the label is the check mark and [VCF],
    then every version string of that key with [ESXi ] removed (each as
    often as it occurs), in ascending order and joined with [ + ], then
    [Ready]; when those strings are pairwise distinct this is the label
    that lists the distinct versions. *)
Theorem check_vcf9_compat_exact (model : string) (lookup : dict (list string))
    (releases : list string) :
  model <> "" ->
  dict_get lookup (lower (normalize_model model)) = Some releases ->
  exists versions,
    check_vcf9_compat model lookup =
      {| status := "compatible";
         label := CHECK_MARK ++ " VCF " ++ join " + " versions ++ " Ready" |} /\
    Permutation versions (map (replace "ESXi " "") releases) /\
    Sorted str_le versions /\
    (NoDup (map (replace "ESXi " "") releases) ->
     label (check_vcf9_compat model lookup) = label_of_distinct_versions releases).
Proof.
  intros Hm Hget.
  exists (sorted (map (replace "ESXi " "") releases)).
  assert (Hc : check_vcf9_compat model lookup =
               {| status := "compatible"; label := _vcf9_label releases |}).
  { unfold check_vcf9_compat.
    destruct (String.eqb_spec model "") as [E|_]; [contradiction|].
    now rewrite Hget. }
  rewrite Hc. repeat split.
  - apply sorted_perm.
  - apply sorted_sorted.
  - intros Hnd. simpl. unfold label_of_distinct_versions, distinct_versions.
    now rewrite nodup_id.
Qed.

Lemma check_vcf9_compat_exact_witness :
  exists versions,
    check_vcf9_compat "Dell Inc. PowerEdge R640" sample_lookup =
      {| status := "compatible";
         label := CHECK_MARK ++ " VCF " ++ join " + " versions ++ " Ready" |} /\
    Permutation versions (map (replace "ESXi " "") ["ESXi 9.0"; "ESXi 8.0 U3"]) /\
    Sorted str_le versions /\
    (NoDup (map (replace "ESXi " "") ["ESXi 9.0"; "ESXi 8.0 U3"]) ->
     label (check_vcf9_compat "Dell Inc. PowerEdge R640" sample_lookup) =
     label_of_distinct_versions ["ESXi 9.0"; "ESXi 8.0 U3"]).
Proof.
  apply (check_vcf9_compat_exact "Dell Inc. PowerEdge R640" sample_lookup
           ["ESXi 9.0"; "ESXi 8.0 U3"]).
  - discriminate.
  - reflexivity.
Defined.

(** C4, as stated, fails: the entry of the ProLiant DL380 Gen10 names
    ESXi 9.0 twice, the model matches its key exactly, and the label
    repeats the version instead of listing the distinct ones. *)
Lemma check_vcf9_compat_repeats_versions :
  dict_get sample_lookup (lower (normalize_model "HPE ProLiant DL380 Gen10")) =
    Some ["ESXi 9.0"; "ESXi 9.0"] /\
  label (check_vcf9_compat "HPE ProLiant DL380 Gen10" sample_lookup) =
    CHECK_MARK ++ " VCF 9.0 + 9.0 Ready" /\
  label_of_distinct_versions ["ESXi 9.0"; "ESXi 9.0"] =
    CHECK_MARK ++ " VCF 9.0 Ready" /\
  label (check_vcf9_compat "HPE ProLiant DL380 Gen10" sample_lookup) <>
    label_of_distinct_versions ["ESXi 9.0"; "ESXi 9.0"].
Proof.
  repeat split; try reflexivity.
  vm_compute. discriminate.
Qed.

(* ------------------------------------------------------------------ *)
(** ** Texts *)

Lemma append_assoc (a b c : string) : (a ++ b) ++ c = a ++ (b ++ c).
Proof. induction a as [|x a IH]; simpl; [reflexivity | now rewrite IH]. Qed.

Lemma append_nil_r (a : string) : a ++ "" = a.
Proof. induction a as [|x a IH]; simpl; [reflexivity | now rewrite IH]. Qed.

Lemma prefix_append (a b : string) : String.prefix a (a ++ b) = true.
Proof.
  induction a as [|x a IH]; simpl.
  - now destruct b.
  - destruct (ascii_dec x x) as [_|N]; [exact IH | now elim N].
Qed.

Lemma contains_of_prefix (x s : string) :
  String.prefix x s = true -> contains x s = true.
Proof.
  intros H. destruct s; cbn [contains]; now rewrite H.
Qed.

Lemma contains_append (x pre post : string) : contains x (pre ++ x ++ post) = true.
Proof.
  induction pre as [|c pre IH].
  - change ("" ++ x ++ post) with (x ++ post).
    apply contains_of_prefix, prefix_append.
  - cbn [append contains]. rewrite IH. apply orb_true_r.
Qed.

Lemma all_chars_append p (a b : string) :
  all_chars p (a ++ b) = all_chars p a && all_chars p b.
Proof.
  induction a as [|x a IH]; simpl; [reflexivity|].
  now rewrite IH, andb_assoc.
Qed.

(* ------------------------------------------------------------------ *)
(** ** Version shortening *)

Section Versions.
Import Re.

Lemma take_digits_run d r :
  all_chars is_digit d = true -> run_end r -> take_digits (d ++ r) = (d, r).
Proof.
  intros Hd Hr. induction d as [|c d IH]; cbn [append take_digits all_chars] in *.
  - destruct r as [|c r]; [reflexivity|].
    cbn [run_end] in Hr. cbn [take_digits]. now rewrite Hr.
  - apply andb_true_iff in Hd as [Hc Hd]. now rewrite Hc, IH.
Qed.

Lemma take_digits_sound s d r :
  take_digits s = (d, r) ->
  s = d ++ r /\ all_chars is_digit d = true /\ run_end r.
Proof.
  revert d r. induction s as [|c s IH]; cbn [take_digits]; intros d r H.
  - inversion H. cbn. auto.
  - destruct (is_digit c) eqn:Hc.
    + destruct (take_digits s) as [d' r'] eqn:E. inversion H; subst.
      destruct (IH d' r eq_refl) as (-> & Hd & Hr).
      cbn [append all_chars]. rewrite Hc, Hd. auto.
    + inversion H; subst. cbn [append all_chars run_end]. auto.
Qed.

Lemma digits1_run d r : digit_run d -> run_end r -> digits1 (d ++ r) = Some (d, r).
Proof.
  intros [Hne Hd] Hr. unfold digits1. rewrite take_digits_run by assumption.
  destruct (String.eqb_spec d ""); [contradiction | reflexivity].
Qed.

Lemma digits1_sound s d r :
  digits1 s = Some (d, r) -> s = d ++ r /\ digit_run d /\ run_end r.
Proof.
  unfold digits1. destruct (take_digits s) as [d' r'] eqn:E.
  destruct (String.eqb_spec d' ""); [discriminate|].
  intros H. inversion H; subst.
  destruct (take_digits_sound _ _ _ E) as (Hs & Hd & Hr).
  repeat split; assumption.
Qed.

Lemma run_end_dot r : run_end (String "." r).
Proof. reflexivity. Qed.

Lemma match_dotted_full k v r :
  dotted k v -> run_end r -> match_dotted k (v ++ r) = Some (v, r).
Proof.
  intros Hv Hr. induction Hv as [d Hd | k d v Hd Hv IH].
  - simpl. now rewrite digits1_run.
  - simpl. rewrite !append_assoc. simpl.
    rewrite (digits1_run d _ Hd (run_end_dot _)).
    now rewrite IH.
Qed.

Lemma match_dotted_sound k : forall s v r,
  match_dotted k s = Some (v, r) -> s = v ++ r /\ dotted k v.
Proof.
  induction k as [|k IH]; intros s v r; simpl.
  - destruct (digits1 s) as [[d r']|] eqn:E; [|discriminate].
    intros H; inversion H; subst.
    destruct (digits1_sound _ _ _ E) as (Hs & Hd & _).
    split; [assumption | now constructor].
  - destruct (digits1 s) as [[d r']|] eqn:E; [|discriminate].
    destruct (digits1_sound _ _ _ E) as (Hs & Hd & _).
    destruct r' as [|c r']; [discriminate|].
    destruct (Ascii.eqb_spec c ".") as [->|Hc].
    + destruct (match_dotted k r') as [[v' r'']|] eqn:E'; [|discriminate].
      intros H; inversion H; subst.
      destruct (IH _ _ _ E') as (-> & Hv').
      split; [|now constructor].
      rewrite !append_assoc. reflexivity.
    + intros H. exfalso. revert H.
      destruct c as [[] [] [] [] [] [] [] []]; try discriminate.
      now elim Hc.
Qed.

(** A pattern that starts in [s] is matched there, perhaps with a longer
    last run. *)
Lemma match_dotted_start k v : forall post,
  dotted k v -> match_dotted k (v ++ post) <> None.
Proof.
  intros post Hv. induction Hv as [d [Hne Hd] | k d v Hd Hv IH].
  - simpl. unfold digits1.
    destruct (take_digits (d ++ post)) as [d' r'] eqn:E.
    destruct (String.eqb_spec d' "") as [->|]; [|discriminate].
    exfalso. destruct d as [|c d]; [now elim Hne|].
    simpl in E, Hd. apply andb_true_iff in Hd as [Hc _]. rewrite Hc in E.
    destruct (take_digits (d ++ post)); discriminate.
  - simpl. rewrite !append_assoc. simpl.
    rewrite (digits1_run d _ Hd (run_end_dot _)).
    destruct (match_dotted k (v ++ post)) as [[? ?]|]; [discriminate | exact IH].
Qed.

Lemma search_found mt s g :
  search mt s = Some g -> exists pre x r, s = pre ++ x /\ mt x = Some (g, r).
Proof.
  induction s as [|c s IH]; simpl.
  - destruct (mt "") as [[v r]|] eqn:E; [|discriminate].
    intros H; inversion H; subst. now exists "", "", r.
  - destruct (mt (String c s)) as [[v r]|] eqn:E.
    + intros H; inversion H; subst. now exists "", (String c s), r.
    + intros H. destruct (IH H) as (pre & x & r & -> & Hm).
      now exists (String c pre), x, r.
Qed.

Lemma search_none mt pre x : search mt (pre ++ x) = None -> mt x = None.
Proof.
  induction pre as [|c pre IH]; simpl.
  - destruct x; simpl; destruct (mt _) as [[? ?]|]; congruence.
  - destruct (mt (String c (pre ++ x))) as [[? ?]|]; [discriminate | exact IH].
Qed.

Lemma search_version_sound k s g :
  search (match_dotted k) s = Some g -> dotted k g /\ occurs (dotted k) s.
Proof.
  intros H. destruct (search_found _ _ _ H) as (pre & x & r & -> & Hm).
  destruct (match_dotted_sound _ _ _ _ Hm) as (-> & Hg).
  split; [assumption | now exists pre, g, r].
Qed.

Lemma search_version_complete k s :
  occurs (dotted k) s -> search (match_dotted k) s <> None.
Proof.
  intros (pre & v & post & Hv & ->) H.
  apply search_none in H. now apply (match_dotted_start k v post).
Qed.

Lemma search_version_exact k v : dotted k v -> search (match_dotted k) v = Some v.
Proof.
  intros Hv. pose proof (match_dotted_full k v "" Hv I) as H.
  rewrite append_nil_r in H.
  destruct v; simpl; now rewrite H.
Qed.

End Versions.

(** C7. Shortening a version text is idempotent: a text that is exactly
    a major.minor.patch pattern is returned unchanged, a text in which
    no such pattern occurs is kept as it is, and shortening twice is
    shortening once. *)
Theorem shorten_version_idempotent (s : string) :
  (version_pattern s -> shorten_version s = s) /\
  (~ occurs version_pattern s -> shorten_version s = s) /\
  shorten_version (shorten_version s) = shorten_version s /\
  (occurs version_pattern s -> version_pattern (shorten_version s)).
Proof.
  unfold shorten_version, Re.search_version3, version_pattern.
  repeat split.
  - intros Hv. now rewrite search_version_exact.
  - intros Hn. destruct (Re.search _ s) as [g|] eqn:E; [|reflexivity].
    elim Hn. now apply (search_version_sound 2 s g).
  - destruct (Re.search _ s) as [g|] eqn:E.
    + rewrite search_version_exact; [reflexivity|].
      now apply (search_version_sound 2 s g).
    + now rewrite E.
  - intros Ho. destruct (Re.search _ s) as [g|] eqn:E.
    + now apply (search_version_sound 2 s g).
    + now apply search_version_complete in Ho.
Qed.

Lemma shorten_version_idempotent_witness :
  shorten_version "7.0.3" = "7.0.3" /\
  shorten_version "VMware ESXi 7.0" = "VMware ESXi 7.0" /\
  version_pattern (shorten_version "VMware ESXi 8.0.2 build-22380479").
Proof.
  split; [|split].
  - apply (proj1 (shorten_version_idempotent "7.0.3")).
    apply (dotted_more 1 "7" "0.3"); [now split|].
    apply (dotted_more 0 "0" "3"); [now split|].
    apply dotted_one. now split.
  - apply (proj1 (proj2 (shorten_version_idempotent "VMware ESXi 7.0"))).
    intros Ho. now apply (search_version_complete 2) in Ho.
  - apply (proj2 (proj2 (proj2
             (shorten_version_idempotent "VMware ESXi 8.0.2 build-22380479")))).
    exists "VMware ESXi ", "8.0.2", " build-22380479". split; [|reflexivity].
    apply (dotted_more 1 "8" "0.2"); [now split|].
    apply (dotted_more 0 "0" "2"); [now split|].
    apply dotted_one. now split.
Defined.

(* ------------------------------------------------------------------ *)
(** ** Dispatch and parsing *)

Lemma mem_str_In x xs : mem_str x xs = true <-> In x xs.
Proof.
  unfold mem_str. rewrite existsb_exists. split.
  - intros (y & Hy & E). apply String.eqb_eq in E. now subst.
  - intros H. exists x. split; [assumption | apply String.eqb_refl].
Qed.

(** C6. The dispatcher looks at the lower-cased sheet names: with a
    sheet [vhost] it runs the RVTools parser; without it but with a sheet
    [esx hosts] it runs the LiveOptics parser; with neither it raises a
    [ValueError] whose message contains the site label. *)
Theorem parse_file_dispatch {py : PyFloat} (xls : workbook) (site_name : string) :
  let sheets_lower := map lower (sheet_names xls) in
  (In "vhost" sheets_lower ->
   parse_file xls site_name = parse_rvtools xls site_name) /\
  (~ In "vhost" sheets_lower -> In "esx hosts" sheets_lower ->
   parse_file xls site_name = parse_liveoptics xls site_name) /\
  (~ In "vhost" sheets_lower -> ~ In "esx hosts" sheets_lower ->
   exists msg,
     parse_file xls site_name = Raise (ValueError msg) /\
     contains site_name msg = true).
Proof.
  intros sheets_lower. unfold parse_file. fold sheets_lower.
  destruct (mem_str "vhost" sheets_lower) eqn:EA.
  - apply mem_str_In in EA.
    split; [reflexivity | split; intros HA; contradiction].
  - assert (NA : ~ In "vhost" sheets_lower)
      by (rewrite <- mem_str_In; congruence).
    destruct (mem_str "esx hosts" sheets_lower) eqn:EB.
    + apply mem_str_In in EB.
      split; [contradiction | split; [reflexivity | intros _ HB; contradiction]].
    + assert (NB : ~ In "esx hosts" sheets_lower)
        by (rewrite <- mem_str_In; congruence).
      split; [contradiction | split; [intros _ HB; contradiction|]].
      intros _ _. eexists. split; [reflexivity|].
      apply (contains_append site_name dq).
Qed.

Lemma parse_file_dispatch_witness :
  @parse_file digits_float sample_rvtools "Paris" =
    @parse_rvtools digits_float sample_rvtools "Paris" /\
  @parse_file digits_float sample_liveoptics "Lyon" =
    @parse_liveoptics digits_float sample_liveoptics "Lyon" /\
  exists msg,
    @parse_file digits_float sample_other "Nice" = Raise (ValueError msg) /\
    contains "Nice" msg = true.
Proof.
  split; [|split].
  - apply (proj1 (@parse_file_dispatch digits_float sample_rvtools "Paris")).
    simpl. tauto.
  - apply (proj1 (proj2 (@parse_file_dispatch digits_float sample_liveoptics "Lyon"))).
    + simpl. intros [H|[H|[]]]; discriminate.
    + simpl. tauto.
  - apply (proj2 (proj2 (@parse_file_dispatch digits_float sample_other "Nice"))).
    + simpl. intros [H|[]]; discriminate.
    + simpl. intros [H|[]]; discriminate.
Defined.

Section Counting.
Context {py : PyFloat}.

Lemma bind_ok {A B} (x : result A) (f : A -> result B) b :
  bind x f = Ok b -> exists a, x = Ok a /\ f a = Ok b.
Proof. destruct x; simpl; [eauto | discriminate]. Qed.

(** A loop that skips the rows without name keeps the others. *)
Lemma for_each_keep {T : Type} (f : list cell -> result (option T))
    (name_of : list cell -> string) :
  (forall row o, f row = Ok o ->
                 (is_empty (name_of row) = true -> o = None) /\
                 (is_empty (name_of row) = false -> o <> None)) ->
  forall rws found,
    for_each f rws = Ok found ->
    List.length (keep found) =
    List.length (filter (fun row => negb (is_empty (name_of row))) rws).
Proof.
  intros Hf. induction rws as [|row rws IH]; simpl; intros found H.
  - now inversion H.
  - apply bind_ok in H as (o & Ho & H).
    apply bind_ok in H as (os & Hos & H). inversion H; subst.
    destruct (Hf _ _ Ho) as [Hblank Hnamed].
    unfold keep in *. simpl. rewrite length_app, (IH _ Hos).
    destruct (is_empty (name_of row)) eqn:E; simpl.
    + now rewrite Hblank.
    + destruct o; [reflexivity | now elim Hnamed].
Qed.

Lemma rvtools_host_named vh c1 c2 c3 c4 c5 c6 c7 c8 c9 c10 row o :
  rvtools_host vh c1 c2 c3 c4 c5 c6 c7 c8 c9 c10 row = Ok o ->
  (is_empty (field vh row c1 "") = true -> o = None) /\
  (is_empty (field vh row c1 "") = false -> o <> None).
Proof.
  unfold rvtools_host. destruct (is_empty (field vh row c1 "")).
  - intros H. inversion H. split; [reflexivity | discriminate].
  - intros H. apply bind_ok in H as (s & _ & H).
    apply bind_ok in H as (c & _ & H). inversion H.
    split; [discriminate | discriminate].
Qed.

Lemma liveoptics_host_named df pdf pm c1 c2 row o :
  liveoptics_host df pdf pm c1 c2 row = Ok o ->
  (is_empty (liveoptics_hostname df row) = true -> o = None) /\
  (is_empty (liveoptics_hostname df row) = false -> o <> None).
Proof.
  unfold liveoptics_host, liveoptics_hostname.
  destruct (is_empty (safe (row_get df row "Host Name"))).
  - intros H. inversion H. split; [reflexivity | discriminate].
  - intros H. apply bind_ok in H as (s & _ & H).
    apply bind_ok in H as (c & _ & H). inversion H.
    split; [discriminate | discriminate].
Qed.

Lemma hosts_in_clusters_set {T : Type} (d : dict (list T)) c (hs : list T) :
  (hosts_in_clusters (dict_set d c hs) +
   List.length (match dict_get d c with Some old => old | None => [] end)
   = hosts_in_clusters d + List.length hs)%nat.
Proof.
  unfold hosts_in_clusters.
  induction d as [|[k v] d IH]; simpl.
  - lia.
  - destruct (k =? c)%string; simpl; lia.
Qed.

Lemma hosts_in_clusters_append (d : dict (list host)) c h :
  hosts_in_clusters (setdefault_append d c h) = S (hosts_in_clusters d).
Proof.
  unfold setdefault_append.
  destruct (dict_get d c) as [old|] eqn:E.
  - pose proof (hosts_in_clusters_set d c (old ++ [h])%list) as H.
    rewrite E, length_app in H. simpl in H. lia.
  - pose proof (hosts_in_clusters_set d c [h]) as H.
    rewrite E in H. simpl in H. lia.
Qed.

Lemma group_by_cluster_count hosts :
  hosts_in_clusters (group_by_cluster hosts) = List.length hosts.
Proof.
  unfold group_by_cluster.
  assert (G : forall d,
             hosts_in_clusters
               (fold_left (fun d h => setdefault_append d (cluster h) h) hosts d)
             = (hosts_in_clusters d + List.length hosts)%nat).
  { induction hosts as [|h t IH]; intros d; simpl.
    - lia.
    - rewrite IH, hosts_in_clusters_append. lia. }
  now rewrite G.
Qed.

Lemma parse_rvtools_counts (xls : workbook) (site_name : string) (st : site) :
  parse_rvtools xls site_name = Ok st ->
  total_hosts st =
    Z.of_nat (List.length (named_rows rvtools_hostname (frame_of xls "vhost"))) /\
  Z.of_nat (hosts_in_clusters (clusters st)) = total_hosts st.
Proof.
  intros H. unfold parse_rvtools in H. unfold frame_of.
  destruct (dict_get (sheet_names_lower xls) "vhost") as [nm|]; [|discriminate].
  destruct (xls_parse xls nm) as [vh|]; [|discriminate].
  apply bind_ok in H as (found & Hf & H).
  apply bind_ok in H as (n & _ & H). inversion H; subst; simpl.
  rewrite group_by_cluster_count. split; [|reflexivity].
  f_equal. unfold rvtools_hostname.
  apply (for_each_keep _ _ (fun row o => rvtools_host_named _ _ _ _ _ _ _ _ _ _ _ row o)
           _ _ Hf).
Qed.

Lemma parse_liveoptics_counts (xls : workbook) (site_name : string) (st : site) :
  parse_liveoptics xls site_name = Ok st ->
  total_hosts st =
    Z.of_nat (List.length (named_rows liveoptics_hostname
                             (frame_of xls "esx hosts"))) /\
  Z.of_nat (hosts_in_clusters (clusters st)) = total_hosts st.
Proof.
  intros H. unfold parse_liveoptics in H. unfold frame_of.
  destruct (dict_get (sheet_names_lower xls) "esx hosts") as [nm|]; [|discriminate].
  destruct (xls_parse xls nm) as [df|]; [|discriminate].
  apply bind_ok in H as (found & Hf & H).
  apply bind_ok in H as (n & _ & H). inversion H; subst; simpl.
  rewrite group_by_cluster_count. split; [|reflexivity].
  f_equal.
  apply (for_each_keep _ _ (fun row o => liveoptics_host_named _ _ _ _ _ row o)
           _ _ Hf).
Qed.

(** C1. A site returned by either parser, or by the dispatcher, counts in
    [total_hosts] the rows of the host sheet whose host name is not
    empty, and the host lists of its clusters hold as many hosts
    together. *)
Theorem parsed_total_hosts (xls : workbook) (site_name : string) (st : site) :
  (parse_rvtools xls site_name = Ok st ->
   total_hosts st =
     Z.of_nat (List.length (named_rows rvtools_hostname (frame_of xls "vhost"))) /\
   Z.of_nat (hosts_in_clusters (clusters st)) = total_hosts st) /\
  (parse_liveoptics xls site_name = Ok st ->
   total_hosts st =
     Z.of_nat (List.length (named_rows liveoptics_hostname
                              (frame_of xls "esx hosts"))) /\
   Z.of_nat (hosts_in_clusters (clusters st)) = total_hosts st) /\
  (parse_file xls site_name = Ok st ->
   total_hosts st = Z.of_nat (List.length (parsed_rows xls)) /\
   Z.of_nat (hosts_in_clusters (clusters st)) = total_hosts st).
Proof.
  split; [apply parse_rvtools_counts|]. split; [apply parse_liveoptics_counts|].
  unfold parse_file, parsed_rows.
  destruct (mem_str "vhost" (map lower (sheet_names xls))).
  - apply parse_rvtools_counts.
  - destruct (mem_str "esx hosts" (map lower (sheet_names xls))).
    + apply parse_liveoptics_counts.
    + discriminate.
Qed.

End Counting.

Lemma parsed_total_hosts_witness :
  (total_hosts paris =
     Z.of_nat (List.length (named_rows rvtools_hostname
                              (frame_of sample_rvtools "vhost"))) /\
   Z.of_nat (hosts_in_clusters (clusters paris)) = total_hosts paris) /\
  (total_hosts lyon =
     Z.of_nat (List.length (named_rows liveoptics_hostname
                              (frame_of sample_liveoptics "esx hosts"))) /\
   Z.of_nat (hosts_in_clusters (clusters lyon)) = total_hosts lyon) /\
  (total_hosts lyon = Z.of_nat (List.length (parsed_rows sample_liveoptics)) /\
   Z.of_nat (hosts_in_clusters (clusters lyon)) = total_hosts lyon).
Proof.
  split; [|split].
  - apply (proj1 (@parsed_total_hosts digits_float sample_rvtools "Paris" paris)).
    vm_compute. reflexivity.
  - apply (proj1 (proj2 (@parsed_total_hosts digits_float sample_liveoptics "Lyon" lyon))).
    vm_compute. reflexivity.
  - apply (proj2 (proj2 (@parsed_total_hosts digits_float sample_liveoptics "Lyon" lyon))).
    vm_compute. reflexivity.
Defined.

Example paris_parsed :
  @parse_file digits_float sample_rvtools "Paris" = Ok paris /\
  total_hosts paris = 4 /\
  map (fun item => (fst item, List.length (snd item))) (clusters paris) =
    [("ClusterA", 3%nat); ("ClusterB", 1%nat)].
Proof. repeat split. Qed.

(* ------------------------------------------------------------------ *)
(** ** Licence calculator *)

Lemma fold_left_map {A B C} (f : C -> B -> C) (g : A -> B) (l : list A) (c : C) :
  fold_left f (map g l) c = fold_left (fun acc a => f acc (g a)) l c.
Proof. revert c. induction l as [|a l IH]; intros c; simpl; [reflexivity | apply IH]. Qed.

(** The three nested loops are one loop over [hosts_of_sites]. *)
Lemma for_hosts_flat {S : Type} (body : string -> string -> host -> S -> S)
    (sites : list site) (init : S) :
  for_hosts body sites init =
  fold_left (fun acc (item : string * string * host) =>
               let '(s, c, h) := item in body s c h acc)
            (hosts_of_sites sites) init.
Proof.
  unfold for_hosts, hosts_of_sites. revert init.
  induction sites as [|st sites IH]; intros init; simpl; [reflexivity|].
  rewrite fold_left_app, <- IH. f_equal.
  generalize (clusters st) as cl. clear IH. revert init.
  intros init cl. revert init.
  induction cl as [|[c hs] cl IHc]; intros init; simpl; [reflexivity|].
  rewrite fold_left_app, <- IHc. f_equal.
  now rewrite fold_left_map.
Qed.

Lemma sumZ_cons x l : sumZ (x :: l) = x + sumZ l.
Proof. reflexivity. Qed.

Lemma sumZ_app l1 l2 : sumZ (l1 ++ l2) = sumZ l1 + sumZ l2.
Proof. induction l1 as [|x l1 IH]; simpl; [reflexivity | rewrite IH; lia]. Qed.

(* ------------------------------------------------------------------ *)
(** ** Python floats *)

Lemma round_half_even_comp q1 q2 : (q1 == q2)%Q -> round_half_even q1 = round_half_even q2.
Proof.
  intros H. unfold round_half_even. cbn zeta.
  rewrite (Qfloor_comp _ _ H).
  assert (E : ((q1 - inject_Z (Qfloor q2)) ?= 1 # 2)%Q =
              ((q2 - inject_Z (Qfloor q2)) ?= 1 # 2)%Q).
  { apply Qcompare_comp; [|reflexivity]. now rewrite H. }
  now rewrite E.
Qed.

Lemma fmt_2f_comp q1 q2 : (q1 == q2)%Q -> fmt_2f q1 = fmt_2f q2.
Proof.
  intros H. unfold fmt_2f. cbn zeta.
  assert (E : (q1 * 100 == q2 * 100)%Q) by now rewrite H.
  rewrite (round_half_even_comp _ _ E).
  destruct (Qlt_le_dec q1 0) as [L1|L1], (Qlt_le_dec q2 0) as [L2|L2];
    try reflexivity; exfalso; rewrite H in L1;
    [exact (Qlt_not_le _ _ L1 L2) | exact (Qlt_not_le _ _ L2 L1)].
Qed.

Lemma round_half_even_Z z : round_half_even (inject_Z z) = z.
Proof.
  unfold round_half_even. cbn zeta. rewrite Qfloor_Z.
  assert (E : ((inject_Z z - inject_Z z) ?= 1 # 2)%Q = Lt).
  { apply Qlt_alt. setoid_replace (inject_Z z - inject_Z z)%Q with 0%Q by ring.
    reflexivity. }
  now rewrite E.
Qed.

Lemma pow2_pos e : (0 < pow2 e)%Q.
Proof. apply Qpower_0_lt. reflexivity. Qed.

Lemma pow2_plus a b : (pow2 (a + b) == pow2 a * pow2 b)%Q.
Proof. apply Qpower_plus. discriminate. Qed.

Lemma pow2_Z n : 0 <= n -> (pow2 n == inject_Z (2 ^ n))%Q.
Proof. intros H. unfold pow2. now rewrite (Zpower_Qpower 2 n H). Qed.

Lemma pow2_lt_inv a b : (pow2 a < pow2 b)%Q -> a < b.
Proof. intros H. apply (Qpower_lt_compat_l_inv 2); [exact H | reflexivity]. Qed.

Lemma pow2_le_1 k : k <= 0 -> (pow2 k <= 1)%Q.
Proof.
  intros H. apply Qnot_lt_le. intros L.
  apply (pow2_lt_inv 0 k) in L. lia.
Qed.

Lemma Qabs_make q : (Qabs q == inject_Z (Z.abs (Qnum q)) / inject_Z (Z.pos (Qden q)))%Q.
Proof. destruct q as [n d]. cbn [Qabs Qnum Qden]. apply Qmake_Qdiv. Qed.

(** The binade is not above the number. *)
Lemma binade_le q : ~ (q == 0)%Q -> (pow2 (binade q) <= Qabs q)%Q.
Proof.
  intros Hq. unfold binade. cbn zeta.
  set (n := Z.abs (Qnum q)). set (d := Z.pos (Qden q)).
  destruct (Qle_bool (pow2 (Z.log2 n - Z.log2 d)) (Qabs q)) eqn:E.
  - now apply Qle_bool_iff.
  - assert (Hn : 0 < n).
    { subst n. destruct q as [[|p|p] dd]; cbn; try lia. elim Hq. reflexivity. }
    assert (Hd : 0 < d) by (subst d; lia).
    destruct (Z.log2_spec n Hn) as [Hn1 _].
    destruct (Z.log2_spec d Hd) as [_ Hd2].
    pose proof (Z.log2_nonneg n). pose proof (Z.log2_nonneg d).
    rewrite Qabs_make. fold n d.
    apply Qle_shift_div_l; [change 0%Q with (inject_Z 0); now rewrite <- Zlt_Qlt|].
    apply Qle_trans with (pow2 (Z.log2 n - Z.log2 d - 1) * pow2 (Z.log2 d + 1))%Q.
    + apply Qmult_le_l; [apply pow2_pos|].
      rewrite pow2_Z by lia. rewrite <- Zle_Qle.
      replace (Z.log2 d + 1) with (Z.succ (Z.log2 d)) by lia. lia.
    + rewrite <- pow2_plus.
      replace (Z.log2 n - Z.log2 d - 1 + (Z.log2 d + 1)) with (Z.log2 n) by lia.
      rewrite pow2_Z by lia. now rewrite <- Zle_Qle.
Qed.

(** A number of at most 53 bits times a power of two, within the range
    of the exponents, is a double: rounding leaves it as it is. *)
Lemma round64_exact q m k :
  (q == inject_Z m * pow2 k)%Q -> Z.abs m < 2 ^ 53 -> -1074 <= k ->
  (Qabs q < pow2 1024)%Q ->
  exists r, round64 q = Finite r /\ (r == q)%Q.
Proof.
  intros Hq Hm Hk Hr. unfold round64.
  destruct (Qeq_bool q 0) eqn:Z0.
  - exists 0%Q. split; [reflexivity|]. apply Qeq_bool_eq in Z0. now rewrite Z0.
  - apply Qeq_bool_neq in Z0. cbn zeta.
    set (e := Z.max (binade q - 52) (-1074)).
    assert (He : e <= k).
    { assert (B : binade q < 53 + k).
      { apply pow2_lt_inv. apply Qle_lt_trans with (Qabs q); [now apply binade_le|].
        rewrite Hq, Qabs_Qmult, pow2_plus.
        rewrite (Qabs_pos (pow2 k)) by (apply Qlt_le_weak, pow2_pos).
        apply Qmult_lt_r; [apply pow2_pos|].
        rewrite pow2_Z by lia.
        replace (Qabs (inject_Z m)) with (inject_Z (Z.abs m)) by reflexivity.
        now rewrite <- Zlt_Qlt. }
      subst e. lia. }
    assert (Hdiv : (q / pow2 e == inject_Z (m * 2 ^ (k - e)))%Q).
    { rewrite Hq, inject_Z_mult, <- pow2_Z by lia.
      replace k with ((k - e) + e) at 1 by lia. rewrite pow2_plus.
      field. apply Qnot_eq_sym, Qlt_not_eq, pow2_pos. }
    rewrite (round_half_even_comp _ _ Hdiv), round_half_even_Z.
    assert (Hval : (inject_Z (m * 2 ^ (k - e)) * pow2 e == q)%Q).
    { rewrite <- Hdiv. field. apply Qnot_eq_sym, Qlt_not_eq, pow2_pos. }
    destruct (Qle_bool (pow2 1024) _) eqn:O.
    + exfalso. apply Qle_bool_iff in O. rewrite Hval in O.
      exact (Qlt_not_le _ _ Hr O).
    + eexists. split; [reflexivity|]. now rewrite Qred_correct.
Qed.

(** Fewer than 53 bits, scaled down: far from the largest double. *)
Lemma exact_bound m k :
  Z.abs m < 2 ^ 53 -> k <= 0 -> (Qabs (inject_Z m * pow2 k) < pow2 1024)%Q.
Proof.
  intros Hm Hk. rewrite Qabs_Qmult.
  rewrite (Qabs_pos (pow2 k)) by (apply Qlt_le_weak, pow2_pos).
  replace (Qabs (inject_Z m)) with (inject_Z (Z.abs m)) by reflexivity.
  apply Qle_lt_trans with (inject_Z (Z.abs m) * 1)%Q.
  - rewrite !(Qmult_comm (inject_Z (Z.abs m))).
    apply Qmult_le_compat_r; [now apply pow2_le_1|].
    change 0%Q with (inject_Z 0). rewrite <- Zle_Qle. lia.
  - rewrite Qmult_1_r.
    apply Qlt_le_trans with (inject_Z (2 ^ 53)); [now rewrite <- Zlt_Qlt|].
    vm_compute. discriminate.
Qed.

Lemma float_is_comp x q1 q2 : (q1 == q2)%Q -> float_is x q1 -> float_is x q2.
Proof. destruct x; cbn [float_is]; trivial. intros E H. now rewrite H. Qed.

Lemma float_is_fmt x y q : float_is x q -> float_is y q -> fmt_float x = fmt_float y.
Proof.
  destruct x, y; cbn [float_is fmt_float]; try contradiction.
  intros Hx Hy. apply fmt_2f_comp. now rewrite Hx, Hy.
Qed.

Lemma float_of_int_exact m :
  Z.abs m < 2 ^ 53 ->
  exists r, float_of_int m = Ok (Finite r) /\ (r == inject_Z m)%Q.
Proof.
  intros Hm. unfold float_of_int.
  assert (E : (inject_Z m == inject_Z m * pow2 0)%Q) by (unfold pow2; cbn; ring).
  destruct (round64_exact (inject_Z m) m 0 E Hm) as (r & R & Hr); [lia | |].
  - rewrite E. apply exact_bound; [exact Hm | lia].
  - rewrite R. now exists r.
Qed.

Lemma multiplier_pow2 d : exists k, -2 <= k <= 0 /\ (multiplier d == pow2 k)%Q.
Proof.
  unfold multiplier. destruct (d =? "VCF")%string.
  - exists 0. split; [lia | reflexivity].
  - exists (-2). split; [lia | reflexivity].
Qed.

Lemma tib_per_core_multiplier d : tib_per_core_of d = Finite (multiplier d).
Proof. unfold tib_per_core_of, multiplier. now destruct (d =? "VCF")%string. Qed.

(** Below [2^53] the product of the cores and the multiplier is exact. *)
Lemma int_times_float_exact m d :
  Z.abs m < 2 ^ 53 ->
  exists r, int_times_float m (tib_per_core_of d) = Ok (Finite r) /\
            (r == inject_Z m * multiplier d)%Q.
Proof.
  intros Hm. unfold int_times_float.
  destruct (float_of_int_exact m Hm) as (x & X & Hx). rewrite X. cbn [bind].
  rewrite tib_per_core_multiplier. cbn [float_mul].
  destruct (multiplier_pow2 d) as (k & Hk & Ek).
  assert (E : (x * multiplier d == inject_Z m * pow2 k)%Q) by now rewrite Hx, Ek.
  destruct (round64_exact _ m k E Hm) as (r & R & Hr); [lia | |].
  - rewrite E. apply exact_bound; [exact Hm | lia].
  - exists r. rewrite R. split; [reflexivity|]. now rewrite Hr, Hx.
Qed.

(** And so is the sum of two such products. *)
Lemma float_add_exact x y a b d :
  float_is x (inject_Z a * multiplier d) ->
  float_is y (inject_Z b * multiplier d) ->
  Z.abs (a + b) < 2 ^ 53 ->
  float_is (float_add x y) (inject_Z (a + b) * multiplier d).
Proof.
  destruct x as [x| | |], y as [y| | |]; cbn [float_is]; try contradiction.
  intros Hx Hy Hm. cbn [float_add].
  destruct (multiplier_pow2 d) as (k & Hk & Ek).
  assert (E : (x + y == inject_Z (a + b) * pow2 k)%Q).
  { rewrite Hx, Hy, Ek, inject_Z_plus. ring. }
  destruct (round64_exact _ (a + b) k E Hm) as (r & R & Hr); [lia | |].
  - rewrite E. apply exact_bound; [exact Hm | lia].
  - rewrite R. cbn [float_is]. now rewrite Hr, E, Ek.
Qed.

(** The product by the multiplier raises when the conversion of the
    cores does, and only then. *)
Lemma int_times_float_cases z d :
  (float_range z = true -> exists e, int_times_float z (tib_per_core_of d) = Ok e) /\
  (float_range z = false -> int_times_float z (tib_per_core_of d) = Raise INT_TOO_LARGE).
Proof.
  unfold float_range, int_times_float, float_of_int.
  destruct (round64 (inject_Z z)); cbn [bind]; split; intros H;
    try discriminate H; try reflexivity; eexists; reflexivity.
Qed.

(* ------------------------------------------------------------------ *)
(** ** Licence calculator *)

Lemma float_sum_app acc l1 l2 :
  float_sum acc (l1 ++ l2) = float_sum (float_sum acc l1) l2.
Proof. apply fold_left_app. Qed.

(** What one pass through the body of the loop does. *)
Lemma license_host_step mult s c h vars out :
  license_host mult s c h vars = Ok out ->
  exists row,
    lv_rows out = (lv_rows vars ++ [row])%list /\
    line_host row = host_line (s, c, h) /\
    license_rule mult row /\
    lv_total_cores out =
      lv_total_cores vars + sumZ (map foundation_cores (counted [row])) /\
    lv_total_tib out =
      float_sum (lv_total_tib vars) (map entitled_tib (counted [row])) /\
    lv_missing_count out =
      lv_missing_count vars + Z.of_nat (List.length (filter missing [row])).
Proof.
  unfold license_host.
  destruct ((sockets h =? 0) || (cores_per_socket h =? 0)) eqn:E.
  - intros H. inversion H; subst out; clear H.
    eexists. split; [reflexivity|]. cbn.
    unfold license_rule; cbn. rewrite E.
    repeat split; try reflexivity; try lia.
  - destruct (int_times_float _ mult) as [e|x] eqn:P; cbn [bind]; [|discriminate].
    intros H. inversion H; subst out; clear H.
    eexists. split; [reflexivity|]. cbn.
    unfold license_rule; cbn. rewrite E.
    repeat split; try reflexivity; try lia. exact P.
Qed.

(** The body returns when the cores of the host are within the floats,
    and raises otherwise. *)
Lemma license_host_cases d s c h vars :
  (float_range (licensed_cores h) = true ->
   exists out, license_host (tib_per_core_of d) s c h vars = Ok out) /\
  (float_range (licensed_cores h) = false ->
   license_host (tib_per_core_of d) s c h vars = Raise INT_TOO_LARGE).
Proof.
  unfold license_host, licensed_cores.
  destruct ((sockets h =? 0) || (cores_per_socket h =? 0)).
  - split; [intros _; eexists; reflexivity | intros H; discriminate H].
  - destruct (int_times_float_cases (sockets h * Z.max (cores_per_socket h) 16) d)
      as [Hok Hbad].
    split; intros H.
    + destruct (Hok H) as (e & ->). cbn [bind]. eexists; reflexivity.
    + now rewrite (Hbad H).
Qed.

Lemma license_raised mult items e :
  fold_left (license_step mult) items (Raise e) = Raise e.
Proof. induction items as [|[[s c] h] items IH]; [reflexivity | exact IH]. Qed.

Lemma license_fold mult items : forall vars out,
  fold_left (license_step mult) items (Ok vars) = Ok out ->
  exists new,
    lv_rows out = (lv_rows vars ++ new)%list /\
    map line_host new = map host_line items /\
    Forall (license_rule mult) new /\
    lv_total_cores out =
      lv_total_cores vars + sumZ (map foundation_cores (counted new)) /\
    lv_total_tib out =
      float_sum (lv_total_tib vars) (map entitled_tib (counted new)) /\
    lv_missing_count out =
      lv_missing_count vars + Z.of_nat (List.length (filter missing new)).
Proof.
  induction items as [|[[s c] h] items IH]; intros vars out.
  - cbn [fold_left]. intros H. inversion H; subst out; clear H.
    exists []. cbn. rewrite app_nil_r.
    repeat split; try reflexivity; try lia. constructor.
  - cbn [fold_left license_step bind].
    destruct (license_host mult s c h vars) as [mid|e] eqn:S1;
      [|rewrite license_raised; discriminate].
    intros H.
    destruct (license_host_step _ _ _ _ _ _ S1)
      as (row & Hr & Hk & Hok & Hc & Ht & Hm).
    destruct (IH mid out H) as (new & Hr' & Hk' & Hok' & Hc' & Ht' & Hm').
    exists (row :: new).
    change (row :: new) with ([row] ++ new)%list.
    unfold counted in *.
    rewrite !filter_app, !map_app, sumZ_app, length_app, float_sum_app.
    repeat split.
    + rewrite Hr', Hr, <- app_assoc. reflexivity.
    + cbn. now rewrite Hk, Hk'.
    + now constructor.
    + rewrite Hc', Hc. lia.
    + now rewrite Ht', Ht.
    + rewrite Hm', Hm. lia.
Qed.

Lemma license_fold_cases d items : forall vars,
  let range := fun item : string * string * host =>
                 float_range (licensed_cores (snd item)) in
  (forallb range items = true ->
   exists out, fold_left (license_step (tib_per_core_of d)) items (Ok vars) = Ok out) /\
  (forallb range items = false ->
   fold_left (license_step (tib_per_core_of d)) items (Ok vars) = Raise INT_TOO_LARGE).
Proof.
  induction items as [|[[s c] h] items IH]; intros vars range.
  - split; [intros _; eexists; reflexivity | intros H; discriminate H].
  - cbn [forallb fold_left license_step bind]. subst range. cbn [snd].
    destruct (license_host_cases d s c h vars) as [Hok Hbad].
    destruct (float_range (licensed_cores h)); cbn [andb].
    + destruct (Hok eq_refl) as (mid & ->). apply IH.
    + rewrite (Hbad eq_refl), license_raised.
      split; [intros H; discriminate H | reflexivity].
Qed.

(** The calculator is the flat loop from the empty variables. *)
Lemma calculate_licensing_flat sites d :
  calculate_licensing sites d =
  (vars <- fold_left (license_step (tib_per_core_of d)) (hosts_of_sites sites)
                     (Ok license_start) ;;
   Ok {| lr_rows := lv_rows vars;
         total_cores := lv_total_cores vars;
         total_tib := lv_total_tib vars;
         missing_count := lv_missing_count vars;
         deployment_type := d;
         tib_per_core := tib_per_core_of d |}).
Proof.
  unfold calculate_licensing. cbn zeta. rewrite for_hosts_flat.
  reflexivity.
Qed.

(** The report of a calculation that returns. *)
Lemma calculate_licensing_rows sites d report :
  calculate_licensing sites d = Ok report ->
  tib_per_core report = tib_per_core_of d /\
  map line_host (lr_rows report) = map host_line (hosts_of_sites sites) /\
  Forall (license_rule (tib_per_core_of d)) (lr_rows report) /\
  total_cores report = sumZ (map foundation_cores (counted (lr_rows report))) /\
  total_tib report =
    float_sum (Finite 0) (map entitled_tib (counted (lr_rows report))) /\
  missing_count report = Z.of_nat (List.length (filter missing (lr_rows report))).
Proof.
  rewrite calculate_licensing_flat.
  destruct (fold_left _ _ _) as [out|e] eqn:F; cbn [bind]; [|discriminate].
  intros H. inversion H; subst report; clear H.
  cbn [lr_rows total_cores total_tib missing_count tib_per_core].
  destruct (license_fold _ _ _ _ F) as (new & Hr & Hk & Hok & Hc & Ht & Hm).
  cbn [license_start lv_rows lv_total_cores lv_total_tib lv_missing_count app]
    in Hr, Hc, Ht, Hm.
  rewrite Hr, Hc, Hm, Ht.
  split; [reflexivity|]. split; [exact Hk|]. split; [exact Hok|].
  split; [lia|]. split; [reflexivity | lia].
Qed.

(** It returns when the cores of every host are within the floats, and
    raises otherwise. *)
Lemma calculate_licensing_cases sites d :
  (cores_in_range sites = true ->
   exists report, calculate_licensing sites d = Ok report) /\
  (cores_in_range sites = false ->
   calculate_licensing sites d = Raise INT_TOO_LARGE).
Proof.
  rewrite calculate_licensing_flat. unfold cores_in_range.
  destruct (license_fold_cases d (hosts_of_sites sites) license_start) as [Hok Hbad].
  split; intros H.
  - destruct (Hok H) as (out & ->). cbn [bind]. eexists; reflexivity.
  - now rewrite (Hbad H).
Qed.

(** With fewer than [2^53] cores in all, every entitlement is the exact
    product and every partial sum the exact sum. *)
Lemma exact_rows d : forall rws acc a,
  Forall (license_rule (tib_per_core_of d)) rws ->
  float_is acc (inject_Z a * multiplier d) ->
  Z.abs a + sumZ (map (fun row => Z.abs (foundation_cores row)) rws) < 2 ^ 53 ->
  Forall (fun row =>
            float_is (entitled_tib row)
                     (inject_Z (foundation_cores row) * multiplier d)) rws /\
  float_is (float_sum acc (map entitled_tib (counted rws)))
           (inject_Z (a + sumZ (map foundation_cores (counted rws))) * multiplier d).
Proof.
  induction rws as [|row rws IH]; intros acc a Hr Ha Hb.
  - split; [constructor|]. cbn. now rewrite Z.add_0_r.
  - inversion Hr as [|? ? Hrow Hrest]; subst. cbn [map] in Hb.
    rewrite sumZ_cons in Hb.
    assert (Hp : 0 <= sumZ (map (fun row => Z.abs (foundation_cores row)) rws)).
    { clear. induction rws as [|r l IH]; [cbn; lia|].
      cbn [map]. rewrite sumZ_cons. lia. }
    unfold license_rule in Hrow. unfold counted. cbn [filter].
    destruct ((lr_sockets row =? 0) || (lr_cores_per_socket row =? 0)).
    + destruct Hrow as (Hm & Hf & He). rewrite Hm. cbn [negb].
      destruct (IH acc a Hrest Ha) as [I1 I2]; [lia|].
      split; [|exact I2]. constructor; [|exact I1].
      rewrite He, Hf. cbn [float_is]. ring.
    + destruct Hrow as (Hm & _ & He). rewrite Hm. cbn [negb map].
      destruct (int_times_float_exact (foundation_cores row) d) as (r & R & Hv);
        [lia|].
      assert (Er : entitled_tib row = Finite r) by congruence.
      assert (Hrow' : float_is (entitled_tib row)
                        (inject_Z (foundation_cores row) * multiplier d))
        by (rewrite Er; exact Hv).
      destruct (IH (float_add acc (entitled_tib row)) (a + foundation_cores row) Hrest)
        as [I1 I2].
      * apply float_add_exact; [exact Ha | exact Hrow' | lia].
      * lia.
      * split; [now constructor|].
        rewrite sumZ_cons. unfold float_sum in *. cbn [fold_left].
        unfold counted in I2.
        now rewrite Z.add_assoc.
Qed.

(** C2. The licence calculator emits one line per host, in the order of
    the loops.  A line with no socket or no core per socket is marked
    missing with 0 foundation cores and an entitlement of 0.0; any other
    line has sockets times max(cores per socket, 16) foundation cores and
    that number times the multiplier as entitlement, the multiplier being
    the float 1.0 for VCF and 0.25 otherwise (VVF) and the product the
    float product.  The totals accumulate over the lines that are not
    missing only, the entitlement total as the float sum in the order of
    the lines, and the missing lines are counted.  With 2 sockets, 8 cores
    per socket and VCF a line has 32 foundation cores and an entitlement
    of 32.0.  The calculator returns when the foundation cores of every
    host are within the floats, and raises OverflowError otherwise.  As
    long as the foundation cores add up, in absolute value, to less than
    2^53, the entitlement of every line is the exact product and the
    entitlement total the exact product of the core total and the
    multiplier. *)
Theorem calculate_licensing_lines (sites : list site) (deployment : string) :
  let mult := tib_per_core_of deployment in
  mult = Finite (if (deployment =? "VCF")%string then 1 else 1 # 4)%Q /\
  (cores_in_range sites = true ->
   exists report, calculate_licensing sites deployment = Ok report) /\
  (cores_in_range sites = false ->
   calculate_licensing sites deployment = Raise INT_TOO_LARGE) /\
  (forall report, calculate_licensing sites deployment = Ok report ->
     tib_per_core report = mult /\
     map line_host (lr_rows report) = map host_line (hosts_of_sites sites) /\
     Forall (license_rule mult) (lr_rows report) /\
     total_cores report = sumZ (map foundation_cores (counted (lr_rows report))) /\
     total_tib report =
       float_sum (Finite 0) (map entitled_tib (counted (lr_rows report))) /\
     missing_count report =
       Z.of_nat (List.length (filter missing (lr_rows report))) /\
     Forall (fun row =>
               deployment = "VCF" -> lr_sockets row = 2 ->
               lr_cores_per_socket row = 8 ->
               missing row = false /\ foundation_cores row = 32 /\
               entitled_tib row = Finite 32)
            (lr_rows report) /\
     (exact_cores (lr_rows report) ->
      Forall (fun row =>
                float_is (entitled_tib row)
                         (inject_Z (foundation_cores row) * multiplier deployment))
             (lr_rows report) /\
      float_is (total_tib report)
               (inject_Z (total_cores report) * multiplier deployment))).
Proof.
  intros mult. subst mult.
  destruct (calculate_licensing_cases sites deployment) as [Hok Hbad].
  split; [exact (tib_per_core_multiplier deployment)|].
  split; [exact Hok|]. split; [exact Hbad|].
  intros report Hrep.
  destruct (calculate_licensing_rows _ _ _ Hrep) as (Hm & Hk & Hr & Hc & Ht & Hn).
  split; [exact Hm|]. split; [exact Hk|]. split; [exact Hr|].
  split; [exact Hc|]. split; [exact Ht|]. split; [exact Hn|]. split.
  - eapply Forall_impl; [|exact Hr].
    intros row Hrow -> Hs Hcps. unfold license_rule in Hrow.
    rewrite Hs, Hcps in Hrow. cbn [Z.eqb orb Z.max Z.compare Pos.compare
      Pos.compare_cont Z.mul Pos.mul Pos.add] in Hrow.
    destruct Hrow as (Hmiss & Hfc & Hent).
    repeat split; [exact Hmiss | exact Hfc |].
    rewrite Hfc in Hent.
    assert (P : int_times_float 32 (tib_per_core_of "VCF") = Ok (Finite 32))
      by (vm_compute; reflexivity).
    rewrite P in Hent. now inversion Hent.
  - intros Hb. unfold exact_cores in Hb.
    destruct (exact_rows deployment (lr_rows report) (Finite 0) 0 Hr) as [E1 E2].
    + cbn [float_is]. ring.
    + cbn [Z.abs]. lia.
    + split; [exact E1|]. rewrite Ht, Hc. exact E2.
Qed.

Lemma calculate_licensing_lines_witness :
  exists report,
    calculate_licensing [paris] "VCF" = Ok report /\
    Forall (fun row => missing row = false /\ foundation_cores row = 32 /\
                       entitled_tib row = Finite 32)
           (lr_rows report) /\
    float_is (total_tib report) (inject_Z (total_cores report) * 1).
Proof.
  pose proof (calculate_licensing_lines [paris] "VCF") as H. cbv zeta in H.
  destruct H as (_ & Hok & _ & H).
  destruct (Hok eq_refl) as (report & Hrep).
  exists report. split; [exact Hrep|].
  destruct (H report Hrep) as (_ & _ & _ & _ & _ & _ & H32 & Hex).
  assert (K : Forall (fun row => lr_sockets row = 2 /\ lr_cores_per_socket row = 8)
                     (lr_rows report) /\ exact_cores (lr_rows report)).
  { vm_compute in Hrep. inversion Hrep; subst report.
    split; [repeat constructor | reflexivity]. }
  destruct K as [K Kb]. split.
  - rewrite Forall_forall in *. intros row Hin.
    destruct (K row Hin) as [Ks Kc]. exact (H32 row Hin eq_refl Ks Kc).
  - exact (proj2 (Hex Kb)).
Defined.

Example licensing_of_samples :
  match calculate_licensing [paris; lyon] "VVF" with
  | Ok report =>
      map (fun row => (lr_hostname row, foundation_cores row,
                       entitled_tib row, missing row)) (lr_rows report) =
        [ ("esx01.lab", 32, Finite 8, false); ("esx02.lab", 32, Finite 8, false);
          ("esx03.lab", 32, Finite 8, false); ("esx04.lab", 32, Finite 8, false);
          ("lo-esx1", 48, Finite 12, false); ("lo-esx2", 0, Finite 0, true) ] /\
      total_cores report = 176 /\
      total_tib report = Finite 44 /\
      missing_count report = 1
  | Raise _ => False
  end.
Proof. vm_compute. repeat split. Qed.

(** A product that is not exact: 2^53 - 1 sockets of 17 cores. *)
Example licensing_rounds :
  int_times_float ((2 ^ 53 - 1) * 17) (tib_per_core_of "VCF") =
    Ok (Finite 153122387330596832) /\
  (2 ^ 53 - 1) * 17 = 153122387330596847.
Proof. split; vm_compute; reflexivity. Qed.

(* ------------------------------------------------------------------ *)
(** ** CSV formatters *)

Lemma plain_parts v :
  plain v = true -> quote_free v = true /\ one_line v = true.
Proof.
  unfold plain, quote_free, one_line, plain_char.
  induction v as [|c v IH]; cbn [all_chars]; [auto|].
  intros H. apply andb_true_iff in H as [Hc Hv].
  apply andb_true_iff in Hc as [Hc _]. apply andb_true_iff in Hc as [Hq Hl].
  destruct (IH Hv) as [IHq IHl]. now rewrite Hq, Hl, IHq, IHl.
Qed.

Lemma push_append cur c v : push cur c ++ v = cur ++ String c v.
Proof. unfold push. now rewrite append_assoc. Qed.

(** Inside a quoted field, a text without quote is taken whole. *)
Lemma csv_read_quoted v : forall cur done s,
  quote_free v = true ->
  csv_read Quoted cur done (v ++ s) = csv_read Quoted (cur ++ v) done s.
Proof.
  unfold quote_free.
  induction v as [|c v IH]; intros cur done s H; cbn [all_chars append] in *.
  - now rewrite append_nil_r.
  - apply andb_true_iff in H as [Hc Hv].
    cbn [csv_read]. destruct (Ascii.eqb c DQ); [discriminate|].
    now rewrite IH, push_append.
Qed.

Lemma quoted_head v s : quoted v ++ s = String DQ (v ++ String DQ s).
Proof. unfold quoted, dq. cbn [append]. now rewrite append_assoc. Qed.

Lemma join_cons sep x y l : join sep (x :: y :: l) = x ++ sep ++ join sep (y :: l).
Proof. reflexivity. Qed.

Lemma csv_read_open done s :
  csv_read FieldStart "" done (String DQ s) = csv_read Quoted "" done s.
Proof. reflexivity. Qed.

Lemma csv_read_quote cur done s :
  csv_read Quoted cur done (String DQ s) = csv_read QuoteSeen cur done s.
Proof. reflexivity. Qed.

Lemma csv_read_comma cur done s :
  csv_read QuoteSeen cur done (String "," s) =
  csv_read FieldStart "" (done ++ [cur])%list s.
Proof. reflexivity. Qed.

Lemma csv_read_fields fs : forall f done,
  Forall (fun v => quote_free v = true) (f :: fs) ->
  csv_read FieldStart "" done (join "," (map quoted (f :: fs))) =
  Some (done ++ f :: fs)%list.
Proof.
  induction fs as [|g fs IH]; intros f done H.
  - inversion H as [|? ? Hf _]; subst.
    cbn [map join String.concat].
    rewrite <- (append_nil_r (quoted f)), quoted_head, csv_read_open.
    rewrite csv_read_quoted by assumption.
    now rewrite csv_read_quote.
  - inversion H as [|? ? Hf Hrest]; subst.
    change (map quoted (f :: g :: fs)) with (quoted f :: quoted g :: map quoted fs).
    rewrite join_cons, quoted_head, csv_read_open.
    rewrite csv_read_quoted by assumption.
    rewrite csv_read_quote.
    change ("," ++ join "," (quoted g :: map quoted fs))
      with (String "," (join "," (map quoted (g :: fs)))).
    rewrite csv_read_comma, (IH g _ Hrest), <- app_assoc. reflexivity.
Qed.

(** Digits, sign and decimal point are plain. *)
Lemma plain_digit d : (d < 10)%nat -> plain_char (digit_char d) = true.
Proof.
  intros H. do 10 (destruct d as [|d]; [reflexivity|]). lia.
Qed.

Lemma plain_str_of_nat_fuel fuel : forall n acc,
  plain acc = true -> plain (str_of_nat_fuel fuel n acc) = true.
Proof.
  induction fuel as [|fuel IH]; intros n acc H; cbn [str_of_nat_fuel].
  - exact H.
  - assert (H' : plain (String (digit_char (n mod 10)) acc) = true).
    { unfold plain in *. cbn [all_chars].
      rewrite plain_digit by (apply Nat.mod_upper_bound; lia). exact H. }
    destruct (n / 10 =? 0)%nat; [exact H' | now apply IH].
Qed.

Lemma plain_str_of_nat n : plain (str_of_nat n) = true.
Proof. now apply plain_str_of_nat_fuel. Qed.

Lemma plain_append a b : plain (a ++ b) = plain a && plain b.
Proof. apply all_chars_append. Qed.

Lemma plain_str_of_Z z : plain (str_of_Z z) = true.
Proof.
  unfold str_of_Z. destruct (z <? 0).
  - now rewrite plain_append, plain_str_of_nat.
  - apply plain_str_of_nat.
Qed.

Lemma plain_fmt_2f q : plain (fmt_2f q) = true.
Proof.
  unfold fmt_2f. rewrite !plain_append, plain_str_of_nat.
  set (h := Z.to_nat _).
  assert (Ht : plain (two_digits (h mod 100)) = true).
  { unfold two_digits, plain. cbn [all_chars].
    pose proof (Nat.mod_upper_bound h 100 ltac:(lia)) as Hb.
    rewrite !plain_digit; [reflexivity | |].
    - apply Nat.mod_upper_bound; lia.
    - apply Nat.Div0.div_lt_upper_bound; lia. }
  rewrite Ht. now destruct (Qlt_le_dec q 0).
Qed.

Lemma plain_fmt_float x : plain (fmt_float x) = true.
Proof. destruct x; cbn [fmt_float]; [apply plain_fmt_2f | reflexivity ..]. Qed.

Lemma license_fields_plain row :
  plain_license_row row -> Forall (fun v => plain v = true) (license_fields row).
Proof.
  intros (Hs & Hc & Hh). unfold license_fields.
  repeat constructor; trivial; try apply plain_str_of_Z.
  - destruct (missing row); [reflexivity | apply plain_str_of_Z].
  - destruct (missing row); [reflexivity | apply plain_fmt_float].
Qed.

Lemma license_total_fields_plain report :
  Forall (fun v => plain v = true) (license_total_fields report).
Proof.
  unfold license_total_fields.
  repeat constructor; try apply plain_str_of_Z; apply plain_fmt_float.
Qed.

(** The f-strings of the licence CSV quote each field and separate the
    fields with commas. *)
Lemma license_line_quoted row :
  license_line row = join "," (map quoted (license_fields row)).
Proof.
  unfold license_line, license_fields, quoted, qcq, join.
  cbn [map String.concat]. now rewrite !append_assoc.
Qed.

Lemma license_total_line_quoted report :
  license_total_line report = join "," (map quoted (license_total_fields report)).
Proof.
  unfold license_total_line, license_total_fields, quoted, qcq, join.
  cbn [map String.concat]. now rewrite !append_assoc.
Qed.

(** Splitting what [join] has put together. *)
Lemma split_lines_from_line l : forall cur rest,
  one_line l = true ->
  split_lines_from cur (l ++ String LF rest) =
  (cur ++ l) :: split_lines_from "" rest.
Proof.
  unfold one_line.
  induction l as [|c l IH]; intros cur rest H; cbn [all_chars append] in *.
  - cbn [split_lines_from]. rewrite Ascii.eqb_refl. now rewrite append_nil_r.
  - apply andb_true_iff in H as [Hc Hl].
    cbn [split_lines_from]. destruct (Ascii.eqb c LF); [discriminate|].
    now rewrite IH, push_append.
Qed.

Lemma split_lines_from_last l : forall cur,
  one_line l = true -> split_lines_from cur l = [cur ++ l].
Proof.
  unfold one_line.
  induction l as [|c l IH]; intros cur H; cbn [all_chars] in *.
  - cbn. now rewrite append_nil_r.
  - apply andb_true_iff in H as [Hc Hl].
    cbn [split_lines_from]. destruct (Ascii.eqb c LF); [discriminate|].
    now rewrite IH, push_append.
Qed.

Lemma split_lines_join ls : forall l,
  Forall (fun x => one_line x = true) (l :: ls) ->
  split_lines (join lf (l :: ls)) = l :: ls.
Proof.
  unfold split_lines.
  induction ls as [|m ls IH]; intros l H; inversion H as [|? ? Hl Hls]; subst.
  - cbn [join String.concat]. now rewrite split_lines_from_last.
  - rewrite join_cons. unfold lf at 1. cbn [append].
    rewrite split_lines_from_line by assumption.
    cbn [append]. now rewrite IH.
Qed.

Lemma one_line_append a b : one_line (a ++ b) = one_line a && one_line b.
Proof. apply all_chars_append. Qed.

Lemma one_line_quoted_row fs :
  Forall (fun v => plain v = true) fs -> one_line (join "," (map quoted fs)) = true.
Proof.
  induction fs as [|f fs IH]; intros H; [reflexivity|].
  inversion H as [|? ? Hf Hfs]; subst.
  assert (Hq : one_line (quoted f) = true).
  { unfold quoted. rewrite !one_line_append.
    now rewrite (proj2 (plain_parts _ Hf)). }
  destruct fs as [|g fs]; [exact Hq|].
  cbn [map]. rewrite join_cons, !one_line_append, Hq.
  exact (IH Hfs).
Qed.

Lemma read_quoted_row fs :
  fs <> [] -> Forall (fun v => plain v = true) fs ->
  csv_read_line (join "," (map quoted fs)) = Some fs.
Proof.
  intros Hne H. destruct fs as [|f fs]; [now elim Hne|].
  unfold csv_read_line. rewrite csv_read_fields; [reflexivity|].
  eapply Forall_impl; [|exact H]. intros v Hv. now apply plain_parts.
Qed.

Lemma read_quoted_rows {R : Type} (fields : R -> list string) (rws : list R) :
  Forall (fun row => fields row <> [] /\
                     Forall (fun v => plain v = true) (fields row)) rws ->
  map csv_read_line (map (fun row => join "," (map quoted (fields row))) rws) =
  map (fun row => Some (fields row)) rws /\
  Forall (fun x => one_line x = true)
         (map (fun row => join "," (map quoted (fields row))) rws).
Proof.
  induction 1 as [|row rws [Hne Hp] _ [IH1 IH2]]; cbn [map].
  - split; constructor.
  - rewrite IH1, read_quoted_row by assumption.
    split; [reflexivity|]. constructor; [now apply one_line_quoted_row | exact IH2].
Qed.

(** C9.  The data lines of both CSV reports, and the total line of the
    licence report, are their fields, each between double quotes, joined
    with commas.  When no field value holds the delimiter of the fields,
    which is the double quote, or a line break, reading the lines of the
    report back gives the field values again; values with commas are
    among them. *)
Theorem csv_reports_round_trip (vreport : vcf9_report) (lreport : license_report) :
  vcf9_report_csv vreport =
    join lf (vcf9_csv_header ::
             map (fun row => join "," (map quoted (vcf9_fields row)))
                 (vr_rows vreport)) /\
  license_report_csv lreport =
    join lf (license_csv_header ::
             map (fun row => join "," (map quoted (license_fields row)))
                 (lr_rows lreport) ++
             [join "," (map quoted (license_total_fields lreport))]) /\
  (Forall (fun row => Forall (fun v => plain v = true) (vcf9_fields row))
          (vr_rows vreport) ->
   map csv_read_line (tl (split_lines (vcf9_report_csv vreport))) =
   map (fun row => Some (vcf9_fields row)) (vr_rows vreport)) /\
  (Forall plain_license_row (lr_rows lreport) ->
   map csv_read_line (tl (split_lines (license_report_csv lreport))) =
   (map (fun row => Some (license_fields row)) (lr_rows lreport) ++
    [Some (license_total_fields lreport)])%list).
Proof.
  assert (HL : license_report_csv lreport =
    join lf (license_csv_header ::
             map (fun row => join "," (map quoted (license_fields row)))
                 (lr_rows lreport) ++
             [join "," (map quoted (license_total_fields lreport))])).
  { unfold license_report_csv. cbn zeta. cbn [app].
    rewrite license_total_line_quoted. do 3 f_equal.
    apply map_ext. apply license_line_quoted. }
  split; [reflexivity|]. split; [exact HL|]. split.
  - intros H. unfold vcf9_report_csv. cbn zeta.
    destruct (read_quoted_rows vcf9_fields (vr_rows vreport)) as [Hread Hone].
    { eapply Forall_impl; [|exact H]. intros row Hrow.
      split; [discriminate | exact Hrow]. }
    rewrite split_lines_join by (constructor; [reflexivity | exact Hone]).
    exact Hread.
  - intros H. rewrite HL.
    destruct (read_quoted_rows license_fields (lr_rows lreport)) as [Hread Hone].
    { eapply Forall_impl; [|exact H]. intros row Hrow.
      split; [discriminate | now apply license_fields_plain]. }
    rewrite split_lines_join.
    + cbn [tl]. rewrite map_app, Hread. cbn [map].
      rewrite read_quoted_row;
        [reflexivity | discriminate | apply license_total_fields_plain].
    + constructor; [reflexivity|]. apply Forall_app. split; [exact Hone|].
      constructor; [|constructor].
      apply one_line_quoted_row, license_total_fields_plain.
Qed.

Lemma csv_reports_round_trip_witness :
  map csv_read_line (tl (split_lines (vcf9_report_csv sample_vcf9_report))) =
    map (fun row => Some (vcf9_fields row)) (vr_rows sample_vcf9_report) /\
  map csv_read_line
      (tl (split_lines (license_report_csv sample_license_report))) =
    (map (fun row => Some (license_fields row)) (lr_rows sample_license_report) ++
     [Some (license_total_fields sample_license_report)])%list.
Proof.
  split.
  - apply (proj1 (proj2 (proj2
             (csv_reports_round_trip sample_vcf9_report sample_license_report)))).
    repeat constructor.
  - apply (proj2 (proj2 (proj2
             (csv_reports_round_trip sample_vcf9_report sample_license_report)))).
    vm_compute. repeat constructor.
Defined.

(** Outside the condition of the round trip: a value with a double quote
    is written without escape.  The line of a row with [quote_inside] is
    not read back, and a row with [field_break_inside] is written like a
    row of two other values. *)
Example csv_quote_not_escaped :
  comma_free quote_inside = true /\ one_line quote_inside = true /\
  csv_read_line (join "," (map quoted [quote_inside; "c"])) <>
    Some [quote_inside; "c"] /\
  one_line field_break_inside = true /\
  join "," (map quoted [field_break_inside]) = join "," (map quoted ["x"; "y"]) /\
  [field_break_inside] <> ["x"; "y"].
Proof.
  repeat split; try reflexivity; discriminate.
Qed.

Example csv_sample_line :
  nth 1 (split_lines (vcf9_report_csv sample_vcf9_report)) "" =
  quoted "Paris, France" ++ "," ++ quoted "ClusterA" ++ "," ++ quoted "esx01.lab" ++
  "," ++ quoted "PowerEdge R640" ++ "," ++ quoted "7.0.3" ++ "," ++
  quoted "VCF 8.0 U3 + 9.0 Ready".
Proof. reflexivity. Qed.

(* ------------------------------------------------------------------ *)
(** ** Layout *)

Lemma shapes_app k l1 l2 : shapes k (l1 ++ l2) = (shapes k l1 ++ shapes k l2)%list.
Proof. unfold shapes. now rewrite filter_app, map_app. Qed.

Lemma rect_shapes k id_ x y w h bg stroke text fs bold tc va rounded n :
  shapes k (fst (rect id_ x y w h bg stroke text fs bold tc va rounded n)) =
  only k rounded (x, y, w, h).
Proof.
  unfold rect, only, shapes, is_rect_of.
  destruct (is_empty text); cbn; rewrite (Z.eqb_sym rounded k);
    destruct (k =? rounded); reflexivity.
Qed.

Lemma host_boxes_shapes k p v xc cy hh chosts : forall i n,
  shapes k (fst (host_boxes p v xc cy hh i chosts n)) =
  if k =? 6 then host_grid xc cy hh i (List.length chosts) else [].
Proof.
  induction chosts as [|h t IH]; intros i n; cbn [host_boxes List.length host_grid].
  - cbn. now destruct (k =? 6).
  - unfold bind_gen at 1. unfold uid at 1. unfold bind_gen at 1.
    destruct (rect _ _ _ _ _ _ _ _ _ _ _ _ _ _) as [h_els n1] eqn:E1.
    unfold bind_gen at 1.
    destruct (host_boxes p v xc cy hh (i + 1) t n1) as [rest n2] eqn:E2.
    cbn [ret fst]. rewrite shapes_app.
    replace h_els with (fst (h_els, n1)) by reflexivity. rewrite <- E1, rect_shapes.
    replace rest with (fst (rest, n2)) by reflexivity. rewrite <- E2, IH.
    unfold only, host_box_at. now destruct (k =? 6).
Qed.

Lemma cluster_bands_shapes k p v xc hh cl : forall cy n,
  shapes k (fst (cluster_bands p v xc hh cy cl n)) = band_rects k xc hh cy cl.
Proof.
  induction cl as [|[cname chosts] t IH]; intros cy n;
    cbn [cluster_bands band_rects].
  - reflexivity.
  - unfold bind_gen at 1. unfold uid at 1. unfold bind_gen at 1.
    destruct (rect _ _ _ _ _ _ _ _ _ _ _ _ _ _) as [c_els n1] eqn:E1.
    unfold bind_gen at 1.
    destruct (host_boxes _ _ _ _ _ _ _ n1) as [hs n2] eqn:E2.
    unfold bind_gen at 1.
    destruct (cluster_bands _ _ _ _ _ _ n2) as [rest n3] eqn:E3.
    cbn [ret fst]. rewrite !shapes_app.
    replace c_els with (fst (c_els, n1)) by reflexivity. rewrite <- E1, rect_shapes.
    replace hs with (fst (hs, n2)) by reflexivity. rewrite <- E2, host_boxes_shapes.
    replace rest with (fst (rest, n3)) by reflexivity. rewrite <- E3, IH.
    reflexivity.
Qed.

Lemma site_zone_shapes k v hh idx st x n :
  shapes k (fst (site_zone v hh idx st x n)) =
  (only k 12 (x, CANVAS_Y, ZONE_W, zone_height hh (clusters st)) ++
   only k 10 (x, CANVAS_Y, ZONE_W, HEADER_H) ++
   band_rects k x hh (CANVAS_Y + HEADER_H + PAD) (clusters st))%list.
Proof.
  unfold site_zone.
  unfold bind_gen at 1. unfold uid at 1. unfold bind_gen at 1.
  destruct (rect _ _ _ _ _ _ _ _ _ _ _ _ _ _) as [z_els n1] eqn:E1.
  unfold bind_gen at 1. unfold uid at 1. unfold bind_gen at 1.
  destruct (rect _ _ _ _ _ _ _ _ _ _ _ _ _ (S n1)) as [h_els n2] eqn:E2.
  unfold bind_gen at 1.
  destruct (cluster_bands _ _ _ _ _ _ n2) as [cl n3] eqn:E3.
  cbn [ret fst]. rewrite !shapes_app.
  replace z_els with (fst (z_els, n1)) by reflexivity. rewrite <- E1, rect_shapes.
  replace h_els with (fst (h_els, n2)) by reflexivity. rewrite <- E2, rect_shapes.
  replace cl with (fst (cl, n3)) by reflexivity.
  rewrite <- E3, cluster_bands_shapes.
  reflexivity.
Qed.

Lemma site_zones_shapes k v hh sites : forall idx x n,
  shapes k (fst (fst (site_zones v hh idx x sites n))) = zone_rects k hh x sites.
Proof.
  induction sites as [|st t IH]; intros idx x n; cbn [site_zones zone_rects].
  - reflexivity.
  - unfold bind_gen at 1.
    destruct (site_zone v hh idx st x n) as [els n1] eqn:E1.
    unfold bind_gen at 1.
    destruct (site_zones v hh (S idx) _ t n1) as [rest n2] eqn:E2.
    cbn [ret fst]. rewrite shapes_app.
    replace els with (fst (els, n1)) by reflexivity. rewrite <- E1, site_zone_shapes.
    replace rest with (fst (rest, n2)) by reflexivity. rewrite <- E2, IH.
    now rewrite <- !app_assoc.
Qed.

(** The rectangles of the document other than the legend. *)
Lemma generate_shapes k sites v :
  k <> 8 ->
  shapes k (elements (generate_excalidraw sites v)) =
  zone_rects k (host_height v) CANVAS_X sites.
Proof.
  intros Hk. unfold generate_excalidraw, generate_elements. cbn [elements].
  unfold bind_gen at 1.
  destruct (site_zones v (host_height v) 0 CANVAS_X sites 0%nat) as [zs n1] eqn:E1.
  replace zs with (fst (zs, n1)) by reflexivity. rewrite <- E1.
  destruct v.
  - unfold bind_gen at 1. unfold uid at 1. unfold bind_gen at 1.
    destruct (rect _ _ _ _ _ _ _ _ _ _ _ _ _ _) as [l_els n2] eqn:E2.
    cbn [ret fst]. rewrite shapes_app, site_zones_shapes.
    replace l_els with (fst (l_els, n2)) by reflexivity. rewrite <- E2, rect_shapes.
    unfold only. destruct (Z.eqb_spec k 8); [contradiction|].
    now rewrite app_nil_r.
  - cbn [ret fst]. apply site_zones_shapes.
Qed.

(** *** Host boxes do not overlap *)

Lemma pairs_app {A} (R : A -> A -> Prop) (l1 l2 : list A) :
  ForallOrdPairs R l1 -> ForallOrdPairs R l2 ->
  (forall a b, In a l1 -> In b l2 -> R a b) ->
  ForallOrdPairs R (l1 ++ l2).
Proof.
  intros H1 H2 H12. induction H1 as [|a l1 Ha H1 IH]; cbn [app].
  - exact H2.
  - constructor.
    + apply Forall_app. split; [exact Ha|].
      apply Forall_forall. intros b Hb. apply H12; [now left | exact Hb].
    + apply IH. intros x y Hx Hy. apply H12; [now right | exact Hy].
Qed.

Lemma pairs_nth {A} (R : A -> A -> Prop) (l : list A) :
  ForallOrdPairs R l ->
  forall i j a b, (i < j)%nat ->
    nth_error l i = Some a -> nth_error l j = Some b -> R a b.
Proof.
  induction 1 as [|x l Hx Hl IH]; intros i j a b Hij Hi Hj.
  - now destruct i.
  - destruct j as [|j]; [lia|]. cbn in Hj.
    destruct i as [|i]; cbn in Hi.
    + inversion Hi; subst. rewrite Forall_forall in Hx.
      apply Hx. now apply nth_error_In in Hj.
    + apply (IH i j); [lia | assumption | assumption].
Qed.

Lemma boxes_overlap_sym a b : boxes_overlap a b -> boxes_overlap b a.
Proof.
  destruct a as [[[ax ay] aw] ah], b as [[[bx by_] bw] bh]. cbn. tauto.
Qed.

Lemma host_grid_in xc cy hh k : forall i b,
  In b (host_grid xc cy hh i k) ->
  exists j, i <= j < i + Z.of_nat k /\ b = host_box_at xc cy hh j.
Proof.
  induction k as [|k IH]; intros i b Hb; cbn [host_grid] in Hb.
  - contradiction.
  - destruct Hb as [<-|Hb].
    + exists i. split; [lia | reflexivity].
    + destruct (IH _ _ Hb) as (j & Hj & ->). exists j. split; [lia | reflexivity].
Qed.

Lemma host_box_disjoint xc cy hh i j :
  0 <= i < j -> 0 < hh ->
  ~ boxes_overlap (host_box_at xc cy hh i) (host_box_at xc cy hh j).
Proof.
  intros Hij Hh. unfold host_box_at, boxes_overlap, COLS, PAD, HOST_W, COL_GAP, ROW_GAP.
  intros (H1 & H2 & H3 & H4).
  pose proof (Z.div_mod i 3 ltac:(lia)) as Ei.
  pose proof (Z.div_mod j 3 ltac:(lia)) as Ej.
  pose proof (Z.mod_pos_bound i 3 ltac:(lia)) as Bi.
  pose proof (Z.mod_pos_bound j 3 ltac:(lia)) as Bj.
  destruct (Z.eq_dec (i / 3) (j / 3)) as [E|N].
  - rewrite E in *. lia.
  - assert (i / 3 + 1 <= j / 3) by lia. nia.
Qed.

Lemma host_grid_pairs xc cy hh k : forall i,
  0 <= i -> 0 < hh ->
  ForallOrdPairs (fun a b => ~ boxes_overlap a b) (host_grid xc cy hh i k).
Proof.
  induction k as [|k IH]; intros i Hi Hh; cbn [host_grid]; constructor.
  - apply Forall_forall. intros b Hb.
    destruct (host_grid_in _ _ _ _ _ _ Hb) as (j & Hj & ->).
    apply host_box_disjoint; lia.
  - apply IH; lia.
Qed.

(** Where the boxes of a cluster of [k] hosts lie. *)
Lemma host_grid_bounds xc cy hh k bx by_ bw bh :
  0 < hh -> In (bx, by_, bw, bh) (host_grid xc cy hh 0 k) ->
  xc + PAD <= bx /\ bx + bw <= xc + ZONE_W - PAD /\ cy <= by_ /\
  by_ + bh <= cy + (Z.of_nat k + COLS - 1) / COLS * (hh + ROW_GAP).
Proof.
  intros Hh Hb. destruct (host_grid_in _ _ _ _ _ _ Hb) as (j & Hj & E).
  unfold host_box_at in E. inversion E; subst. clear E Hb.
  unfold COLS, PAD, HOST_W, COL_GAP, ROW_GAP, ZONE_W in *.
  pose proof (Z.div_mod j 3 ltac:(lia)) as Ej.
  pose proof (Z.mod_pos_bound j 3 ltac:(lia)) as Bj.
  pose proof (Z.div_mod (Z.of_nat k + 3 - 1) 3 ltac:(lia)) as Ek.
  pose proof (Z.mod_pos_bound (Z.of_nat k + 3 - 1) 3 ltac:(lia)) as Bk.
  assert (0 <= j / 3) by (apply Z.div_pos; lia).
  assert (j / 3 + 1 <= (Z.of_nat k + 3 - 1) / 3) by lia.
  repeat split; try lia; nia.
Qed.

Lemma band_rects_hosts xc hh cy c hs t :
  band_rects 6 xc hh cy ((c, hs) :: t) =
  (host_grid xc (cy + CLUSTER_H + PAD) hh 0 (List.length hs) ++
   band_rects 6 xc hh (cy + CLUSTER_H + PAD + grid_rows hs * (hh + ROW_GAP) + PAD) t)%list.
Proof. reflexivity. Qed.

Lemma grid_rows_nonneg hs : 0 <= grid_rows hs.
Proof. unfold grid_rows, COLS. apply Z.div_pos; lia. Qed.

Lemma band_rects_bounds xc hh cl : forall cy bx by_ bw bh,
  0 < hh -> In (bx, by_, bw, bh) (band_rects 6 xc hh cy cl) ->
  xc + PAD <= bx /\ bx + bw <= xc + ZONE_W - PAD /\ cy <= by_.
Proof.
  induction cl as [|[c hs] t IH]; intros cy bx by_ bw bh Hh Hb.
  - contradiction.
  - rewrite band_rects_hosts in Hb. apply in_app_or in Hb as [Hb|Hb].
    + apply host_grid_bounds in Hb; [|assumption].
      unfold CLUSTER_H, PAD in *. lia.
    + apply IH in Hb; [|assumption].
      pose proof (grid_rows_nonneg hs).
      unfold CLUSTER_H, PAD, ROW_GAP in *. nia.
Qed.

Lemma band_rects_pairs xc hh cl : forall cy,
  0 < hh ->
  ForallOrdPairs (fun a b => ~ boxes_overlap a b) (band_rects 6 xc hh cy cl).
Proof.
  induction cl as [|[c hs] t IH]; intros cy Hh.
  - constructor.
  - rewrite band_rects_hosts. apply pairs_app.
    + apply host_grid_pairs; lia.
    + now apply IH.
    + intros [[[ax ay] aw] ah] [[[bx by_] bw] bh] Ha Hb.
      apply host_grid_bounds in Ha; [|assumption].
      apply band_rects_bounds in Hb; [|assumption].
      fold (grid_rows hs) in Ha. cbn. unfold PAD in *. lia.
Qed.

Lemma zone_rects_hosts hh x st t :
  zone_rects 6 hh x (st :: t) =
  (band_rects 6 x hh (CANVAS_Y + HEADER_H + PAD) (clusters st) ++
   zone_rects 6 hh (x + ZONE_W + ZONE_GAP) t)%list.
Proof. reflexivity. Qed.

Lemma zone_rects_bounds hh sites : forall x bx by_ bw bh,
  0 < hh -> In (bx, by_, bw, bh) (zone_rects 6 hh x sites) -> x + PAD <= bx.
Proof.
  induction sites as [|st t IH]; intros x bx by_ bw bh Hh Hb.
  - contradiction.
  - rewrite zone_rects_hosts in Hb. apply in_app_or in Hb as [Hb|Hb].
    + apply band_rects_bounds in Hb; [lia | assumption].
    + apply IH in Hb; [|assumption]. unfold ZONE_W, ZONE_GAP in *. lia.
Qed.

Lemma zone_rects_pairs hh sites : forall x,
  0 < hh ->
  ForallOrdPairs (fun a b => ~ boxes_overlap a b) (zone_rects 6 hh x sites).
Proof.
  induction sites as [|st t IH]; intros x Hh.
  - constructor.
  - rewrite zone_rects_hosts. apply pairs_app.
    + now apply band_rects_pairs.
    + now apply IH.
    + intros [[[ax ay] aw] ah] [[[bx by_] bw] bh] Ha Hb.
      apply band_rects_bounds in Ha; [|assumption].
      apply zone_rects_bounds in Hb; [|assumption].
      cbn. unfold ZONE_W, ZONE_GAP, PAD in *. lia.
Qed.

Lemma host_height_pos v : 0 < host_height v.
Proof. destruct v; reflexivity. Qed.

(** *** Zones *)

Lemma band_rects_none k xc hh cl : forall cy,
  k <> 4 -> k <> 6 -> band_rects k xc hh cy cl = [].
Proof.
  induction cl as [|[c hs] t IH]; intros cy H4 H6; cbn [band_rects].
  - reflexivity.
  - unfold only. destruct (Z.eqb_spec k 4); [contradiction|].
    destruct (Z.eqb_spec k 6); [contradiction|]. now apply IH.
Qed.

Lemma zone_rects_zones hh sites : forall x,
  map (fun b : box => let '(_, _, w, h) := b in (w, h)) (zone_rects 12 hh x sites) =
  map (fun st => (ZONE_W, zone_height hh (clusters st))) sites.
Proof.
  induction sites as [|st t IH]; intros x; cbn [zone_rects map].
  - reflexivity.
  - rewrite band_rects_none by discriminate. cbn. now rewrite IH.
Qed.

Lemma zone_height_sum hh cl :
  zone_height hh cl =
  HEADER_H + PAD +
  sumZ (map (fun item : string * list host =>
               CLUSTER_H + PAD + grid_rows (snd item) * (hh + ROW_GAP)) cl) + PAD.
Proof.
  unfold zone_height. f_equal.
  generalize (HEADER_H + PAD) as z.
  induction cl as [|item cl IH]; intros z; cbn [fold_left map].
  - cbn. lia.
  - rewrite IH, sumZ_cons. lia.
Qed.

Lemma grid_rows_mono (a b : list host) :
  (List.length a <= List.length b)%nat -> grid_rows a <= grid_rows b.
Proof.
  intros H. unfold grid_rows, COLS. apply Z.div_le_mono; lia.
Qed.

Lemma band_heights_nonneg hh cl :
  0 <= hh ->
  0 <= sumZ (map (fun item : string * list host =>
                    CLUSTER_H + PAD + grid_rows (snd item) * (hh + ROW_GAP)) cl).
Proof.
  intros Hh. induction cl as [|e cl IH]; cbn [map]; [cbn; lia|].
  rewrite sumZ_cons. pose proof (grid_rows_nonneg (snd e)).
  unfold CLUSTER_H, PAD, ROW_GAP in *. nia.
Qed.

Lemma zone_height_mono hh c1 c2 extra :
  0 <= hh -> no_more_hosts c1 c2 ->
  zone_height hh c1 <= zone_height hh (c2 ++ extra)%list.
Proof.
  intros Hh H. rewrite !zone_height_sum, map_app, sumZ_app.
  pose proof (band_heights_nonneg hh extra Hh) as He.
  enough (sumZ (map (fun item : string * list host =>
                CLUSTER_H + PAD + grid_rows (snd item) * (hh + ROW_GAP)) c1) <=
          sumZ (map (fun item : string * list host =>
                CLUSTER_H + PAD + grid_rows (snd item) * (hh + ROW_GAP)) c2)) by lia.
  clear He. induction H as [|a b c1 c2 Hab _ IH]; cbn [map]; [lia|].
  rewrite !sumZ_cons.
  pose proof (grid_rows_mono _ _ Hab). pose proof (grid_rows_nonneg (snd a)).
  unfold ROW_GAP in *. nia.
Qed.

(** C5. In the document generated for any list of sites, no two host
    boxes overlap, whether of one site or of two; and every site zone is
    [ZONE_W] wide whatever it holds, its height being [zone_height],
    which does not decrease when clusters get more hosts or clusters are
    added. *)
Theorem host_boxes_disjoint (sites : list site) (vcf9_enabled : bool) :
  let els := elements (generate_excalidraw sites vcf9_enabled) in
  (forall i j a b,
     i <> j ->
     nth_error (filter is_host_box els) i = Some a ->
     nth_error (filter is_host_box els) j = Some b ->
     ~ overlap a b) /\
  map (fun e => (el_width e, el_height e)) (filter is_zone els) =
    map (fun st => (ZONE_W, zone_height (host_height vcf9_enabled) (clusters st)))
        sites /\
  (forall c1 c2 extra,
     no_more_hosts c1 c2 ->
     zone_height (host_height vcf9_enabled) c1 <=
     zone_height (host_height vcf9_enabled) (c2 ++ extra)%list).
Proof.
  intros els. split; [|split].
  - intros i j a b Hij Ha Hb.
    pose proof (generate_shapes 6 sites vcf9_enabled ltac:(discriminate)) as G.
    fold els in G. unfold shapes in G. fold is_host_box in G.
    apply (map_nth_error geometry) in Ha, Hb. rewrite G in Ha, Hb.
    pose proof (zone_rects_pairs (host_height vcf9_enabled) sites CANVAS_X
                  (host_height_pos _)) as P.
    change (overlap a b) with (boxes_overlap (geometry a) (geometry b)).
    destruct (Nat.lt_total i j) as [L|[E|L]]; [|contradiction|].
    + exact (pairs_nth _ _ P i j _ _ L Ha Hb).
    + intros O. apply boxes_overlap_sym in O.
      exact (pairs_nth _ _ P j i _ _ L Hb Ha O).
  - pose proof (generate_shapes 12 sites vcf9_enabled ltac:(discriminate)) as G.
    fold els in G. unfold shapes in G. fold is_zone in G.
    rewrite <- zone_rects_zones with (x := CANVAS_X), <- G, map_map.
    reflexivity.
  - intros c1 c2 extra H. apply zone_height_mono; [|exact H].
    pose proof (host_height_pos vcf9_enabled). lia.
Qed.

Lemma host_boxes_disjoint_witness :
  let els := elements (generate_excalidraw [paris; lyon] false) in
  match nth_error (filter is_host_box els) 0, nth_error (filter is_host_box els) 3 with
  | Some a, Some b => ~ overlap a b
  | _, _ => False
  end /\
  zone_height (host_height false) (clusters paris) <=
  zone_height (host_height false) (clusters paris ++ clusters lyon)%list.
Proof.
  intros els. split.
  - destruct (nth_error (filter is_host_box els) 0) as [a|] eqn:Ea;
      [|vm_compute in Ea; discriminate].
    destruct (nth_error (filter is_host_box els) 3) as [b|] eqn:Eb;
      [|vm_compute in Eb; discriminate].
    apply (proj1 (host_boxes_disjoint [paris; lyon] false) 0%nat 3%nat a b).
    + discriminate.
    + exact Ea.
    + exact Eb.
  - apply (proj2 (proj2 (host_boxes_disjoint [paris; lyon] false))).
    vm_compute. repeat constructor.
Defined.

(* ------------------------------------------------------------------ *)
(** ** The end-to-end scenario *)



Section Scenario.
Context {py : PyFloat}.



End Scenario.








(* ================================================================== *)
(** * Further properties *)

(* ------------------------------------------------------------------ *)
(** ** Dictionaries *)

Lemma dict_get_set_same {V} (d : dict V) k v : dict_get (dict_set d k v) k = Some v.
Proof.
  induction d as [|[k' v'] d IH]; cbn [dict_set dict_get].
  - now rewrite String.eqb_refl.
  - destruct (String.eqb_spec k' k) as [->|N]; cbn [dict_get].
    + now rewrite String.eqb_refl.
    + destruct (String.eqb_spec k' k); [contradiction | exact IH].
Qed.

Lemma dict_get_set_other {V} (d : dict V) k k' v :
  k <> k' -> dict_get (dict_set d k v) k' = dict_get d k'.
Proof.
  intros N. induction d as [|[k0 v0] d IH]; cbn [dict_set dict_get].
  - destruct (String.eqb_spec k k'); [contradiction | reflexivity].
  - destruct (String.eqb_spec k0 k) as [->|N0]; cbn [dict_get].
    + destruct (String.eqb_spec k k'); [contradiction | reflexivity].
    + destruct (String.eqb_spec k0 k'); [reflexivity | exact IH].
Qed.

Lemma dict_get_In {V} (d : dict V) k v : dict_get d k = Some v -> In (k, v) d.
Proof.
  induction d as [|[k' v'] d IH]; cbn [dict_get]; [discriminate|].
  destruct (String.eqb_spec k' k) as [->|N].
  - intros H; inversion H; subst. now left.
  - intros H. right. now apply IH.
Qed.

Lemma dict_get_None {V} (d : dict V) k :
  dict_get d k = None <-> ~ In k (map fst d).
Proof.
  induction d as [|[k' v'] d IH]; cbn [dict_get map fst In].
  - tauto.
  - destruct (String.eqb_spec k' k) as [->|N].
    + split; [discriminate | intros H; elim H; now left].
    + rewrite IH. tauto.
Qed.

Lemma dict_set_keys {V} (d : dict V) k v :
  map fst (dict_set d k v) =
  match dict_get d k with
  | Some _ => map fst d
  | None => (map fst d ++ [k])%list
  end.
Proof.
  induction d as [|[k' v'] d IH]; cbn [dict_set dict_get map fst app].
  - reflexivity.
  - destruct (String.eqb_spec k' k) as [->|N]; cbn [map fst].
    + reflexivity.
    + rewrite IH. now destruct (dict_get d k).
Qed.

Lemma dict_set_nodup {V} (d : dict V) k v :
  NoDup (map fst d) -> NoDup (map fst (dict_set d k v)).
Proof.
  intros H. rewrite dict_set_keys.
  destruct (dict_get d k) eqn:E; [exact H|].
  apply dict_get_None in E.
  apply NoDup_app; [exact H | repeat constructor; intros [] | ].
  intros x Hx [<-|[]]. contradiction.
Qed.

Lemma find_last_split {A} (p : A -> bool) xs x :
  find_last p xs = Some x ->
  exists l1 l2, xs = (l1 ++ x :: l2)%list /\ p x = true /\
                forall y, In y l2 -> p y = false.
Proof.
  revert x. induction xs as [|a xs IH]; intros x; cbn [find_last]; [discriminate|].
  destruct (find_last p xs) as [y|] eqn:E.
  - intros H; inversion H; subst.
    destruct (IH x eq_refl) as (l1 & l2 & -> & Hp & Hl).
    now exists (a :: l1), l2.
  - destruct (p a) eqn:Ea; [|discriminate].
    intros H; inversion H; subst.
    exists [], xs. repeat split; trivial.
    clear -E. induction xs as [|b xs IH]; intros y Hy; [contradiction|].
    cbn [find_last] in E. destruct (find_last p xs); [discriminate|].
    destruct (p b) eqn:Eb; [discriminate|].
    destruct Hy as [<-|Hy]; [exact Eb | now apply IH].
Qed.

Lemma find_last_none {A} (p : A -> bool) xs :
  find_last p xs = None <-> forall y, In y xs -> p y = false.
Proof.
  induction xs as [|a xs IH]; cbn [find_last In].
  - split; [intros _ y [] | reflexivity].
  - destruct (find_last p xs) as [y|].
    + split; [discriminate|]. intros H.
      assert (K : Some y = None) by (apply IH; intros z Hz; apply H; now right).
      discriminate.
    + destruct (p a) eqn:Ea.
      * split; [discriminate|]. intros H. rewrite H in Ea by now left. discriminate.
      * split; [|reflexivity]. intros _ z [<-|Hz]; [exact Ea|].
        now apply (proj1 IH eq_refl).
Qed.

(** A dict comprehension files each item under its key; of the items with
    one key, the last gives the value. *)
Lemma dict_comp_get {A V} (key : A -> string) (val : A -> V) (xs : list A) k :
  dict_get (dict_comp key val xs) k =
  option_map val (find_last (fun x => (key x =? k)%string) xs).
Proof.
  unfold dict_comp.
  assert (G : forall d,
             dict_get (fold_left (fun d x => dict_set d (key x) (val x)) xs d) k =
             match find_last (fun x => (key x =? k)%string) xs with
             | Some x => Some (val x)
             | None => dict_get d k
             end).
  { induction xs as [|x xs IH]; intros d; cbn [fold_left find_last]; [reflexivity|].
    rewrite IH. destruct (find_last _ xs); [reflexivity|].
    destruct (String.eqb_spec (key x) k) as [<-|N].
    - apply dict_get_set_same.
    - now apply dict_get_set_other. }
  rewrite G. now destruct (find_last _ xs).
Qed.

Lemma dict_comp_nodup {A V} (key : A -> string) (val : A -> V) (xs : list A) :
  NoDup (map fst (dict_comp key val xs)).
Proof.
  unfold dict_comp.
  assert (G : forall d : dict V, NoDup (map fst d) ->
             NoDup (map fst (fold_left (fun d x => dict_set d (key x) (val x)) xs d))).
  { induction xs as [|x xs IH]; intros d H; cbn [fold_left]; [exact H|].
    apply IH. now apply dict_set_nodup. }
  apply G. constructor.
Qed.

Lemma dict_comp_keys {A V} (key : A -> string) (val : A -> V) (xs : list A) k :
  In k (map fst (dict_comp key val xs)) <-> In k (map key xs).
Proof.
  split.
  - intros H. destruct (dict_get (dict_comp key val xs) k) as [v|] eqn:E.
    + rewrite dict_comp_get in E.
      destruct (find_last _ xs) as [x|] eqn:F; [|discriminate].
      destruct (find_last_split _ _ _ F) as (l1 & l2 & -> & Hp & _).
      apply String.eqb_eq in Hp. subst k.
      rewrite map_app. apply in_or_app. right. now left.
    + apply dict_get_None in E. contradiction.
  - intros H. apply in_map_iff in H as (x & <- & Hx).
    destruct (dict_get (dict_comp key val xs) (key x)) as [v|] eqn:E.
    + apply dict_get_In in E. apply in_map_iff. now exists (key x, v).
    + rewrite dict_comp_get in E.
      destruct (find_last _ xs) as [y|] eqn:F; [discriminate|].
      rewrite find_last_none in F. specialize (F x Hx). cbn in F.
      now rewrite String.eqb_refl in F.
Qed.

(* ------------------------------------------------------------------ *)
(** ** Column resolver *)

Lemma first_candidate_none d cands :
  first_candidate d cands = None <->
  forall c, In c cands -> dict_get d (lower c) = None.
Proof.
  induction cands as [|c cands IH]; cbn [first_candidate In].
  - split; [intros _ c [] | reflexivity].
  - destruct (dict_get d (lower c)) eqn:E.
    + split; [discriminate|]. intros H. rewrite H in E by now left. discriminate.
    + rewrite IH. split.
      * intros H c' [<-|Hc']; [exact E | now apply H].
      * intros H c' Hc'. apply H. now right.
Qed.

Lemma first_candidate_some d cands col :
  first_candidate d cands = Some col ->
  exists pre c post,
    cands = (pre ++ c :: post)%list /\
    (forall c', In c' pre -> dict_get d (lower c') = None) /\
    dict_get d (lower c) = Some col.
Proof.
  induction cands as [|c cands IH]; cbn [first_candidate]; [discriminate|].
  destruct (dict_get d (lower c)) eqn:E.
  - intros H; inversion H; subst. exists [], c, cands.
    repeat split; trivial. intros c' [].
  - intros H. destruct (IH H) as (pre & c0 & post & -> & Hpre & Hc).
    exists (c :: pre), c0, post. repeat split; trivial.
    intros c' [<-|Hc']; [exact E | now apply Hpre].
Qed.

(** X1. [find_col] finds nothing exactly when no column equals a candidate
    up to case.  Otherwise it answers for the first candidate that has a
    match, and with a column of the frame: the last one that equals that
    candidate up to case. *)
Theorem find_col_first_match (df : sheet) (candidates : list string) :
  (find_col df candidates = None <->
   forall c, In c candidates -> ~ In (lower c) (map lower (columns df))) /\
  (forall col,
     find_col df candidates = Some col ->
     exists pre c post before after,
       candidates = (pre ++ c :: post)%list /\
       (forall c', In c' pre -> ~ In (lower c') (map lower (columns df))) /\
       lower col = lower c /\
       columns df = (before ++ col :: after)%list /\
       ~ In (lower c) (map lower after)).
Proof.
  unfold find_col. split.
  - rewrite first_candidate_none. split; intros H c Hc.
    + rewrite <- (dict_comp_keys lower (fun c => c)). apply dict_get_None. now apply H.
    + apply dict_get_None. rewrite (dict_comp_keys lower (fun c => c)). now apply H.
  - intros col H.
    destruct (first_candidate_some _ _ _ H) as (pre & c & post & -> & Hpre & Hc).
    rewrite dict_comp_get in Hc.
    destruct (find_last _ (columns df)) as [x|] eqn:F; [|discriminate].
    cbn in Hc. inversion Hc; subst x.
    destruct (find_last_split _ _ _ F) as (l1 & l2 & E & Hp & Hl).
    apply String.eqb_eq in Hp.
    exists pre, c, post, l1, l2. repeat split; trivial.
    + intros c' Hc'. rewrite <- (dict_comp_keys lower (fun c => c)).
      apply dict_get_None. now apply Hpre.
    + intros Hin. apply in_map_iff in Hin as (y & Hy & Hyin).
      specialize (Hl y Hyin). cbn in Hl. rewrite Hy, String.eqb_refl in Hl.
      discriminate.
Qed.

Lemma find_col_first_match_witness :
  exists pre c post before after,
    ["VM Host"; "Host"; "DNS Name"; "Name"] = (pre ++ c :: post)%list /\
    (forall c', In c' pre ->
       ~ In (lower c') (map lower ["name"; "HOST"; "Cluster"; "host"])) /\
    lower "host" = lower c /\
    ["name"; "HOST"; "Cluster"; "host"] = (before ++ "host" :: after)%list /\
    ~ In (lower c) (map lower after).
Proof.
  apply (proj2 (find_col_first_match
                  {| columns := ["name"; "HOST"; "Cluster"; "host"]; rows := [] |}
                  ["VM Host"; "Host"; "DNS Name"; "Name"]) "host").
  reflexivity.
Defined.

(* ------------------------------------------------------------------ *)
(** ** Reference table *)

(** X2. The lookup built from the reference table has one key per
    normalised model text, each key once; the releases found under a key
    are those of the last entry of the table with that key. *)
Theorem build_vcf9_lookup_last_wins (hcl_data : list hcl_entry) (k : string) :
  dict_get (build_vcf9_lookup hcl_data) k =
    option_map r (find_last (fun e => (hcl_key e =? k)%string) hcl_data) /\
  NoDup (map fst (build_vcf9_lookup hcl_data)) /\
  (In k (map fst (build_vcf9_lookup hcl_data)) <-> In k (map hcl_key hcl_data)).
Proof.
  unfold build_vcf9_lookup. split; [|split].
  - apply (dict_comp_get hcl_key r).
  - apply dict_comp_nodup.
  - apply (dict_comp_keys hcl_key r).
Qed.

(* ------------------------------------------------------------------ *)
(** ** Trimmed texts *)

Lemma rstrip_idem s : rstrip (rstrip s) = rstrip s.
Proof.
  induction s as [|c s IH]; cbn [rstrip]; [reflexivity|].
  destruct (is_space c && (rstrip s =? "")%string) eqn:E; [reflexivity|].
  cbn [rstrip]. now rewrite IH, E.
Qed.

Lemma lstrip_stops s :
  match lstrip s with
  | "" => True
  | String c _ => is_space c = false
  end.
Proof.
  induction s as [|c s IH]; cbn [lstrip]; [exact I|].
  destruct (is_space c) eqn:E; [exact IH | exact E].
Qed.

Lemma rstrip_keeps_head c t :
  is_space c = false -> rstrip (String c t) = String c (rstrip t).
Proof. intros H. cbn [rstrip]. now rewrite H. Qed.

Lemma strip_idem s : strip (strip s) = strip s.
Proof.
  unfold strip. pose proof (lstrip_stops s) as H.
  destruct (lstrip s) as [|c t]; [reflexivity|].
  rewrite (rstrip_keeps_head c t H). cbn [lstrip]. rewrite H.
  now rewrite (rstrip_keeps_head c _ H), rstrip_idem.
Qed.

Lemma safe_trimmed v : strip (safe v) = safe v.
Proof. destruct v as [s|]; [apply strip_idem | reflexivity]. Qed.

Lemma or_default_not_empty x d : d <> "" -> or_default x d <> "".
Proof.
  intros Hd. unfold or_default, is_empty.
  destruct (String.eqb_spec x ""); assumption.
Qed.

Lemma is_empty_false s : is_empty s = false <-> s <> "".
Proof. unfold is_empty. destruct (String.eqb_spec s ""); split; congruence. Qed.

(* ------------------------------------------------------------------ *)
(** ** How parsing ends *)

Section Rows.
Variable f : list cell -> result (option host).
Variables named overflows : list cell -> bool.
Variable vms_of : list cell -> string.
Hypothesis f_blank : forall row, named row = false -> f row = Ok None.
Hypothesis f_over :
  forall row, named row = true -> overflows row = true -> f row = Raise OVERFLOW.
Hypothesis f_host :
  forall row, named row = true -> overflows row = false ->
              exists h, f row = Ok (Some h) /\ vms h = vms_of row.

Lemma for_each_overflow rws :
  existsb (fun row => named row && overflows row) rws = true ->
  for_each f rws = Raise OVERFLOW.
Proof.
  induction rws as [|row rws IH]; cbn [existsb for_each]; [discriminate|].
  destruct (named row) eqn:N; cbn [andb orb].
  - destruct (overflows row) eqn:O; cbn [orb].
    + intros _. now rewrite (f_over row N O).
    + intros H. destruct (f_host row N O) as (h & -> & _). cbn [bind].
      now rewrite (IH H).
  - intros H. rewrite (f_blank row N). cbn [bind]. now rewrite (IH H).
Qed.

Lemma for_each_fine rws :
  existsb (fun row => named row && overflows row) rws = false ->
  exists found,
    for_each f rws = Ok found /\
    map vms (keep found) = map vms_of (filter named rws).
Proof.
  induction rws as [|row rws IH]; cbn [existsb for_each filter].
  - intros _. now exists [].
  - destruct (named row) eqn:N; cbn [andb orb].
    + destruct (overflows row) eqn:O; cbn [orb]; [discriminate|].
      intros H. destruct (IH H) as (found & -> & E).
      destruct (f_host row N O) as (h & -> & Hv). cbn [bind].
      exists (Some h :: found). split; [reflexivity|].
      unfold keep in *. cbn. now rewrite Hv, E.
    + intros H. destruct (IH H) as (found & -> & E).
      rewrite (f_blank row N). cbn [bind].
      exists (None :: found). split; [reflexivity|]. exact E.
Qed.

End Rows.

Lemma int_of_digits_nonneg s : forall acc, 0 <= acc -> 0 <= int_of_digits acc s.
Proof.
  induction s as [|c s IH]; intros acc H; cbn [int_of_digits]; [exact H|].
  apply IH. lia.
Qed.

Lemma vm_value_nonneg v : 0 <= vm_value v.
Proof.
  unfold vm_value. destruct (isdigit v); [|lia].
  now apply int_of_digits_nonneg.
Qed.

Lemma vm_count_outcome v :
  (bad_vm_text v = false -> vm_count v = Ok (vm_value v)) /\
  (bad_vm_text v = true -> vm_count v = Raise (int_error v)).
Proof.
  unfold bad_vm_text, vm_count, vm_value, int_error.
  destruct (isdigit v); cbn [andb]; [|split; [reflexivity | discriminate]].
  destruct (too_long v); cbn [orb];
    [split; [discriminate | reflexivity]|].
  destruct (all_chars is_digit v); cbn [negb];
    (split; [try reflexivity; discriminate | try discriminate; reflexivity]).
Qed.

(** [int] takes 4300 digits and refuses 4301, whatever follows them; the
    message on a superscript shows 200 characters at most. *)
Example vm_count_limit :
  vm_count (fill "1" 4300) = Ok ((10 ^ 4300 - 1) / 9) /\
  vm_count LONG_NUMBER = Raise (EXCEEDS_LIMIT LONG_NUMBER) /\
  vm_count (LONG_NUMBER ++ SUPERSCRIPT_TWO) =
    Raise (EXCEEDS_LIMIT (LONG_NUMBER ++ SUPERSCRIPT_TWO)) /\
  vm_count (SUPERSCRIPT_TWO ++ LONG_NUMBER) =
    Raise (INVALID_LITERAL (SUPERSCRIPT_TWO ++ LONG_NUMBER)) /\
  EXCEEDS_LIMIT (LONG_NUMBER ++ SUPERSCRIPT_TWO) =
    ValueError "Exceeds the limit (4300 digits) for integer string conversion: value has 4301 digits; use sys.set_int_max_str_digits() to increase the limit" /\
  INVALID_LITERAL (SUPERSCRIPT_TWO ++ LONG_NUMBER) =
    ValueError ("invalid literal for int() with base 10: '" ++ SUPERSCRIPT_TWO ++
                fill "1" 198) /\
  INVALID_LITERAL SUPERSCRIPT_TWO =
    ValueError ("invalid literal for int() with base 10: '" ++ SUPERSCRIPT_TWO ++ "'").
Proof.
  split; [vm_compute; reflexivity|]. split; [vm_compute; reflexivity|].
  split; [vm_compute; reflexivity|]. split; [vm_compute; reflexivity|].
  split; [vm_compute; reflexivity|]. split; vm_compute; reflexivity.
Qed.

(** The messages of [int] start with an E or with an i. *)
Lemma int_error_start v :
  exists t, int_error v = ValueError (String "E" t) \/
            int_error v = ValueError (String "i" t).
Proof.
  unfold int_error, EXCEEDS_LIMIT, INVALID_LITERAL.
  destruct (too_long v); cbn [append]; eexists; [left | right]; reflexivity.
Qed.

(** The errors of [int] are not the error of the dispatcher. *)
Lemma int_error_other v name : int_error v <> UNRECOGNISED name.
Proof.
  destruct (int_error_start v) as (t & [K|K]); rewrite K; discriminate.
Qed.

Lemma sum_vms_ok hs :
  existsb bad_vm_text (map vms hs) = false ->
  sum_vms hs = Ok (sumZ (map (fun h => vm_value (vms h)) hs)).
Proof.
  induction hs as [|h hs IH]; cbn [map existsb sum_vms]; [reflexivity|].
  intros H. apply orb_false_iff in H as [Hh Hs].
  rewrite (proj1 (vm_count_outcome _) Hh), (IH Hs). reflexivity.
Qed.

Lemma sum_vms_bad hs :
  existsb bad_vm_text (map vms hs) = true ->
  exists v, In v (map vms hs) /\ bad_vm_text v = true /\
            sum_vms hs = Raise (int_error v).
Proof.
  induction hs as [|h hs IH]; cbn [map existsb sum_vms]; [discriminate|].
  destruct (bad_vm_text (vms h)) eqn:Hh; cbn [orb].
  - intros _. rewrite (proj2 (vm_count_outcome _) Hh).
    exists (vms h). repeat split; [now left | exact Hh].
  - intros H. rewrite (proj1 (vm_count_outcome _) Hh). cbn [bind].
    destruct (IH H) as (v & Hin & Hv & ->). exists v.
    repeat split; [now right | exact Hv].
Qed.

Lemma sum_vms_inv hs n :
  sum_vms hs = Ok n -> n = sumZ (map (fun h => vm_value (vms h)) hs).
Proof.
  intros H. destruct (existsb bad_vm_text (map vms hs)) eqn:E.
  - destruct (sum_vms_bad hs E) as (v & _ & _ & K). congruence.
  - rewrite (sum_vms_ok hs E) in H. now inversion H.
Qed.

Lemma existsb_named (named : list cell -> bool) (vms_of : list cell -> string) rws :
  existsb bad_vm_text (map vms_of (filter named rws)) =
  existsb (fun row => named row && bad_vm_text (vms_of row)) rws.
Proof.
  induction rws as [|row rws IH]; cbn [filter map existsb]; [reflexivity|].
  destruct (named row); cbn [map existsb andb orb]; now rewrite IH.
Qed.

Section Outcomes.
Context {py : PyFloat}.

Lemma count_field_outcome df row col :
  (reads_infinite df row col = true -> count_field df row col = Raise OVERFLOW) /\
  (reads_infinite df row col = false -> exists z, count_field df row col = Ok z).
Proof.
  unfold reads_infinite, count_field.
  destruct (truthy col); [destruct (int_of_float _)|];
    (split; [try discriminate; reflexivity | try discriminate; eauto]).
Qed.

Lemma rvtools_host_outcome vh c2 c3 c4 c6 c7 c8 row :
  let f := rvtools_host vh (find_col vh ["VM Host"; "Host"; "DNS Name"; "Name"])
             c2 c3 c4 (find_col vh ["# VMs"; "VMs"; "Number of VMs"; "#VMs"])
             c6 c7 c8
             (find_col vh ["# CPU"; "CPUs"; "CPU Sockets"; "Sockets"; "Num CPU"])
             (find_col vh ["Cores per CPU"; "# Cores per CPU"; "Cores Per Socket"]) in
  let named := negb (is_empty (rvtools_hostname vh row)) in
  let over :=
    reads_infinite vh row
      (find_col vh ["# CPU"; "CPUs"; "CPU Sockets"; "Sockets"; "Num CPU"]) ||
    reads_infinite vh row
      (find_col vh ["Cores per CPU"; "# Cores per CPU"; "Cores Per Socket"]) in
  (named = false -> f row = Ok None) /\
  (named = true -> over = true -> f row = Raise OVERFLOW) /\
  (named = true -> over = false ->
   exists h, f row = Ok (Some h) /\ vms h = rvtools_vms vh row).
Proof.
  cbv zeta. unfold rvtools_host, rvtools_hostname, rvtools_vms.
  destruct (is_empty (field vh row _ "")); cbn [negb].
  - split; [reflexivity | split; discriminate].
  - split; [discriminate|].
    set (cs := find_col vh ["# CPU"; "CPUs"; "CPU Sockets"; "Sockets"; "Num CPU"]).
    set (cc := find_col vh ["Cores per CPU"; "# Cores per CPU"; "Cores Per Socket"]).
    destruct (count_field_outcome vh row cs) as [S1 S0].
    destruct (count_field_outcome vh row cc) as [C1 C0].
    destruct (reads_infinite vh row cs); cbn [orb].
    + rewrite (S1 eq_refl). split; [reflexivity | discriminate].
    + destruct (S0 eq_refl) as (z & ->). cbn [bind].
      destruct (reads_infinite vh row cc).
      * rewrite (C1 eq_refl). split; [reflexivity | discriminate].
      * destruct (C0 eq_refl) as (z' & ->). cbn [bind].
        split; [discriminate|]. intros _ _. eexists. split; reflexivity.
Qed.

Lemma liveoptics_host_outcome df pdf pm row :
  let f := liveoptics_host df pdf pm (find_col df ["CPU Sockets"; "Sockets"])
             (find_col df ["Cores Per Socket"; "Cores per CPU"]) in
  let named := negb (is_empty (liveoptics_hostname df row)) in
  let over :=
    reads_infinite df row (find_col df ["CPU Sockets"; "Sockets"]) ||
    reads_infinite df row (find_col df ["Cores Per Socket"; "Cores per CPU"]) in
  (named = false -> f row = Ok None) /\
  (named = true -> over = true -> f row = Raise OVERFLOW) /\
  (named = true -> over = false ->
   exists h, f row = Ok (Some h) /\ vms h = liveoptics_vms df row).
Proof.
  cbv zeta. unfold liveoptics_host, liveoptics_hostname, liveoptics_vms.
  destruct (is_empty (safe (row_get df row "Host Name"))); cbn [negb].
  - split; [reflexivity | split; discriminate].
  - split; [discriminate|].
    set (cs := find_col df ["CPU Sockets"; "Sockets"]).
    set (cc := find_col df ["Cores Per Socket"; "Cores per CPU"]).
    destruct (count_field_outcome df row cs) as [S1 S0].
    destruct (count_field_outcome df row cc) as [C1 C0].
    destruct (reads_infinite df row cs); cbn [orb].
    + rewrite (S1 eq_refl). split; [reflexivity | discriminate].
    + destruct (S0 eq_refl) as (z & ->). cbn [bind].
      destruct (reads_infinite df row cc).
      * rewrite (C1 eq_refl). split; [reflexivity | discriminate].
      * destruct (C0 eq_refl) as (z' & ->). cbn [bind].
        split; [discriminate|]. intros _ _. eexists. split; reflexivity.
Qed.

(** The three ways in which a loop over rows followed by the sum of the
    VM counts ends. *)
Lemma rows_then_sum (f : list cell -> result (option host))
    (named overflows : list cell -> bool) (vms_of : list cell -> string)
    (mk : list host -> Z -> site) (rws : list (list cell)) :
  (forall row, named row = false -> f row = Ok None) ->
  (forall row, named row = true -> overflows row = true -> f row = Raise OVERFLOW) ->
  (forall row, named row = true -> overflows row = false ->
               exists h, f row = Ok (Some h) /\ vms h = vms_of row) ->
  let res := (found <- for_each f rws ;;
              total <- sum_vms (keep found) ;;
              Ok (mk (keep found) total)) in
  let over := existsb (fun row => named row && overflows row) rws in
  let bad := existsb (fun row => named row && bad_vm_text (vms_of row)) rws in
  (over = true -> res = Raise OVERFLOW) /\
  (over = false -> bad = true ->
   exists v, bad_vm_text v = true /\ res = Raise (int_error v)) /\
  (over = false -> bad = false ->
   exists hosts,
     res = Ok (mk hosts (sumZ (map vm_value (map vms_of (filter named rws))))) /\
     map vms hosts = map vms_of (filter named rws)).
Proof.
  intros Hb Ho Hh. cbv zeta. split; [|split].
  - intros H. now rewrite (for_each_overflow f named overflows vms_of Hb Ho Hh rws H).
  - intros H B.
    destruct (for_each_fine f named overflows vms_of Hb Hh rws H) as (found & -> & E).
    cbn [bind]. rewrite <- existsb_named, <- E in B.
    destruct (sum_vms_bad _ B) as (v & _ & Hv & ->). now exists v.
  - intros H B.
    destruct (for_each_fine f named overflows vms_of Hb Hh rws H) as (found & -> & E).
    cbn [bind]. rewrite <- existsb_named, <- E in B.
    rewrite (sum_vms_ok _ B). cbn [bind].
    exists (keep found). split; [|exact E].
    now rewrite <- (map_map vms vm_value), E.
Qed.

Lemma frame_of_found (xls : workbook) (key : string) :
  (frame_of xls key = None <-> ~ In key (map lower (sheet_names xls))) /\
  (dict_get (sheet_names_lower xls) key = None <->
   ~ In key (map lower (sheet_names xls))).
Proof.
  assert (K : dict_get (sheet_names_lower xls) key = None <->
              ~ In key (map lower (sheet_names xls))).
  { unfold sheet_names_lower. rewrite dict_get_None.
    now rewrite (dict_comp_keys lower (fun s => s)). }
  split; [|exact K]. unfold frame_of.
  destruct (dict_get (sheet_names_lower xls) key) as [nm|] eqn:E.
  - split; [|intros H; apply K in H; discriminate].
    intros H. exfalso. unfold xls_parse in H. apply dict_get_None in H. apply H.
    unfold sheet_names_lower in E. rewrite dict_comp_get in E.
    destruct (find_last _ (sheet_names xls)) as [x|] eqn:F; [|discriminate].
    cbn in E. inversion E; subst x.
    destruct (find_last_split _ _ _ F) as (l1 & l2 & Hs & _).
    unfold sheet_names in Hs. rewrite Hs. apply in_or_app. right. now left.
  - split; [intros _; now apply K | reflexivity].
Qed.

(** What [parse_rvtools] comes to once its sheet is found. *)
Lemma parse_rvtools_found xls name vh :
  frame_of xls "vhost" = Some vh ->
  parse_rvtools xls name =
  (found <- for_each
              (rvtools_host vh (find_col vh ["VM Host"; "Host"; "DNS Name"; "Name"])
                 (find_col vh ["Cluster"; "Cluster Name"])
                 (find_col vh ["Model"; "Hardware Model"])
                 (find_col vh ["ESX Version"; "ESXi Version"; "Version"])
                 (find_col vh ["# VMs"; "VMs"; "Number of VMs"; "#VMs"])
                 (find_col vh ["CPU usage %"; "CPU %"; "CPU Usage %"; "CPU%"])
                 (find_col vh ["Memory usage %"; "Mem %"; "Memory %"; "Mem%"])
                 (find_col vh ["Service Tag"; "Serial Number"; "SN"])
                 (find_col vh ["# CPU"; "CPUs"; "CPU Sockets"; "Sockets"; "Num CPU"])
                 (find_col vh ["Cores per CPU"; "# Cores per CPU"; "Cores Per Socket"]))
              (rows vh) ;;
   total <- sum_vms (keep found) ;;
   Ok {| site_name := name;
         clusters := group_by_cluster (keep found);
         vcenter_version := rvtools_vcenter_version xls;
         total_hosts := Z.of_nat (List.length (keep found));
         total_vms := total |}).
Proof.
  unfold frame_of, parse_rvtools.
  destruct (dict_get (sheet_names_lower xls) "vhost") as [nm|]; [|discriminate].
  intros ->. reflexivity.
Qed.

Lemma parse_liveoptics_found xls name df :
  frame_of xls "esx hosts" = Some df ->
  exists pdf pm,
  parse_liveoptics xls name =
  (found <- for_each
              (liveoptics_host df pdf pm (find_col df ["CPU Sockets"; "Sockets"])
                 (find_col df ["Cores Per Socket"; "Cores per CPU"]))
              (rows df) ;;
   total <- sum_vms (keep found) ;;
   Ok {| site_name := name;
         clusters := group_by_cluster (keep found);
         vcenter_version := liveoptics_vcenter_version df;
         total_hosts := Z.of_nat (List.length (keep found));
         total_vms := total |}).
Proof.
  unfold frame_of, parse_liveoptics.
  destruct (dict_get (sheet_names_lower xls) "esx hosts") as [nm|]; [|discriminate].
  intros ->. eexists. eexists. reflexivity.
Qed.

End Outcomes.

Section ParseOutcomes.
Context {py : PyFloat}.

Lemma parse_rvtools_cases xls name vh :
  frame_of xls "vhost" = Some vh ->
  let res := parse_rvtools xls name in
  let over := existsb (rvtools_overflows vh) (rows vh) in
  let bad := existsb (rvtools_bad_vms vh) (rows vh) in
  (over = true -> res = Raise OVERFLOW) /\
  (over = false -> bad = true ->
   exists v, bad_vm_text v = true /\ res = Raise (int_error v)) /\
  (over = false -> bad = false ->
   exists st, res = Ok st /\ site_name st = name /\
     total_hosts st =
       Z.of_nat (List.length (named_rows rvtools_hostname (Some vh))) /\
     total_vms st =
       sumZ (map vm_value
               (map (rvtools_vms vh) (named_rows rvtools_hostname (Some vh))))).
Proof.
  intros F. cbv zeta. rewrite (parse_rvtools_found xls name vh F).
  pose proof (rows_then_sum
    (rvtools_host vh (find_col vh ["VM Host"; "Host"; "DNS Name"; "Name"])
       (find_col vh ["Cluster"; "Cluster Name"])
       (find_col vh ["Model"; "Hardware Model"])
       (find_col vh ["ESX Version"; "ESXi Version"; "Version"])
       (find_col vh ["# VMs"; "VMs"; "Number of VMs"; "#VMs"])
       (find_col vh ["CPU usage %"; "CPU %"; "CPU Usage %"; "CPU%"])
       (find_col vh ["Memory usage %"; "Mem %"; "Memory %"; "Mem%"])
       (find_col vh ["Service Tag"; "Serial Number"; "SN"])
       (find_col vh ["# CPU"; "CPUs"; "CPU Sockets"; "Sockets"; "Num CPU"])
       (find_col vh ["Cores per CPU"; "# Cores per CPU"; "Cores Per Socket"]))
    (fun row => negb (is_empty (rvtools_hostname vh row)))
    (fun row =>
       reads_infinite vh row
         (find_col vh ["# CPU"; "CPUs"; "CPU Sockets"; "Sockets"; "Num CPU"]) ||
       reads_infinite vh row
         (find_col vh ["Cores per CPU"; "# Cores per CPU"; "Cores Per Socket"]))
    (rvtools_vms vh)
    (fun hosts total =>
       {| site_name := name; clusters := group_by_cluster hosts;
          vcenter_version := rvtools_vcenter_version xls;
          total_hosts := Z.of_nat (List.length hosts); total_vms := total |})
    (rows vh)
    (fun row => proj1 (rvtools_host_outcome vh _ _ _ _ _ _ row))
    (fun row => proj1 (proj2 (rvtools_host_outcome vh _ _ _ _ _ _ row)))
    (fun row => proj2 (proj2 (rvtools_host_outcome vh _ _ _ _ _ _ row)))) as R.
  cbv zeta in R. destruct R as (R1 & R2 & R3).
  split; [exact R1|]. split; [exact R2|].
  intros O B. destruct (R3 O B) as (hosts & E & Hv). rewrite E.
  eexists. split; [reflexivity|]. cbn [site_name total_hosts total_vms named_rows].
  split; [reflexivity|]. split; [|reflexivity].
  now rewrite <- (length_map vms hosts), Hv, length_map.
Qed.

Lemma parse_liveoptics_cases xls name df :
  frame_of xls "esx hosts" = Some df ->
  let res := parse_liveoptics xls name in
  let over := existsb (liveoptics_overflows df) (rows df) in
  let bad := existsb (liveoptics_bad_vms df) (rows df) in
  (over = true -> res = Raise OVERFLOW) /\
  (over = false -> bad = true ->
   exists v, bad_vm_text v = true /\ res = Raise (int_error v)) /\
  (over = false -> bad = false ->
   exists st, res = Ok st /\ site_name st = name /\
     total_hosts st =
       Z.of_nat (List.length (named_rows liveoptics_hostname (Some df))) /\
     total_vms st =
       sumZ (map vm_value
               (map (liveoptics_vms df) (named_rows liveoptics_hostname (Some df))))).
Proof.
  intros F. cbv zeta.
  destruct (parse_liveoptics_found xls name df F) as (pdf & pm & ->).
  pose proof (rows_then_sum
    (liveoptics_host df pdf pm (find_col df ["CPU Sockets"; "Sockets"])
       (find_col df ["Cores Per Socket"; "Cores per CPU"]))
    (fun row => negb (is_empty (liveoptics_hostname df row)))
    (fun row =>
       reads_infinite df row (find_col df ["CPU Sockets"; "Sockets"]) ||
       reads_infinite df row (find_col df ["Cores Per Socket"; "Cores per CPU"]))
    (liveoptics_vms df)
    (fun hosts total =>
       {| site_name := name; clusters := group_by_cluster hosts;
          vcenter_version := liveoptics_vcenter_version df;
          total_hosts := Z.of_nat (List.length hosts); total_vms := total |})
    (rows df)
    (fun row => proj1 (liveoptics_host_outcome df pdf pm row))
    (fun row => proj1 (proj2 (liveoptics_host_outcome df pdf pm row)))
    (fun row => proj2 (proj2 (liveoptics_host_outcome df pdf pm row)))) as R.
  cbv zeta in R. destruct R as (R1 & R2 & R3).
  split; [exact R1|]. split; [exact R2|].
  intros O B. destruct (R3 O B) as (hosts & E & Hv). rewrite E.
  eexists. split; [reflexivity|]. cbn [site_name total_hosts total_vms named_rows].
  split; [reflexivity|]. split; [|reflexivity].
  now rewrite <- (length_map vms hosts), Hv, length_map.
Qed.

(** Every way in which a parser ends once its sheet is found. *)
Lemma parse_rvtools_ends xls name vh :
  frame_of xls "vhost" = Some vh ->
  parse_rvtools xls name = Raise OVERFLOW \/
  (exists v, bad_vm_text v = true /\ parse_rvtools xls name = Raise (int_error v)) \/
  (exists st, parse_rvtools xls name = Ok st /\ site_name st = name).
Proof.
  intros F. destruct (parse_rvtools_cases xls name vh F) as (R1 & R2 & R3).
  destruct (existsb (rvtools_overflows vh) (rows vh)); [left; now apply R1|].
  destruct (existsb (rvtools_bad_vms vh) (rows vh));
    [right; left; now apply R2|].
  right; right. destruct (R3 eq_refl eq_refl) as (st & E & Hn & _). eauto.
Qed.

Lemma parse_liveoptics_ends xls name df :
  frame_of xls "esx hosts" = Some df ->
  parse_liveoptics xls name = Raise OVERFLOW \/
  (exists v, bad_vm_text v = true /\
             parse_liveoptics xls name = Raise (int_error v)) \/
  (exists st, parse_liveoptics xls name = Ok st /\ site_name st = name).
Proof.
  intros F. destruct (parse_liveoptics_cases xls name df F) as (R1 & R2 & R3).
  destruct (existsb (liveoptics_overflows df) (rows df)); [left; now apply R1|].
  destruct (existsb (liveoptics_bad_vms df) (rows df));
    [right; left; now apply R2|].
  right; right. destruct (R3 eq_refl eq_refl) as (st & E & Hn & _). eauto.
Qed.

Lemma frame_of_some xls key :
  In key (map lower (sheet_names xls)) -> exists sh, frame_of xls key = Some sh.
Proof.
  intros H. destruct (frame_of xls key) as [sh|] eqn:E; [now exists sh|].
  apply (proj1 (frame_of_found xls key)) in E. contradiction.
Qed.

(** X3. Called on a workbook without their sheet, the parsers raise a
    [ValueError] that names the site; they raise it in no other case. *)
Theorem parsers_missing_sheet (xls : workbook) (name : string) :
  (parse_rvtools xls name = Raise (NO_VHOST name) <->
   ~ In "vhost" (map lower (sheet_names xls))) /\
  (parse_liveoptics xls name = Raise (NO_ESX_HOSTS name) <->
   ~ In "esx hosts" (map lower (sheet_names xls))).
Proof.
  split; split.
  - intros H Hin. destruct (frame_of_some xls _ Hin) as (vh & F).
    destruct (parse_rvtools_ends xls name vh F) as [E|[(v & _ & E)|(st & E & _)]];
      rewrite E in H;
      first [discriminate
            | destruct (int_error_start v) as (t & [K|K]); rewrite K in H; discriminate].
  - intros H. apply (proj2 (frame_of_found xls "vhost")) in H.
    unfold parse_rvtools. now rewrite H.
  - intros H Hin. destruct (frame_of_some xls _ Hin) as (df & F).
    destruct (parse_liveoptics_ends xls name df F) as [E|[(v & _ & E)|(st & E & _)]];
      rewrite E in H;
      first [discriminate
            | destruct (int_error_start v) as (t & [K|K]); rewrite K in H; discriminate].
  - intros H. apply (proj2 (frame_of_found xls "esx hosts")) in H.
    unfold parse_liveoptics. now rewrite H.
Qed.

Lemma sum_vm_values_nonneg l : 0 <= sumZ (map vm_value l).
Proof.
  induction l as [|v l IH]; cbn [map]; [cbn; lia|].
  rewrite sumZ_cons. pose proof (vm_value_nonneg v). lia.
Qed.

(** X4. On a workbook that pandas has opened and whose header cells are
    texts, once the vHost sheet is found, [parse_rvtools] ends in one of
    three ways, decided by the rows with a host name: with
    [OverflowError] when a socket or core count reads as an infinite
    float; else with the [ValueError] of [int] when a VM count passes
    [isdigit] and [int] refuses it, for a superscript digit or for more
    than 4300 digits; else with a site that carries the site label,
    counts the named rows in [total_hosts] and sums in [total_vms] the
    VM counts that are decimal texts, the others counting for 0, so that
    [total_vms] is never negative. *)
Theorem parse_rvtools_outcome (xls : workbook) (name : string) (vh : sheet) :
  frame_of xls "vhost" = Some vh ->
  let res := parse_rvtools xls name in
  let over := existsb (rvtools_overflows vh) (rows vh) in
  let bad := existsb (rvtools_bad_vms vh) (rows vh) in
  (over = true -> res = Raise OVERFLOW) /\
  (over = false -> bad = true ->
   exists v, bad_vm_text v = true /\ res = Raise (int_error v)) /\
  (over = false -> bad = false ->
   exists st, res = Ok st /\ site_name st = name /\
     total_hosts st =
       Z.of_nat (List.length (named_rows rvtools_hostname (Some vh))) /\
     total_vms st =
       sumZ (map vm_value
               (map (rvtools_vms vh) (named_rows rvtools_hostname (Some vh)))) /\
     0 <= total_vms st).
Proof.
  intros F. destruct (parse_rvtools_cases xls name vh F) as (R1 & R2 & R3).
  cbv zeta. split; [exact R1|]. split; [exact R2|].
  intros O B. destruct (R3 O B) as (st & E & Hn & Hh & Hv).
  exists st. repeat split; trivial.
  rewrite Hv. apply sum_vm_values_nonneg.
Qed.

(** X5. On a workbook that pandas has opened and whose header cells are
    texts, once the ESX Hosts sheet is found, [parse_liveoptics] ends in
    the same three ways, with the same counts. *)
Theorem parse_liveoptics_outcome (xls : workbook) (name : string) (df : sheet) :
  frame_of xls "esx hosts" = Some df ->
  let res := parse_liveoptics xls name in
  let over := existsb (liveoptics_overflows df) (rows df) in
  let bad := existsb (liveoptics_bad_vms df) (rows df) in
  (over = true -> res = Raise OVERFLOW) /\
  (over = false -> bad = true ->
   exists v, bad_vm_text v = true /\ res = Raise (int_error v)) /\
  (over = false -> bad = false ->
   exists st, res = Ok st /\ site_name st = name /\
     total_hosts st =
       Z.of_nat (List.length (named_rows liveoptics_hostname (Some df))) /\
     total_vms st =
       sumZ (map vm_value
               (map (liveoptics_vms df)
                    (named_rows liveoptics_hostname (Some df)))) /\
     0 <= total_vms st).
Proof.
  intros F. destruct (parse_liveoptics_cases xls name df F) as (R1 & R2 & R3).
  cbv zeta. split; [exact R1|]. split; [exact R2|].
  intros O B. destruct (R3 O B) as (st & E & Hn & Hh & Hv).
  exists st. repeat split; trivial.
  rewrite Hv. apply sum_vm_values_nonneg.
Qed.

(** X6. On a workbook that pandas has opened and whose header cells are
    texts, the dispatcher raises nothing but the unrecognised-format
    error (exactly when the workbook has neither sheet), [OverflowError]
    and the [ValueError] of [int], on a superscript digit or on more
    than 4300 digits; in particular it never reports a missing sheet.
    A site that it returns carries the site label. *)
Theorem parse_file_errors (xls : workbook) (name : string) :
  (parse_file xls name = Raise (UNRECOGNISED name) <->
   ~ In "vhost" (map lower (sheet_names xls)) /\
   ~ In "esx hosts" (map lower (sheet_names xls))) /\
  (forall e, parse_file xls name = Raise e ->
     e = UNRECOGNISED name \/ e = OVERFLOW \/
     exists v, bad_vm_text v = true /\ e = int_error v) /\
  (forall st, parse_file xls name = Ok st -> site_name st = name).
Proof.
  unfold parse_file.
  destruct (mem_str "vhost" (map lower (sheet_names xls))) eqn:A.
  - apply mem_str_In in A. destruct (frame_of_some xls _ A) as (vh & F).
    destruct (parse_rvtools_ends xls name vh F) as [E|[(v & Hv & E)|(st & E & Hn)]];
      rewrite E;
      (split; [split; [first [discriminate | intros K; inversion K as [K1];
                                now elim (int_error_other v name)]
                      | tauto] | split]);
      intros x Hx; inversion Hx; subst; eauto.
  - assert (NA : ~ In "vhost" (map lower (sheet_names xls)))
      by (rewrite <- mem_str_In; congruence).
    destruct (mem_str "esx hosts" (map lower (sheet_names xls))) eqn:B.
    + apply mem_str_In in B. destruct (frame_of_some xls _ B) as (df & F).
      destruct (parse_liveoptics_ends xls name df F)
        as [E|[(v & Hv & E)|(st & E & Hn)]];
        rewrite E;
        (split; [split; [first [discriminate | intros K; inversion K as [K1];
                                  now elim (int_error_other v name)]
                        | tauto] | split]);
        intros x Hx; inversion Hx; subst; eauto.
    + assert (NB : ~ In "esx hosts" (map lower (sheet_names xls)))
        by (rewrite <- mem_str_In; congruence).
      split; [split; [tauto | reflexivity] | split].
      * intros e H. inversion H. now left.
      * discriminate.
Qed.

End ParseOutcomes.

Lemma parsers_missing_sheet_witness :
  @parse_rvtools digits_float sample_liveoptics "Lyon" = Raise (NO_VHOST "Lyon") /\
  @parse_liveoptics digits_float sample_rvtools "Paris" = Raise (NO_ESX_HOSTS "Paris").
Proof.
  split.
  - apply (proj1 (@parsers_missing_sheet digits_float sample_liveoptics "Lyon")).
    vm_compute. intros [H|[H|[]]]; discriminate.
  - apply (proj2 (@parsers_missing_sheet digits_float sample_rvtools "Paris")).
    vm_compute. intros [H|[H|[H|[]]]]; discriminate.
Defined.

Lemma parse_rvtools_outcome_witness :
  @parse_rvtools inf_float (one_host_export "inf" "3") "S" = Raise OVERFLOW /\
  (exists v, bad_vm_text v = true /\
     @parse_rvtools inf_float (one_host_export "2" SUPERSCRIPT_TWO) "S" =
     Raise (int_error v)) /\
  (exists v, bad_vm_text v = true /\
     @parse_rvtools inf_float (one_host_export "2" LONG_NUMBER) "S" =
     Raise (int_error v)) /\
  (exists st, @parse_rvtools inf_float (one_host_export "2" "3") "S" = Ok st /\
              site_name st = "S" /\ total_hosts st = 1 /\ total_vms st = 3 /\
              0 <= total_vms st).
Proof.
  split; [|split; [|split]].
  - apply (proj1 (@parse_rvtools_outcome inf_float (one_host_export "inf" "3") "S"
                    _ eq_refl)).
    vm_compute. reflexivity.
  - apply (proj1 (proj2 (@parse_rvtools_outcome inf_float
                           (one_host_export "2" SUPERSCRIPT_TWO) "S" _ eq_refl)));
      vm_compute; reflexivity.
  - apply (proj1 (proj2 (@parse_rvtools_outcome inf_float
                           (one_host_export "2" LONG_NUMBER) "S" _ eq_refl)));
      vm_compute; reflexivity.
  - apply (proj2 (proj2 (@parse_rvtools_outcome inf_float
                           (one_host_export "2" "3") "S" _ eq_refl)));
      vm_compute; reflexivity.
Defined.

Lemma parse_liveoptics_outcome_witness :
  @parse_liveoptics inf_float (one_host_liveoptics "inf" "7") "S" = Raise OVERFLOW /\
  (exists v, bad_vm_text v = true /\
     @parse_liveoptics inf_float (one_host_liveoptics "2" SUPERSCRIPT_TWO) "S" =
     Raise (int_error v)) /\
  (exists v, bad_vm_text v = true /\
     @parse_liveoptics inf_float (one_host_liveoptics "2" LONG_NUMBER) "S" =
     Raise (int_error v)) /\
  (exists st, @parse_liveoptics inf_float (one_host_liveoptics "2" "7") "S" = Ok st /\
              site_name st = "S" /\ total_hosts st = 1 /\ total_vms st = 7 /\
              0 <= total_vms st).
Proof.
  split; [|split; [|split]].
  - apply (proj1 (@parse_liveoptics_outcome inf_float (one_host_liveoptics "inf" "7")
                    "S" _ eq_refl)).
    vm_compute. reflexivity.
  - apply (proj1 (proj2 (@parse_liveoptics_outcome inf_float
                           (one_host_liveoptics "2" SUPERSCRIPT_TWO) "S" _ eq_refl)));
      vm_compute; reflexivity.
  - apply (proj1 (proj2 (@parse_liveoptics_outcome inf_float
                           (one_host_liveoptics "2" LONG_NUMBER) "S" _ eq_refl)));
      vm_compute; reflexivity.
  - apply (proj2 (proj2 (@parse_liveoptics_outcome inf_float
                           (one_host_liveoptics "2" "7") "S" _ eq_refl)));
      vm_compute; reflexivity.
Defined.

Lemma parse_file_errors_witness :
  @parse_file digits_float sample_other "Nice" = Raise (UNRECOGNISED "Nice") /\
  (EXCEEDS_LIMIT LONG_NUMBER = UNRECOGNISED "S" \/
   EXCEEDS_LIMIT LONG_NUMBER = OVERFLOW \/
   exists v, bad_vm_text v = true /\ EXCEEDS_LIMIT LONG_NUMBER = int_error v) /\
  (forall st, @parse_file digits_float (one_host_export "2" "3") "S" = Ok st ->
              site_name st = "S").
Proof.
  split; [|split].
  - apply (proj1 (@parse_file_errors digits_float sample_other "Nice")).
    vm_compute. split; intros [H|[]]; discriminate.
  - apply (proj1 (proj2 (@parse_file_errors digits_float
                           (one_host_export "2" LONG_NUMBER) "S"))).
    vm_compute. reflexivity.
  - apply (proj2 (proj2 (@parse_file_errors digits_float
                           (one_host_export "2" "3") "S"))).
Defined.

(* ------------------------------------------------------------------ *)
(** ** Grouping by cluster *)

Lemma first_seen_In x l : In x (first_seen l) <-> In x l.
Proof.
  induction l as [|a l IH]; cbn [first_seen In]; [tauto|].
  rewrite filter_In, IH.
  destruct (String.eqb_spec x a) as [->|N]; cbn [negb].
  - split; [tauto | now left].
  - split; [intros [H|[H _]]; auto | intros [H|H]; [now left | now right]].
Qed.

Lemma first_seen_NoDup l : NoDup (first_seen l).
Proof.
  induction l as [|a l IH]; cbn [first_seen]; constructor.
  - rewrite filter_In, String.eqb_refl. cbn. intros [_ H]. discriminate.
  - now apply NoDup_filter.
Qed.

Lemma first_seen_snoc l x :
  first_seen (l ++ [x]) =
  if mem_str x l then first_seen l else (first_seen l ++ [x])%list.
Proof.
  induction l as [|a l IH]; cbn [app first_seen mem_str existsb]; [reflexivity|].
  fold (mem_str x l). rewrite IH.
  destruct (mem_str x l); cbn [orb].
  - now rewrite orb_true_r.
  - rewrite orb_false_r, filter_app. cbn [filter].
    destruct (String.eqb_spec x a) as [->|N]; cbn [negb].
    + now rewrite app_nil_r.
    + reflexivity.
Qed.

Lemma dict_get_keyed {V} (F : string -> V) ks c :
  dict_get (map (fun c' => (c', F c')) ks) c =
  if mem_str c ks then Some (F c) else None.
Proof.
  induction ks as [|k ks IH]; cbn [map dict_get mem_str existsb]; [reflexivity|].
  fold (mem_str c ks). rewrite String.eqb_sym.
  destruct (String.eqb_spec c k) as [->|N]; cbn [orb]; [reflexivity | exact IH].
Qed.

Lemma dict_set_keyed_in {V} (F : string -> V) ks c v :
  NoDup ks -> In c ks ->
  dict_set (map (fun c' => (c', F c')) ks) c v =
  map (fun c' => (c', if (c' =? c)%string then v else F c')) ks.
Proof.
  induction ks as [|k ks IH]; intros Hnd Hin; [contradiction|].
  inversion Hnd as [|? ? Hk Hks]; subst. cbn [map dict_set].
  destruct (String.eqb_spec k c) as [->|N].
  - f_equal. apply map_ext_in. intros c' Hc'.
    destruct (String.eqb_spec c' c) as [->|]; [contradiction | reflexivity].
  - f_equal. apply IH; [assumption|]. destruct Hin; [contradiction | assumption].
Qed.

Lemma dict_set_keyed_out {V} (F : string -> V) ks c v :
  ~ In c ks ->
  dict_set (map (fun c' => (c', F c')) ks) c v =
  (map (fun c' => (c', F c')) ks ++ [(c, v)])%list.
Proof.
  induction ks as [|k ks IH]; intros Hin; cbn [map dict_set app]; [reflexivity|].
  destruct (String.eqb_spec k c) as [->|N]; [elim Hin; now left|].
  f_equal. apply IH. intros H. apply Hin. now right.
Qed.

Lemma group_by_cluster_snoc hosts h :
  group_by_cluster (hosts ++ [h]) =
  setdefault_append (group_by_cluster hosts) (cluster h) h.
Proof. unfold group_by_cluster. now rewrite fold_left_app. Qed.

Lemma filter_cluster_none c (l : list host) :
  ~ In c (map cluster l) -> filter (fun h => (cluster h =? c)%string) l = [].
Proof.
  induction l as [|h l IH]; cbn [map In filter]; [reflexivity|].
  intros H. destruct (String.eqb_spec (cluster h) c) as [E|_]; [elim H; now left|].
  apply IH. tauto.
Qed.

Lemma group_by_cluster_grouped hosts : group_by_cluster hosts = grouped hosts.
Proof.
  induction hosts as [|h l IH] using rev_ind; [reflexivity|].
  rewrite group_by_cluster_snoc, IH. unfold grouped, setdefault_append.
  rewrite dict_get_keyed, map_app. cbn [map]. rewrite first_seen_snoc.
  destruct (mem_str (cluster h) (map cluster l)) eqn:M.
  - assert (Hin : In (cluster h) (first_seen (map cluster l)))
      by (apply first_seen_In; now apply mem_str_In).
    rewrite (proj2 (mem_str_In _ _) Hin).
    rewrite dict_set_keyed_in by (trivial; apply first_seen_NoDup).
    apply map_ext. intros c. f_equal. rewrite filter_app. cbn [filter].
    rewrite (String.eqb_sym c).
    destruct (String.eqb_spec (cluster h) c) as [<-|N];
      [reflexivity | now rewrite app_nil_r].
  - assert (Hout : ~ In (cluster h) (map cluster l))
      by (rewrite <- mem_str_In; congruence).
    assert (Hfs : ~ In (cluster h) (first_seen (map cluster l)))
      by now rewrite first_seen_In.
    destruct (mem_str (cluster h) (first_seen (map cluster l))) eqn:M2;
      [apply mem_str_In in M2; contradiction|].
    rewrite dict_set_keyed_out by assumption.
    rewrite map_app. cbn [map]. f_equal.
    + apply map_ext_in. intros c Hc. f_equal. rewrite filter_app. cbn [filter].
      destruct (String.eqb_spec (cluster h) c) as [<-|N];
        [contradiction | now rewrite app_nil_r].
    + rewrite filter_app, filter_cluster_none by assumption.
      cbn [filter app]. now rewrite String.eqb_refl.
Qed.

(** X7. The hosts are grouped under the cluster names in the order in
    which the names are first seen, each name once, and a cluster holds
    the hosts of that name in the order of the rows; no host is lost and
    no cluster is empty. *)
Theorem group_by_cluster_first_seen (hosts : list host) :
  group_by_cluster hosts = grouped hosts /\
  map fst (group_by_cluster hosts) = first_seen (map cluster hosts) /\
  NoDup (map fst (group_by_cluster hosts)) /\
  (forall c hs, In (c, hs) (group_by_cluster hosts) ->
     hs <> [] /\ hs = filter (fun h => (cluster h =? c)%string) hosts) /\
  (forall h, In h hosts ->
     exists hs, dict_get (group_by_cluster hosts) (cluster h) = Some hs /\ In h hs).
Proof.
  rewrite group_by_cluster_grouped. unfold grouped.
  split; [reflexivity|]. split; [|split; [|split]].
  - rewrite map_map. cbn [fst]. apply map_id.
  - rewrite map_map. cbn [fst]. rewrite map_id. apply first_seen_NoDup.
  - intros c hs Hin. apply in_map_iff in Hin as (c' & E & Hc'). inversion E; subst.
    split; [|reflexivity].
    apply first_seen_In, in_map_iff in Hc' as (h & Hh & Hin).
    intros K. assert (Hf : In h (filter (fun h0 => (cluster h0 =? c)%string) hosts)).
    { apply filter_In. split; [exact Hin|]. now apply String.eqb_eq. }
    rewrite K in Hf. contradiction.
  - intros h Hin. rewrite dict_get_keyed.
    assert (M : mem_str (cluster h) (first_seen (map cluster hosts)) = true).
    { apply mem_str_In, first_seen_In, in_map. exact Hin. }
    rewrite M. eexists. split; [reflexivity|].
    apply filter_In. split; [exact Hin | apply String.eqb_refl].
Qed.

Lemma grouped_well_formed (P : host -> Prop) hosts :
  Forall (fun h => cluster h <> "" /\ P h) hosts ->
  NoDup (map fst (grouped hosts)) /\
  Forall (fun item : string * list host =>
            fst item <> "" /\ snd item <> [] /\
            Forall (fun h => cluster h = fst item /\ P h) (snd item))
         (grouped hosts).
Proof.
  intros H. unfold grouped. split.
  - rewrite map_map. cbn [fst]. rewrite map_id. apply first_seen_NoDup.
  - apply Forall_forall. intros item Hin.
    apply in_map_iff in Hin as (c & <- & Hc). cbn [fst snd].
    apply first_seen_In, in_map_iff in Hc as (h & Hh & Hin).
    rewrite Forall_forall in H. split; [|split].
    + rewrite <- Hh. apply (H h Hin).
    + intros K.
      assert (Hf : In h (filter (fun h0 => (cluster h0 =? c)%string) hosts)).
      { apply filter_In. split; [exact Hin|]. now apply String.eqb_eq. }
      rewrite K in Hf. contradiction.
    + apply Forall_forall. intros h' Hh'. apply filter_In in Hh' as [Hin' E].
      apply String.eqb_eq in E. split; [exact E | apply (H h' Hin')].
Qed.

(* ------------------------------------------------------------------ *)
(** ** What a parsed site holds *)

Lemma for_each_forall {T : Type} (f : list cell -> result (option T)) (P : T -> Prop) :
  (forall row h, f row = Ok (Some h) -> P h) ->
  forall rws found, for_each f rws = Ok found -> Forall P (keep found).
Proof.
  intros Hf. induction rws as [|row rws IH]; cbn [for_each]; intros found H.
  - inversion H. constructor.
  - apply bind_ok in H as (o & Ho & H).
    apply bind_ok in H as (os & Hos & H). inversion H; subst.
    unfold keep. cbn [flat_map]. apply Forall_app. split; [|now apply IH].
    destruct o as [h|]; constructor; [now apply (Hf row) | constructor].
Qed.

Lemma shorten_version_form s : version_or_none (shorten_version s).
Proof.
  unfold version_or_none, shorten_version, Re.search_version3, version_pattern.
  destruct (Re.search _ s) as [g|] eqn:E.
  - left. now apply (search_version_sound 2 s g).
  - right. intros Ho. now apply search_version_complete in Ho.
Qed.

Lemma no_version_in_empty : ~ occurs version_pattern "".
Proof.
  intros (pre & v & post & Hv & E).
  destruct pre; [|discriminate]. destruct v; [|discriminate].
  inversion Hv as [|k d w Hd Hw E1 E2]; subst.
  destruct d; discriminate.
Qed.

Lemma search_version_form s :
  version_or_none (match Re.search_version3 s with Some g => g | None => "" end).
Proof.
  unfold version_or_none, Re.search_version3, version_pattern.
  destruct (Re.search _ s) as [g|] eqn:E.
  - left. now apply (search_version_sound 2 s g).
  - right. apply no_version_in_empty.
Qed.

Lemma first_vcenter_version_form vals :
  vcenter_version_form (first_vcenter_version vals).
Proof.
  unfold vcenter_version_form.
  induction vals as [|[val|] vals IH]; cbn [first_vcenter_version];
    [now left | | exact IH].
  unfold Re.or_else, Re.search_vcenter, Re.search_version4.
  destruct (Re.search Re.match_vcenter (strip val)) as [g|] eqn:E.
  - right; left. apply search_found in E as (pre & x & r & _ & Hm).
    unfold Re.match_vcenter in Hm.
    destruct (Re.ci_literal _ x) as [r0|]; [|discriminate].
    destruct (Re.spaces1 r0) as [r1|]; [|discriminate].
    now apply match_dotted_sound in Hm.
  - destruct (Re.search (Re.match_dotted 3) (strip val)) as [g|] eqn:E4; [|exact IH].
    right; right. now apply (search_version_sound 3 (strip val) g).
Qed.

Section ParsedSites.
Context {py : PyFloat}.

Lemma field_trimmed df row col d : strip d = d -> strip (field df row col d) = field df row col d.
Proof.
  intros Hd. unfold field. destruct (truthy col); [apply safe_trimmed | exact Hd].
Qed.

Lemma rvtools_host_form vh c1 c2 c3 c4 c5 c6 c7 c8 c9 c10 row h :
  rvtools_host vh c1 c2 c3 c4 c5 c6 c7 c8 c9 c10 row = Ok (Some h) ->
  cluster h <> "" /\
  ((hostname h <> "" /\ strip (hostname h) = hostname h /\ vms h <> "") /\
   fresh_host h).
Proof.
  unfold rvtools_host. destruct (is_empty (field vh row c1 "")) eqn:E; [discriminate|].
  intros H. apply bind_ok in H as (s & _ & H).
  apply bind_ok in H as (c & _ & H). inversion H; subst; cbn.
  split; [now apply or_default_not_empty|]. split; [split; [|split]|split].
  - now apply is_empty_false.
  - now apply field_trimmed.
  - now apply or_default_not_empty.
  - reflexivity.
  - apply shorten_version_form.
Qed.

Lemma liveoptics_host_form df pdf pm c1 c2 row h :
  liveoptics_host df pdf pm c1 c2 row = Ok (Some h) ->
  cluster h <> "" /\
  ((hostname h <> "" /\ strip (hostname h) = hostname h /\ vms h <> "") /\
   fresh_host h).
Proof.
  unfold liveoptics_host.
  destruct (is_empty (safe (row_get df row "Host Name"))) eqn:E; [discriminate|].
  intros H. apply bind_ok in H as (s & _ & H).
  apply bind_ok in H as (c & _ & H). inversion H; subst; cbn.
  split; [now apply or_default_not_empty|]. split; [split; [|split]|split].
  - now apply is_empty_false.
  - apply safe_trimmed.
  - now apply or_default_not_empty.
  - reflexivity.
  - apply search_version_form.
Qed.

Lemma rvtools_vcenter_version_form xls :
  vcenter_version_form (rvtools_vcenter_version xls).
Proof.
  unfold rvtools_vcenter_version.
  destruct (truthy _) as [nm|]; [|now left].
  destruct (xls_parse xls nm) as [vs|]; [|now left].
  destruct (truthy _) as [c|]; [|now left].
  apply first_vcenter_version_form.
Qed.

Lemma liveoptics_vcenter_version_form df :
  vcenter_version_form (liveoptics_vcenter_version df).
Proof.
  unfold liveoptics_vcenter_version.
  destruct (df_empty df); [now left|].
  destruct (rows df) as [|row0 rws]; [now left|].
  unfold Re.search_version3.
  destruct (Re.search _ _) as [g|] eqn:E; [|now left].
  right; left. now apply (search_version_sound 2 (safe (row_get df row0 "vCenter")) g).
Qed.

(** The hosts of a site that a parser returns, before they are grouped. *)
Lemma parse_rvtools_hosts_form xls name st :
  parse_rvtools xls name = Ok st ->
  exists hosts,
    clusters st = group_by_cluster hosts /\
    vcenter_version_form (vcenter_version st) /\
    Forall (fun h => cluster h <> "" /\
              ((hostname h <> "" /\ strip (hostname h) = hostname h /\ vms h <> "") /\
               fresh_host h)) hosts.
Proof.
  intros H. unfold parse_rvtools in H.
  destruct (dict_get (sheet_names_lower xls) "vhost") as [nm|]; [|discriminate].
  destruct (xls_parse xls nm) as [vh|]; [|discriminate].
  apply bind_ok in H as (found & Hf & H).
  apply bind_ok in H as (n & _ & H). inversion H; subst; cbn.
  exists (keep found). split; [reflexivity|].
  split; [apply rvtools_vcenter_version_form|].
  apply (for_each_forall _ _
           (fun row h => rvtools_host_form _ _ _ _ _ _ _ _ _ _ _ row h) _ _ Hf).
Qed.

Lemma parse_liveoptics_hosts_form xls name st :
  parse_liveoptics xls name = Ok st ->
  exists hosts,
    clusters st = group_by_cluster hosts /\
    vcenter_version_form (vcenter_version st) /\
    Forall (fun h => cluster h <> "" /\
              ((hostname h <> "" /\ strip (hostname h) = hostname h /\ vms h <> "") /\
               fresh_host h)) hosts.
Proof.
  intros H. unfold parse_liveoptics in H.
  destruct (dict_get (sheet_names_lower xls) "esx hosts") as [nm|]; [|discriminate].
  destruct (xls_parse xls nm) as [df|]; [|discriminate].
  apply bind_ok in H as (found & Hf & H).
  apply bind_ok in H as (n & _ & H). inversion H; subst; cbn.
  exists (keep found). split; [reflexivity|].
  split; [apply liveoptics_vcenter_version_form|].
  apply (for_each_forall _ _
           (fun row h => liveoptics_host_form _ _ _ _ _ row h) _ _ Hf).
Qed.

Lemma parse_file_hosts_form xls name st :
  parse_file xls name = Ok st ->
  exists hosts,
    clusters st = group_by_cluster hosts /\
    vcenter_version_form (vcenter_version st) /\
    Forall (fun h => cluster h <> "" /\
              ((hostname h <> "" /\ strip (hostname h) = hostname h /\ vms h <> "") /\
               fresh_host h)) hosts.
Proof.
  unfold parse_file.
  destruct (mem_str "vhost" (map lower (sheet_names xls)));
    [apply parse_rvtools_hosts_form|].
  destruct (mem_str "esx hosts" (map lower (sheet_names xls)));
    [apply parse_liveoptics_hosts_form | discriminate].
Qed.

(** X8. In a site that [parse_file] returns, no cluster name is empty or
    listed twice, no cluster is empty, and every host is filed under its
    own cluster name with a host name that is not empty and has no
    white space around it, and a VM count text that is not empty. *)
Theorem parsed_clusters_well_formed (xls : workbook) (name : string) (st : site) :
  parse_file xls name = Ok st -> well_formed_clusters (clusters st).
Proof.
  intros H. apply parse_file_hosts_form in H as (hosts & -> & _ & Hh).
  rewrite group_by_cluster_grouped.
  destruct (grouped_well_formed
              (fun h => hostname h <> "" /\ strip (hostname h) = hostname h /\
                        vms h <> "") hosts) as [Hk Hi].
  { revert Hh. apply Forall_impl. intros h (Hc & Hw & _). now split. }
  split; [exact Hk|].
  revert Hi. apply Forall_impl. intros [c hs] (Hc & Hne & Hhs).
  split; [exact Hc|]. split; [exact Hne|].
  revert Hhs. apply Forall_impl. intros h (E & Hn & Hs & Hv).
  unfold well_formed_host. tauto.
Qed.

(** X9. In a site that [parse_file] returns, every host is still without
    a compatibility verdict, its ESXi text is a major.minor.patch version
    or holds none, and the vCenter version is empty or a version of three
    or four numbers. *)
Theorem parsed_versions_form (xls : workbook) (name : string) (st : site) :
  parse_file xls name = Ok st ->
  Forall fresh_host (hosts_of_clusters (clusters st)) /\
  vcenter_version_form (vcenter_version st).
Proof.
  intros H. apply parse_file_hosts_form in H as (hosts & -> & Hv & Hh).
  split; [|exact Hv].
  rewrite group_by_cluster_grouped.
  destruct (grouped_well_formed fresh_host hosts) as [_ Hi].
  { revert Hh. apply Forall_impl. intros h (Hc & _ & Hf). now split. }
  unfold hosts_of_clusters. apply Forall_concat. apply Forall_map.
  revert Hi. apply Forall_impl. intros [c hs] (_ & _ & Hhs). cbn [snd] in *.
  revert Hhs. apply Forall_impl. now intros h [_ Hf].
Qed.

End ParsedSites.

Lemma parsed_clusters_well_formed_witness : well_formed_clusters (clusters paris).
Proof.
  apply (parsed_clusters_well_formed (py := digits_float) sample_rvtools "Paris").
  vm_compute. reflexivity.
Defined.

Lemma parsed_versions_form_witness :
  Forall fresh_host (hosts_of_clusters (clusters lyon)) /\
  vcenter_version_form (vcenter_version lyon).
Proof.
  apply (parsed_versions_form (py := digits_float) sample_liveoptics "Lyon").
  vm_compute. reflexivity.
Defined.

(* ------------------------------------------------------------------ *)
(** ** The lookup by containment *)

Lemma contains_refl s : contains s s = true.
Proof.
  apply contains_of_prefix. rewrite <- (append_nil_r s) at 2. apply prefix_append.
Qed.

Lemma contains_empty s : contains "" s = true.
Proof. now destruct s. Qed.

Lemma first_related_none norm items :
  first_related norm items = None <-> unrelated norm items = true.
Proof.
  unfold unrelated, related.
  induction items as [|[k rel] items IH]; cbn [first_related map fst forallb].
  - tauto.
  - destruct (contains norm k || contains k norm); cbn [negb andb].
    + split; discriminate.
    + exact IH.
Qed.

Lemma first_related_first norm (pre : dict (list string)) k rel post :
  unrelated norm pre = true -> related norm k = true ->
  first_related norm (pre ++ (k, rel) :: post)%list = Some rel.
Proof.
  unfold unrelated, related. intros Hpre Hk.
  induction pre as [|[k' rel'] pre IH]; cbn [app first_related].
  - now rewrite Hk.
  - cbn [map fst forallb] in Hpre. apply andb_prop in Hpre as [H1 H2].
    apply negb_true_iff in H1. rewrite H1. now apply IH.
Qed.

Lemma unrelated_key norm items k :
  unrelated norm items = true -> In k (map fst items) -> related norm k = false.
Proof.
  unfold unrelated. rewrite forallb_forall. intros H Hk.
  now apply negb_true_iff, H.
Qed.

(** X10. For a model that is not empty, the verdict is incompatible
    exactly when no key of the table contains the normalised model or is
    contained in it, and the label is then the fixed one; when the
    normalised model is no key, the verdict is that of the first key, in
    the order of the table, that is so related. *)
Theorem check_vcf9_compat_fallback (model : string) (lookup : dict (list string)) :
  model <> "" ->
  let norm := lower (normalize_model model) in
  let v := check_vcf9_compat model lookup in
  (status v = "incompatible" <-> unrelated norm lookup = true) /\
  (status v = "incompatible" -> label v = CROSS_MARK ++ " Not VCF9 Ready") /\
  (dict_get lookup norm = None ->
   forall pre k rel post,
     lookup = (pre ++ (k, rel) :: post)%list ->
     unrelated norm pre = true -> related norm k = true ->
     v = {| status := "compatible"; label := _vcf9_label rel |}).
Proof.
  intros Hm norm v. subst v. unfold check_vcf9_compat.
  destruct (String.eqb_spec model "") as [E|_]; [contradiction|].
  fold norm. split; [|split].
  - destruct (dict_get lookup norm) as [rel|] eqn:G.
    + cbn [status]. split; [discriminate|]. intros U. exfalso.
      apply dict_get_In in G.
      assert (K : related norm norm = false).
      { apply (unrelated_key norm lookup); [exact U|].
        apply in_map_iff. now exists (norm, rel). }
      unfold related in K. now rewrite contains_refl in K.
    + destruct (first_related norm lookup) as [rel|] eqn:F; cbn [status].
      * split; [discriminate|]. intros U.
        apply first_related_none in U. congruence.
      * split; [intros _; now apply first_related_none | reflexivity].
  - destruct (dict_get lookup norm); [discriminate|].
    destruct (first_related norm lookup); [discriminate | reflexivity].
  - intros G pre k rel post -> U R. rewrite G.
    now rewrite (first_related_first norm pre k rel post U R).
Qed.

Lemma check_vcf9_compat_fallback_witness :
  (status (check_vcf9_compat "Dell PowerEdge" sample_lookup) = "incompatible" <->
   unrelated "poweredge" sample_lookup = true) /\
  check_vcf9_compat "Dell PowerEdge" sample_lookup =
    {| status := "compatible"; label := _vcf9_label ["ESXi 9.0"; "ESXi 8.0 U3"] |}.
Proof.
  assert (N : "Dell PowerEdge" <> "") by discriminate.
  destruct (check_vcf9_compat_fallback "Dell PowerEdge" sample_lookup N)
    as (H1 & _ & H3).
  split; [exact H1|].
  apply (H3 eq_refl [] "poweredge r640" ["ESXi 9.0"; "ESXi 8.0 U3"]
            [("proliant dl380 gen10", ["ESXi 9.0"; "ESXi 9.0"])]);
    reflexivity.
Defined.

(** X11. A model that is not empty but of which nothing is left once the
    vendor is removed, such as [Dell Inc.], is found compatible with any
    table that is not empty: with the entry of the empty key if there is
    one, and with the first entry of the table otherwise. *)
Theorem check_vcf9_compat_vendor_only (model k : string) (rel : list string)
    (t : dict (list string)) :
  model <> "" -> normalize_model model = "" ->
  check_vcf9_compat model ((k, rel) :: t) =
    {| status := "compatible";
       label := _vcf9_label match dict_get ((k, rel) :: t) "" with
                            | Some releases => releases
                            | None => rel
                            end |}.
Proof.
  intros Hm Hn. unfold check_vcf9_compat.
  destruct (String.eqb_spec model "") as [E|_]; [contradiction|].
  rewrite Hn. cbn [lower].
  destruct (dict_get ((k, rel) :: t) "") as [releases|]; [reflexivity|].
  cbn [first_related]. now rewrite contains_empty.
Qed.

Lemma check_vcf9_compat_vendor_only_witness :
  check_vcf9_compat "Dell Inc." sample_lookup =
    {| status := "compatible"; label := _vcf9_label ["ESXi 9.0"; "ESXi 8.0 U3"] |}.
Proof.
  apply (check_vcf9_compat_vendor_only "Dell Inc." "poweredge r640"
           ["ESXi 9.0"; "ESXi 8.0 U3"]
           [("proliant dl380 gen10", ["ESXi 9.0"; "ESXi 9.0"])]).
  - discriminate.
  - reflexivity.
Defined.

(* ------------------------------------------------------------------ *)
(** ** The models of the list itself *)

Section Suffixes.
Import Re.




















End Suffixes.



(* ------------------------------------------------------------------ *)
(** ** Readiness report *)

Lemma with_status_app s l1 l2 :
  with_status s (l1 ++ l2) = with_status s l1 + with_status s l2.
Proof. unfold with_status. rewrite filter_app, length_app. lia. Qed.

Lemma with_other_status_app l1 l2 :
  with_other_status (l1 ++ l2) = with_other_status l1 + with_other_status l2.
Proof. unfold with_other_status. rewrite filter_app, length_app. lia. Qed.

Lemma status_split rws :
  Z.of_nat (List.length rws) =
  with_status "compatible" rws + with_status "incompatible" rws +
  with_other_status rws.
Proof.
  unfold with_status, with_other_status.
  induction rws as [|row rws IH]; cbn [filter List.length]; [reflexivity|].
  destruct (String.eqb_spec (vr_status row) "compatible") as [E|_].
  - rewrite E. cbn [String.eqb Ascii.eqb Bool.eqb negb andb List.length]. lia.
  - destruct (vr_status row =? "incompatible")%string;
      cbn [negb andb List.length]; lia.
Qed.

Lemma build_vcf9_report_fold (sites : list site) :
  let rep := build_vcf9_report sites in
  let rws := map vcf9_row_of (hosts_of_sites sites) in
  vr_rows rep = rws /\
  vr_compatible rep = with_status "compatible" rws /\
  vr_incompatible rep = with_status "incompatible" rws /\
  vr_unknown rep = with_other_status rws /\
  vr_total rep = Z.of_nat (List.length rws).
Proof.
  unfold build_vcf9_report. rewrite for_hosts_flat. cbn [vr_rows vr_compatible
    vr_incompatible vr_unknown vr_total].
  match goal with |- context [fold_left ?F _ ?I] => set (step := F); set (init := I) end.
  assert (G : forall items acc,
             let out := fold_left step items acc in
             vr_rows out = (vr_rows acc ++ map vcf9_row_of items)%list /\
             vr_compatible out =
               vr_compatible acc + with_status "compatible" (map vcf9_row_of items) /\
             vr_incompatible out =
               vr_incompatible acc + with_status "incompatible" (map vcf9_row_of items) /\
             vr_unknown out =
               vr_unknown acc + with_other_status (map vcf9_row_of items)).
  { induction items as [|[[s c] h] items IH]; intros acc; cbn [fold_left map].
    - cbn. rewrite app_nil_r. unfold with_status, with_other_status. cbn.
      split; [reflexivity | lia].
    - destruct (IH (step acc (s, c, h))) as (R & C & I & U).
      cbn zeta in *. rewrite R, C, I, U.
      change (vcf9_row_of (s, c, h) :: map vcf9_row_of items)
        with ([vcf9_row_of (s, c, h)] ++ map vcf9_row_of items)%list.
      rewrite !with_status_app, with_other_status_app.
      unfold step at 1 2 3 4. cbn [vr_rows vr_compatible vr_incompatible vr_unknown].
      rewrite <- app_assoc. split; [reflexivity|].
      unfold with_status, with_other_status.
      cbn [filter vcf9_row_of vr_status app].
      destruct (String.eqb_spec (status (vcf9_of h)) "compatible") as [E|_].
      + rewrite E. cbn [String.eqb Ascii.eqb Bool.eqb negb andb List.length]. lia.
      + destruct (status (vcf9_of h) =? "incompatible")%string;
          cbn [negb andb List.length]; lia. }
  destruct (G (hosts_of_sites sites) init) as (R & C & I & U).
  cbn zeta in *. rewrite R, C, I, U. subst init. cbn [vr_rows vr_compatible
    vr_incompatible vr_unknown app]. repeat split; lia.
Qed.

(** X13. The readiness report has one row for each host of each cluster
    of each site, in that order; it counts as compatible and as
    incompatible the rows of that status and as unknown all the others,
    so that the three counts add up to the total, which is the number of
    hosts. *)
Theorem build_vcf9_report_counts (sites : list site) :
  let rep := build_vcf9_report sites in
  vr_rows rep = map vcf9_row_of (hosts_of_sites sites) /\
  vr_compatible rep = with_status "compatible" (vr_rows rep) /\
  vr_incompatible rep = with_status "incompatible" (vr_rows rep) /\
  vr_unknown rep = with_other_status (vr_rows rep) /\
  vr_total rep = vr_compatible rep + vr_incompatible rep + vr_unknown rep /\
  vr_total rep = Z.of_nat (List.length (hosts_of_sites sites)).
Proof.
  destruct (build_vcf9_report_fold sites) as (R & C & I & U & T).
  cbn zeta. rewrite R, C, I, U, T.
  repeat split; try reflexivity.
  - apply status_split.
  - now rewrite length_map.
Qed.

Lemma hosts_of_sites_annotate lookup sites :
  hosts_of_sites (annotate_vcf9 lookup sites) =
  map (fun item : string * string * host => (fst item, annotate_host lookup (snd item)))
      (hosts_of_sites sites).
Proof.
  unfold hosts_of_sites, annotate_vcf9.
  induction sites as [|st sites IH]; cbn [map flat_map]; [reflexivity|].
  rewrite map_app, IH. f_equal. cbn [site_name clusters].
  generalize (site_name st) as s. intros s.
  induction (clusters st) as [|[c hs] cl IHc]; cbn [map flat_map]; [reflexivity|].
  rewrite map_app, IHc. f_equal. cbn [fst snd].
  rewrite !map_map. reflexivity.
Qed.

Lemma check_vcf9_compat_other model lookup :
  negb (status (check_vcf9_compat model lookup) =? "compatible")%string &&
  negb (status (check_vcf9_compat model lookup) =? "incompatible")%string =
  (model =? "")%string.
Proof.
  unfold check_vcf9_compat. destruct (model =? "")%string; [reflexivity|].
  destruct (dict_get _ _); [reflexivity|].
  destruct (first_related _ _); reflexivity.
Qed.

(** X14. Once every host is annotated from a table, the readiness report
    gives each host the verdict of [check_vcf9_compat] on its model, in
    the order of the hosts, and counts as unknown exactly the hosts
    whose model is empty. *)
Theorem annotated_report_counts (lookup : dict (list string)) (sites : list site) :
  let rep := build_vcf9_report (annotate_vcf9 lookup sites) in
  vr_rows rep = map (annotated_row lookup) (hosts_of_sites sites) /\
  map (fun row => (vr_status row, vr_label row)) (vr_rows rep) =
    map (fun item : string * string * host =>
           let v := check_vcf9_compat (model (snd item)) lookup in
           (status v, label v))
        (hosts_of_sites sites) /\
  vr_unknown rep = Z.of_nat (List.length (without_model sites)) /\
  vr_total rep = Z.of_nat (List.length (hosts_of_sites sites)).
Proof.
  destruct (build_vcf9_report_fold (annotate_vcf9 lookup sites)) as (R & _ & _ & U & T).
  cbn zeta. rewrite U, T, R, hosts_of_sites_annotate, !map_map, length_map.
  fold (annotated_row lookup).
  split; [reflexivity|]. split; [|split; [|reflexivity]].
  - apply map_ext. now intros [[s c] h].
  - unfold with_other_status, without_model. f_equal.
    induction (hosts_of_sites sites) as [|[[s c] h] items IH];
      cbn [map filter]; [reflexivity|].
    cbn [annotated_row vcf9_row_of fst snd vr_status annotate_host vcf9_of vcf9 model].
    rewrite check_vcf9_compat_other.
    destruct (model h =? "")%string; cbn [List.length]; now rewrite IH.
Qed.

Lemma hosts_of_sites_forall (P : host -> Prop) sites :
  Forall (fun st => Forall P (hosts_of_clusters (clusters st))) sites ->
  Forall (fun item : string * string * host => P (snd item)) (hosts_of_sites sites).
Proof.
  intros H. apply Forall_forall. intros [[s c] h] Hin. cbn [snd].
  unfold hosts_of_sites in Hin.
  apply in_flat_map in Hin as (st & Hst & Hin).
  apply in_flat_map in Hin as ([c' hs] & Hc & Hin).
  apply in_map_iff in Hin as (h' & E & Hh). inversion E; subst.
  rewrite Forall_forall in H. specialize (H st Hst).
  rewrite Forall_forall in H. apply H.
  unfold hosts_of_clusters. apply in_concat. exists hs. split; [|exact Hh].
  apply in_map_iff. now exists (c, hs).
Qed.

Section Unannotated.
Context {py : PyFloat}.

Lemma parsed_site_fresh st :
  parsed_site st -> Forall (fun h => vcf9 h = None) (hosts_of_clusters (clusters st)).
Proof.
  intros (xls & name & H).
  apply parse_file_hosts_form in H as (hosts & -> & _ & Hh).
  rewrite group_by_cluster_grouped.
  destruct (grouped_well_formed (fun h => vcf9 h = None) hosts) as [_ Hi].
  { revert Hh. apply Forall_impl. intros h (Hc & _ & Hf & _). now split. }
  unfold hosts_of_clusters. apply Forall_concat. apply Forall_map.
  revert Hi. apply Forall_impl. intros [c hs] (_ & _ & Hhs). cbn [snd] in *.
  revert Hhs. apply Forall_impl. now intros h [_ Hf].
Qed.

(** X15. A readiness report built from sites as [parse_file] returns
    them, before any host is annotated, counts every host as unknown:
    each row has the status unknown and the label N/A, and no host is
    counted as compatible or incompatible. *)
Theorem unannotated_report_unknown (sites : list site) :
  Forall parsed_site sites ->
  let rep := build_vcf9_report sites in
  Forall (fun row => vr_status row = "unknown" /\ vr_label row = "N/A") (vr_rows rep) /\
  vr_compatible rep = 0 /\ vr_incompatible rep = 0 /\
  vr_unknown rep = vr_total rep /\
  vr_total rep = Z.of_nat (List.length (hosts_of_sites sites)).
Proof.
  intros Hs.
  assert (Hf : Forall (fun item : string * string * host => vcf9 (snd item) = None)
                      (hosts_of_sites sites)).
  { apply (hosts_of_sites_forall (fun h => vcf9 h = None)). revert Hs. apply Forall_impl.
    intros st. apply parsed_site_fresh. }
  destruct (build_vcf9_report_fold sites) as (R & C & I & U & T).
  cbn zeta. rewrite R, C, I, U, T. clear R C I U T.
  unfold with_status, with_other_status. rewrite length_map.
  induction Hf as [|[[s c] h] items Hh Hf IH]; cbn [map filter List.length].
  - repeat split; constructor.
  - cbn [snd] in Hh. destruct IH as (Hr & Hc & Hi & Hu & _).
    assert (E : vcf9_of h = {| status := "unknown"; label := "N/A" |})
      by (unfold vcf9_of; now rewrite Hh).
    cbn [vcf9_row_of vr_status]. rewrite E.
    cbn [status label String.eqb Ascii.eqb Bool.eqb negb andb List.length].
    split; [|lia].
    constructor; [|exact Hr]. now cbn [vr_status vr_label].
Qed.

End Unannotated.

Lemma unannotated_report_unknown_witness :
  let rep := build_vcf9_report [paris; lyon] in
  Forall (fun row => vr_status row = "unknown" /\ vr_label row = "N/A") (vr_rows rep) /\
  vr_compatible rep = 0 /\ vr_incompatible rep = 0 /\
  vr_unknown rep = vr_total rep /\
  vr_total rep = Z.of_nat (List.length (hosts_of_sites [paris; lyon])).
Proof.
  apply (unannotated_report_unknown (py := digits_float) [paris; lyon]).
  constructor; [|constructor; [|constructor]].
  - exists sample_rvtools, "Paris". vm_compute. reflexivity.
  - exists sample_liveoptics, "Lyon". vm_compute. reflexivity.
Defined.

(* ------------------------------------------------------------------ *)
(** ** Licence types and floors *)

(** Two lines of the same host under two multipliers. *)
Lemma license_rule_agree m1 m2 r1 r2 :
  license_rule m1 r1 -> license_rule m2 r2 -> line_host r1 = line_host r2 ->
  foundation_cores r1 = foundation_cores r2 /\ missing r1 = missing r2.
Proof.
  unfold license_rule, line_host. intros H1 H2 E.
  assert (Es : lr_sockets r1 = lr_sockets r2) by congruence.
  assert (Ec : lr_cores_per_socket r1 = lr_cores_per_socket r2) by congruence.
  rewrite Es, Ec in H1.
  destruct ((lr_sockets r2 =? 0) || (lr_cores_per_socket r2 =? 0)).
  - destruct H1 as (-> & -> & _), H2 as (-> & -> & _). now split.
  - destruct H1 as (-> & -> & _), H2 as (-> & -> & _). now split.
Qed.

Lemma license_rows_agree m1 m2 : forall l1 l2,
  map line_host l1 = map line_host l2 ->
  Forall (license_rule m1) l1 -> Forall (license_rule m2) l2 ->
  map foundation_cores l1 = map foundation_cores l2 /\
  map missing l1 = map missing l2.
Proof.
  induction l1 as [|r1 l1 IH]; intros [|r2 l2] E H1 H2; try discriminate.
  - now split.
  - cbn [map] in *.
    assert (E1 : line_host r1 = line_host r2) by congruence.
    assert (E2 : map line_host l1 = map line_host l2) by congruence.
    inversion H1; subst. inversion H2; subst.
    destruct (IH l2 E2) as [Hf Hm]; [assumption | assumption |].
    destruct (license_rule_agree m1 m2 r1 r2) as [Hf1 Hm1]; [assumption ..|].
    now rewrite Hf, Hm, Hf1, Hm1.
Qed.

(** The lines that do not count have no cores. *)
Lemma counted_cores mult l :
  Forall (license_rule mult) l ->
  sumZ (map foundation_cores (counted l)) = sumZ (map foundation_cores l).
Proof.
  unfold counted. induction 1 as [|row l Hr _ IH]; [reflexivity|].
  cbn [filter map]. unfold license_rule in Hr.
  destruct ((lr_sockets row =? 0) || (lr_cores_per_socket row =? 0)).
  - destruct Hr as (-> & -> & _). cbn [negb]. rewrite sumZ_cons, IH. lia.
  - destruct Hr as (-> & _). cbn [negb map]. now rewrite !sumZ_cons, IH.
Qed.

Lemma missing_lines l :
  List.length (filter missing l) =
  List.length (filter (fun b : bool => b) (map missing l)).
Proof.
  induction l as [|row l IH]; [reflexivity|]. cbn [filter map].
  destruct (missing row); cbn [List.length]; now rewrite IH.
Qed.

(** The entitlement total of a calculation below [2^53] cores. *)
Lemma exact_total sites d report :
  calculate_licensing sites d = Ok report -> exact_cores (lr_rows report) ->
  float_is (total_tib report) (inject_Z (total_cores report) * multiplier d).
Proof.
  intros Hrep Hb.
  destruct (calculate_licensing_rows _ _ _ Hrep) as (_ & _ & Hr & Hc & Ht & _).
  destruct (exact_rows d (lr_rows report) (Finite 0) 0 Hr) as [_ E].
  - cbn [float_is]. ring.
  - unfold exact_cores in Hb. cbn [Z.abs]. lia.
  - rewrite Ht, Hc. exact E.
Qed.

Lemma license_type_cases v :
  license_type v = (if match v with
                       | Some s => (s =? "VVF")%string
                       | None => false
                       end then "VVF" else "VCF").
Proof.
  unfold license_type, mem_str. destruct v as [s|]; [|reflexivity].
  cbn [existsb].
  destruct (String.eqb_spec s "VCF") as [->|N]; [reflexivity|].
  destruct (String.eqb_spec s "VVF") as [->|N']; reflexivity.
Qed.

(** X16. The deployment type changes the memory entitlement and nothing
    else.  The calculator returns under one type when it returns under
    the other, and the two reports then name the same hosts with the
    same foundation cores and the same missing marks, with the same core
    total and the same missing count.  As long as the foundation cores
    add up, in absolute value, to less than 2^53, the floats are exact:
    the TiB total is the core total times the multiplier, so that any
    type but VCF gives a quarter of the VCF entitlement.  The routes
    pass VVF on only when the form says exactly VVF. *)
Theorem licensing_by_deployment (sites : list site) (deployment : string) :
  ((exists vcf, calculate_licensing sites "VCF" = Ok vcf) <->
   (exists report, calculate_licensing sites deployment = Ok report)) /\
  (forall vcf report,
     calculate_licensing sites "VCF" = Ok vcf ->
     calculate_licensing sites deployment = Ok report ->
     map line_host (lr_rows report) = map line_host (lr_rows vcf) /\
     map foundation_cores (lr_rows report) = map foundation_cores (lr_rows vcf) /\
     map missing (lr_rows report) = map missing (lr_rows vcf) /\
     total_cores report = total_cores vcf /\
     missing_count report = missing_count vcf /\
     (exact_cores (lr_rows report) ->
      float_is (total_tib report)
               (inject_Z (total_cores report) * multiplier deployment) /\
      (deployment <> "VCF" ->
       exists q v, total_tib report = Finite q /\ total_tib vcf = Finite v /\
                   (4 * q == v)%Q))) /\
  (forall v report,
     calculate_licensing sites (license_type v) = Ok report ->
     tib_per_core report =
       Finite (if match v with
                  | Some s => (s =? "VVF")%string
                  | None => false
                  end then 1 # 4 else 1)%Q).
Proof.
  split; [|split].
  - destruct (calculate_licensing_cases sites "VCF") as [A1 A2].
    destruct (calculate_licensing_cases sites deployment) as [B1 B2].
    destruct (cores_in_range sites).
    + split; intros _; [exact (B1 eq_refl) | exact (A1 eq_refl)].
    + split; intros (x & Hx);
        [rewrite (A2 eq_refl) in Hx | rewrite (B2 eq_refl) in Hx]; discriminate.
  - intros vcf report Hvcf Hrep.
    destruct (calculate_licensing_rows _ _ _ Hvcf) as (_ & K1 & R1 & C1 & T1 & M1).
    destruct (calculate_licensing_rows _ _ _ Hrep) as (_ & K2 & R2 & C2 & T2 & M2).
    assert (E : map line_host (lr_rows report) = map line_host (lr_rows vcf))
      by now rewrite K1, K2.
    destruct (license_rows_agree _ _ _ _ E R2 R1) as [Hf Hm].
    assert (Hc : total_cores report = total_cores vcf).
    { rewrite C1, C2, (counted_cores _ _ R1), (counted_cores _ _ R2). now rewrite Hf. }
    split; [exact E|]. split; [exact Hf|]. split; [exact Hm|]. split; [exact Hc|].
    split; [rewrite M1, M2, !missing_lines; now rewrite Hm|].
    intros Hb.
    pose proof (exact_total _ _ _ Hrep Hb) as X2.
    split; [exact X2|]. intros Hd.
    assert (Hb' : exact_cores (lr_rows vcf)).
    { unfold exact_cores in *.
      rewrite <- (map_map foundation_cores Z.abs) in *. now rewrite <- Hf. }
    pose proof (exact_total _ _ _ Hvcf Hb') as X1.
    destruct (total_tib report) as [q| | |]; cbn [float_is] in X2; try contradiction.
    destruct (total_tib vcf) as [w| | |]; cbn [float_is] in X1; try contradiction.
    exists q, w. split; [reflexivity|]. split; [reflexivity|].
    rewrite X1, X2, Hc. unfold multiplier.
    destruct (String.eqb_spec deployment "VCF") as [->|_]; [now elim Hd|].
    cbn [String.eqb Ascii.eqb Bool.eqb]. field.
  - intros v report Hrep.
    destruct (calculate_licensing_rows _ _ _ Hrep) as (-> & _).
    rewrite license_type_cases. unfold tib_per_core_of.
    now destruct (match v with Some s => (s =? "VVF")%string | None => false end).
Qed.

Lemma licensing_by_deployment_witness :
  exists vcf report,
    calculate_licensing [paris; lyon] "VCF" = Ok vcf /\
    calculate_licensing [paris; lyon] "VVF" = Ok report /\
    total_cores report = total_cores vcf /\
    exists q v, total_tib report = Finite q /\ total_tib vcf = Finite v /\
                (4 * q == v)%Q.
Proof.
  destruct (licensing_by_deployment [paris; lyon] "VVF") as (_ & H & _).
  destruct (calculate_licensing [paris; lyon] "VCF") as [vcf|] eqn:E1;
    [|vm_compute in E1; discriminate E1].
  destruct (calculate_licensing [paris; lyon] "VVF") as [report|] eqn:E2;
    [|vm_compute in E2; discriminate E2].
  exists vcf, report. split; [reflexivity|]. split; [reflexivity|].
  destruct (H vcf report eq_refl eq_refl) as (_ & _ & _ & Hc & _ & Hx).
  split; [exact Hc|].
  assert (Hb : exact_cores (lr_rows report)).
  { vm_compute in E2. inversion E2; subst report. reflexivity. }
  destruct (Hx Hb) as (_ & Hq). apply Hq. discriminate.
Defined.

(** X17. A host that counts is licensed for at least sixteen cores a
    socket and for no fewer cores than it has, as long as its socket
    count is not negative; over hosts without negative socket count the
    core total is at least sixteen times the sockets of the hosts that
    count. *)
Theorem licensing_floor (sites : list site) (deployment : string)
    (report : license_report) :
  Forall (fun item : string * string * host => 0 <= sockets (snd item))
         (hosts_of_sites sites) ->
  calculate_licensing sites deployment = Ok report ->
  Forall (fun row =>
            missing row = false ->
            16 * lr_sockets row <= foundation_cores row /\
            lr_sockets row * lr_cores_per_socket row <= foundation_cores row)
         (lr_rows report) /\
  16 * counted_sockets (lr_rows report) <= total_cores report.
Proof.
  intros Hs Hrep.
  destruct (calculate_licensing_rows _ _ _ Hrep) as (_ & K & R & C & _).
  rewrite C. unfold counted_sockets.
  assert (Hn : Forall (fun row => 0 <= lr_sockets row) (lr_rows report)).
  { assert (G : Forall (fun k : string * string * string * Z * Z => 0 <= snd (fst k))
                       (map line_host (lr_rows report))).
    { rewrite K. apply Forall_map. revert Hs. apply Forall_impl.
      now intros [[s c] h]. }
    rewrite Forall_map in G. revert G. apply Forall_impl. now intros row. }
  clear K C Hrep. induction R as [|row l Hr _ IH].
  - split; [constructor | cbn; lia].
  - inversion Hn as [|? ? Hrow Hl]; subst. destruct (IH Hl) as [IH1 IH2].
    unfold license_rule in Hr. unfold counted in *. cbn [filter].
    destruct ((lr_sockets row =? 0) || (lr_cores_per_socket row =? 0)).
    + destruct Hr as (Hm & _). rewrite Hm. cbn [negb].
      split; [|exact IH2]. constructor; [congruence | exact IH1].
    + destruct Hr as (Hm & Hf & _). rewrite Hm. cbn [negb map].
      rewrite !sumZ_cons. split; [|nia].
      constructor; [|exact IH1]. intros _. nia.
Qed.

Lemma licensing_floor_witness :
  exists report,
    calculate_licensing [paris] "VVF" = Ok report /\
    Forall (fun row =>
              missing row = false ->
              16 * lr_sockets row <= foundation_cores row /\
              lr_sockets row * lr_cores_per_socket row <= foundation_cores row)
           (lr_rows report) /\
    16 * counted_sockets (lr_rows report) <= total_cores report.
Proof.
  destruct (calculate_licensing [paris] "VVF") as [report|] eqn:E;
    [|vm_compute in E; discriminate E].
  exists report. split; [reflexivity|].
  apply (licensing_floor [paris] "VVF" report); [|exact E].
  vm_compute. repeat (constructor; [discriminate|]). constructor.
Defined.

(* ------------------------------------------------------------------ *)
(** ** Licence report as text *)

Lemma str_length_append (a b : string) :
  String.length (a ++ b) = (String.length a + String.length b)%nat.
Proof. induction a as [|c a IH]; cbn [append String.length]; [reflexivity | now rewrite IH]. Qed.

Lemma length_fill c n : String.length (fill c n) = n.
Proof. induction n as [|n IH]; cbn [fill String.length]; [reflexivity | now rewrite IH]. Qed.

Lemma length_pad s w right :
  String.length (pad s w right) = Nat.max (String.length s) w.
Proof.
  unfold pad, rjust, ljust. destruct right;
    rewrite str_length_append, length_fill; lia.
Qed.

Lemma txt_line_length cols f0 f1 f2 f3 f4 f5 :
  (String.length f0 <= col0 cols)%nat -> (String.length f1 <= col1 cols)%nat ->
  (String.length f2 <= col2 cols)%nat -> (String.length f3 <= col3 cols)%nat ->
  (String.length f4 <= col4 cols)%nat -> (String.length f5 <= col5 cols)%nat ->
  String.length (txt_line cols f0 f1 f2 f3 f4 f5) = table_width cols.
Proof.
  intros H0 H1 H2 H3 H4 H5. unfold txt_line, join, table_width.
  cbn [String.concat]. rewrite !str_length_append, !length_pad.
  cbn [String.length]. lia.
Qed.

Lemma txt_sep_line_length cols :
  String.length (txt_sep_line cols) = table_width cols.
Proof.
  unfold txt_sep_line, join, table_width.
  cbn [String.concat]. rewrite !str_length_append, !length_fill.
  cbn [String.length]. lia.
Qed.

Lemma wider_refl a : wider a a.
Proof. unfold wider. lia. Qed.

Lemma wider_trans a b c : wider a b -> wider b c -> wider a c.
Proof. unfold wider. lia. Qed.

Lemma widen_wider cols row : wider cols (widen cols row) /\ row_fits (widen cols row) row.
Proof. unfold wider, row_fits, widen. cbn [col0 col1 col2 col3 col4 col5]. lia. Qed.

Lemma row_fits_wider a b row : wider a b -> row_fits a row -> row_fits b row.
Proof. unfold wider, row_fits. lia. Qed.

(** The loop leaves columns that every line fits. *)
Lemma widen_fold rws : forall cols,
  wider cols (fold_left widen rws cols) /\
  Forall (row_fits (fold_left widen rws cols)) rws.
Proof.
  induction rws as [|row rws IH]; intros cols; cbn [fold_left].
  - split; [apply wider_refl | constructor].
  - destruct (IH (widen cols row)) as [Hw Hf].
    destruct (widen_wider cols row) as [Hw1 Hf1].
    split; [exact (wider_trans _ _ _ Hw1 Hw)|].
    constructor; [exact (row_fits_wider _ _ _ Hw Hf1) | exact Hf].
Qed.

Lemma license_cols_fit report :
  wider header_cols (license_cols report) /\
  Forall (row_fits (license_cols report)) (lr_rows report) /\
  (5 <= col0 (license_cols report))%nat /\
  (String.length (str_of_Z (total_cores report)) <= col4 (license_cols report))%nat /\
  (String.length (fmt_float (total_tib report)) <= col5 (license_cols report))%nat.
Proof.
  destruct (widen_fold (lr_rows report) header_cols) as [Hw Hf].
  assert (Hl : wider (fold_left widen (lr_rows report) header_cols)
                     (license_cols report)).
  { unfold wider, license_cols. cbn [col0 col1 col2 col3 col4 col5]. lia. }
  split; [exact (wider_trans _ _ _ Hw Hl)|]. split.
  - revert Hf. apply Forall_impl. intros row. now apply row_fits_wider.
  - unfold license_cols. cbn [col0 col1 col2 col3 col4 col5]. lia.
Qed.

(** X18. The host table of the text report is of fixed width: its
    header, its rule, the line of every host and the total line all have
    the same length, the sum of the six column widths and five spaces;
    there is one line for each host between the rule and the total. *)
Theorem host_table_fixed_width (report : license_report) :
  Forall (fun line => String.length line = table_width (license_cols report))
         (host_table report) /\
  List.length (host_table report) = (List.length (lr_rows report) + 3)%nat /\
  (table_width header_cols <= table_width (license_cols report))%nat.
Proof.
  destruct (license_cols_fit report) as (Hh & Hf & H0 & H4 & H5).
  assert (Hh' := Hh). unfold wider, header_cols in Hh'.
  cbn [col0 col1 col2 col3 col4 col5 String.length] in Hh'.
  unfold host_table. cbn zeta. split; [|split].
  - constructor; [|constructor; [|apply Forall_app; split]].
    + apply txt_line_length; cbn [String.length]; lia.
    + apply txt_sep_line_length.
    + apply Forall_map. revert Hf. apply Forall_impl.
      intros row (F0 & F1 & F2 & F3 & F4 & F5). unfold txt_host_line.
      apply txt_line_length; try assumption;
        destruct (missing row); cbn [String.length]; lia.
    + constructor; [|constructor]. unfold txt_total_line.
      apply txt_line_length; cbn [String.length]; lia.
  - cbn [List.length]. rewrite length_app, length_map. cbn [List.length]. lia.
  - unfold table_width, wider in *. lia.
Qed.

(* ------------------------------------------------------------------ *)
(** ** The clusters of the text report *)

Lemma cluster_tib_snoc rws row :
  cluster_tib (rws ++ [row]) =
  if missing row then cluster_tib rws
  else dict_set (cluster_tib rws) (lr_cluster row)
         (float_add (match dict_get (cluster_tib rws) (lr_cluster row) with
                     | Some v => v
                     | None => Finite 0
                     end) (entitled_tib row)).
Proof. unfold cluster_tib. now rewrite fold_left_app. Qed.

Lemma counted_snoc rws row :
  counted (rws ++ [row]) =
  if missing row then counted rws else (counted rws ++ [row])%list.
Proof.
  unfold counted. rewrite filter_app. cbn [filter].
  destruct (missing row); cbn [negb]; [apply app_nil_r | reflexivity].
Qed.

Lemma cluster_lines_none c (l : list license_row) :
  ~ In c (map lr_cluster l) ->
  filter (fun row => (lr_cluster row =? c)%string) l = [].
Proof.
  induction l as [|row l IH]; cbn [map In filter]; [reflexivity|].
  intros H. destruct (String.eqb_spec (lr_cluster row) c) as [E|_];
    [elim H; now left|]. apply IH. tauto.
Qed.

(** What the loop over the lines leaves in [cluster_tib]: the names as
    first seen, each with the float sum of its lines in their order. *)
Lemma cluster_tib_inv rws :
  map fst (cluster_tib rws) = first_seen (map lr_cluster (counted rws)) /\
  (forall c v, dict_get (cluster_tib rws) c = Some v -> v = cluster_amount c rws).
Proof.
  induction rws as [|row rws (Hk & Hv)] using rev_ind.
  - split; [reflexivity | discriminate].
  - rewrite cluster_tib_snoc. unfold cluster_amount in *.
    rewrite counted_snoc.
    destruct (missing row); [now split|].
    set (c0 := lr_cluster row). set (e := entitled_tib row).
    assert (Hnone : dict_get (cluster_tib rws) c0 = None <->
                    ~ In c0 (map lr_cluster (counted rws))).
    { now rewrite dict_get_None, Hk, first_seen_In. }
    split.
    + rewrite dict_set_keys, (map_app lr_cluster). cbn [map]. fold c0.
      rewrite first_seen_snoc.
      destruct (dict_get (cluster_tib rws) c0) as [v|] eqn:G.
      * destruct (mem_str c0 (map lr_cluster (counted rws))) eqn:M; [exact Hk|].
        exfalso. assert (Hin : In c0 (map fst (cluster_tib rws))).
        { apply dict_get_In in G. apply in_map_iff. now exists (c0, v). }
        rewrite Hk, first_seen_In in Hin. apply mem_str_In in Hin. congruence.
      * destruct (mem_str c0 (map lr_cluster (counted rws))) eqn:M;
          [|now rewrite Hk].
        apply mem_str_In in M. now elim (proj1 Hnone eq_refl).
    + intros c v. rewrite filter_app, map_app, float_sum_app. cbn [filter].
      destruct (String.eqb_spec c0 c) as [<-|N].
      * rewrite dict_get_set_same. intros E. inversion E; subst v. clear E.
        fold c0. rewrite String.eqb_refl. cbn [map]. fold e.
        unfold float_sum at 1. cbn [fold_left].
        destruct (dict_get (cluster_tib rws) c0) as [v|] eqn:G.
        -- now rewrite <- (Hv c0 v G).
        -- now rewrite (cluster_lines_none c0 _ (proj1 Hnone eq_refl)).
      * rewrite dict_get_set_other by exact N. intros G.
        fold c0. destruct (String.eqb_spec c0 c) as [E|_]; [contradiction|].
        cbn [map]. exact (Hv c v G).
Qed.

Lemma max_of_le x l : In x l -> (x <= max_of l)%nat.
Proof.
  unfold max_of. induction l as [|y l IH]; cbn [In fold_right]; [contradiction|].
  intros [->|H]; [lia|]. specialize (IH H). lia.
Qed.

Lemma sum_abs_nonneg (l : list Z) : 0 <= sumZ (map Z.abs l).
Proof.
  induction l as [|z l IH]; [cbn; lia|]. cbn [map]. rewrite sumZ_cons. lia.
Qed.

(** A float sum of exact amounts whose cores stay below [2^53]. *)
Lemma float_sum_exact d : forall (l : list pyfloat) (zs : list Z) acc a,
  Forall2 (fun x z => float_is x (inject_Z z * multiplier d)) l zs ->
  float_is acc (inject_Z a * multiplier d) ->
  Z.abs a + sumZ (map Z.abs zs) < 2 ^ 53 ->
  float_is (float_sum acc l) (inject_Z (a + sumZ zs) * multiplier d).
Proof.
  induction l as [|x l IH]; intros zs acc a H Ha Hb; inversion H as [|? z ? zs' Hx Hl];
    subst.
  - cbn. now rewrite Z.add_0_r.
  - cbn [map] in Hb. rewrite sumZ_cons in *.
    pose proof (sum_abs_nonneg zs').
    unfold float_sum. cbn [fold_left]. rewrite Z.add_assoc.
    apply IH; [exact Hl | apply float_add_exact; [exact Ha | exact Hx | lia] | lia].
Qed.

(** Adding an exact entitlement to the amount of a cluster. *)
Lemma dict_set_exact d c e f : forall (ct : dict pyfloat) (zs : list Z),
  Forall2 (fun (item : string * pyfloat) z =>
             float_is (snd item) (inject_Z z * multiplier d)) ct zs ->
  float_is e (inject_Z f * multiplier d) ->
  sumZ (map Z.abs zs) + Z.abs f < 2 ^ 53 ->
  exists zs',
    Forall2 (fun (item : string * pyfloat) z =>
               float_is (snd item) (inject_Z z * multiplier d))
            (dict_set ct c
               (float_add (match dict_get ct c with
                           | Some v => v
                           | None => Finite 0
                           end) e)) zs' /\
    sumZ zs' = sumZ zs + f /\
    sumZ (map Z.abs zs') <= sumZ (map Z.abs zs) + Z.abs f.
Proof.
  induction ct as [|[k v] ct IH]; intros zs H He Hb;
    inversion H as [|? z ? zs0 Hv Hrest]; subst.
  - cbn [dict_set dict_get]. cbn in Hb. exists [f]. split; [|cbn; lia].
    constructor; [|constructor]. cbn [snd].
    replace f with (0 + f) at 1 by lia.
    apply float_add_exact; [cbn [float_is]; ring | exact He | lia].
  - cbn [map] in Hb. rewrite sumZ_cons in Hb.
    pose proof (sum_abs_nonneg zs0). cbn [dict_set dict_get].
    destruct (k =? c)%string.
    + exists (z + f :: zs0). split; [|cbn [map]; rewrite !sumZ_cons; lia].
      constructor; [|exact Hrest]. cbn [snd] in *.
      apply float_add_exact; [exact Hv | exact He | lia].
    + destruct (IH zs0 Hrest He) as (zs' & F & S1 & S2); [lia|].
      exists (z :: zs'). split; [now constructor|].
      cbn [map]. rewrite !sumZ_cons. lia.
Qed.

Lemma exact_cores_app l1 l2 :
  exact_cores (l1 ++ l2) -> exact_cores l1 /\ exact_cores l2.
Proof.
  unfold exact_cores. rewrite map_app, sumZ_app.
  rewrite <- !(map_map foundation_cores Z.abs).
  pose proof (sum_abs_nonneg (map foundation_cores l1)).
  pose proof (sum_abs_nonneg (map foundation_cores l2)). lia.
Qed.

Lemma exact_cores_filter p l : exact_cores l -> exact_cores (filter p l).
Proof.
  unfold exact_cores. intros H.
  assert (G : sumZ (map (fun row => Z.abs (foundation_cores row)) (filter p l)) <=
              sumZ (map (fun row => Z.abs (foundation_cores row)) l)).
  { clear H. induction l as [|row l IH]; [cbn; lia|].
    cbn [filter map]. destruct (p row); cbn [map]; rewrite ?sumZ_cons; lia. }
  lia.
Qed.

(** With fewer than [2^53] cores in all, the amounts of the clusters are
    exact, and together they make the cores of the lines that count. *)
Lemma cluster_tib_exact d rws :
  Forall (license_rule (tib_per_core_of d)) rws -> exact_cores rws ->
  exists zs,
    Forall2 (fun (item : string * pyfloat) z =>
               float_is (snd item) (inject_Z z * multiplier d))
            (cluster_tib rws) zs /\
    sumZ zs = sumZ (map foundation_cores (counted rws)) /\
    sumZ (map Z.abs zs) <= sumZ (map (fun row => Z.abs (foundation_cores row)) rws).
Proof.
  induction rws as [|row rws IH] using rev_ind; intros Hr Hb.
  - exists []. split; [constructor | cbn; lia].
  - apply Forall_app in Hr as [Hr Hrow]. inversion Hrow as [|? ? Hrule _]; subst.
    pose proof Hb as Hb0. apply exact_cores_app in Hb as [Hb1 Hb2].
    destruct (IH Hr Hb1) as (zs & F & S1 & S2).
    rewrite cluster_tib_snoc, counted_snoc, !map_app, !sumZ_app.
    cbn [map]. rewrite !sumZ_cons. cbn [sumZ fold_right].
    destruct (missing row) eqn:M.
    + exists zs. split; [exact F|]. split; [exact S1 | lia].
    + unfold exact_cores in Hb0. rewrite map_app, sumZ_app in Hb0.
      cbn [map] in Hb0. rewrite sumZ_cons in Hb0. cbn [sumZ fold_right] in Hb0.
      assert (He : float_is (entitled_tib row)
                     (inject_Z (foundation_cores row) * multiplier d)).
      { destruct (exact_rows d [row] (Finite 0) 0 Hrow) as [E _].
        - cbn [float_is]. ring.
        - unfold exact_cores in Hb2. cbn [Z.abs]. lia.
        - now inversion E. }
      destruct (dict_set_exact d (lr_cluster row) (entitled_tib row)
                  (foundation_cores row) (cluster_tib rws) zs F He)
        as (zs' & F' & S1' & S2'); [lia|].
      exists zs'. split; [exact F'|]. rewrite map_app, sumZ_app. cbn [map].
      rewrite sumZ_cons. cbn [sumZ fold_right]. lia.
Qed.

Lemma filter_comm {A} (p q : A -> bool) l :
  filter p (filter q l) = filter q (filter p l).
Proof.
  induction l as [|x l IH]; [reflexivity|]. cbn [filter].
  destruct (p x) eqn:P, (q x) eqn:Q; cbn [filter]; rewrite ?P, ?Q, IH; reflexivity.
Qed.

(** The amount of one cluster, below [2^53] cores. *)
Lemma cluster_amount_exact d c rws :
  Forall (license_rule (tib_per_core_of d)) rws -> exact_cores rws ->
  float_is (cluster_amount c rws)
           (inject_Z (cluster_cores c rws) * multiplier d).
Proof.
  intros Hr Hb. unfold cluster_amount, cluster_cores, counted.
  rewrite filter_comm.
  set (l := filter (fun row => (lr_cluster row =? c)%string) rws).
  assert (Hl : Forall (license_rule (tib_per_core_of d)) l).
  { apply Forall_forall. intros row Hin. apply filter_In in Hin as [Hin _].
    rewrite Forall_forall in Hr. now apply Hr. }
  assert (Hbl : exact_cores l) by now apply exact_cores_filter.
  destruct (exact_rows d l (Finite 0) 0 Hl) as [_ E].
  - cbn [float_is]. ring.
  - unfold exact_cores in Hbl. cbn [Z.abs]. lia.
  - exact E.
Qed.

Lemma cluster_tib_total_sum (d : dict pyfloat) :
  cluster_tib_total d = float_sum (Finite 0) (map snd d).
Proof.
  unfold cluster_tib_total, float_sum. generalize (Finite 0).
  induction d as [|[k v] l IH]; intros acc; [reflexivity | apply IH].
Qed.

(** X19. The cluster table of the text report of a calculation has one
    line for each cluster name, in the order in which the names are
    first seen among the lines that count, hosts of clusters of the same
    name in different sites being added together; the amount of a
    cluster is the float sum of the entitlements of its lines, in their
    order, and the total of the table the float sum of the amounts.  As
    long as the foundation cores add up, in absolute value, to less than
    2^53, these sums are exact: the amount of a cluster is its cores
    times the multiplier, the total of the table has the value of the
    total entitlement, which the last line then shows, and all the lines
    of the table have the same length. *)
Theorem cluster_table_totals (sites : list site) (deployment : string)
    (report : license_report) :
  calculate_licensing sites deployment = Ok report ->
  let ct := cluster_tib (lr_rows report) in
  map fst ct = first_seen (map lr_cluster (counted (lr_rows report))) /\
  (forall c v, dict_get ct c = Some v -> v = cluster_amount c (lr_rows report)) /\
  cluster_tib_total ct = float_sum (Finite 0) (map snd ct) /\
  (exact_cores (lr_rows report) ->
   (forall c v, dict_get ct c = Some v ->
      float_is v (inject_Z (cluster_cores c (lr_rows report)) *
                  multiplier deployment)) /\
   float_is (cluster_tib_total ct)
            (inject_Z (total_cores report) * multiplier deployment) /\
   float_is (total_tib report)
            (inject_Z (total_cores report) * multiplier deployment) /\
   last (cluster_table report) "" =
     ljust "Total" (cluster_cw0 ct) ++ " " ++
     rjust (fmt_float (total_tib report)) (cluster_cw1 ct report) /\
   Forall (fun line =>
             String.length line = (cluster_cw0 ct + 1 + cluster_cw1 ct report)%nat)
          (cluster_table report)).
Proof.
  intros Hrep ct.
  destruct (cluster_tib_inv (lr_rows report)) as (Hk & Hv). fold ct in Hk, Hv.
  destruct (calculate_licensing_rows _ _ _ Hrep) as (_ & _ & Hr & Hc & _).
  pose proof (cluster_tib_total_sum ct) as Hsum.
  split; [exact Hk|]. split; [exact Hv|]. split; [exact Hsum|].
  intros Hb.
  pose proof (exact_total _ _ _ Hrep Hb) as Htot.
  assert (Hct : float_is (cluster_tib_total ct)
                  (inject_Z (total_cores report) * multiplier deployment)).
  { destruct (cluster_tib_exact deployment (lr_rows report) Hr Hb)
      as (zs & F & S1 & S2). fold ct in F.
    rewrite Hsum, Hc, <- S1. replace (sumZ zs) with (0 + sumZ zs) by lia.
    apply float_sum_exact.
    - clear - F. induction F as [|[k v] z l zs Hx _ IH]; cbn [map];
        constructor; assumption.
    - cbn [float_is]. ring.
    - unfold exact_cores in Hb. cbn [Z.abs]. lia. }
  split; [|split; [exact Hct|split; [exact Htot|]]].
  { intros c v G. rewrite (Hv c v G). now apply cluster_amount_exact. }
  unfold cluster_table. cbn zeta. fold ct.
  rewrite (float_is_fmt _ _ _ Hct Htot).
  split.
  - rewrite !app_comm_cons. apply last_last.
  - assert (L : forall a b, (String.length a <= cluster_cw0 ct)%nat ->
                  (String.length b <= cluster_cw1 ct report)%nat ->
                  String.length (ljust a (cluster_cw0 ct) ++ " " ++
                                 rjust b (cluster_cw1 ct report)) =
                  (cluster_cw0 ct + 1 + cluster_cw1 ct report)%nat).
    { intros a b Ha Hb'. unfold ljust, rjust.
      rewrite !str_length_append, !length_fill. cbn [String.length]. lia. }
    constructor; [|constructor; [|apply Forall_app; split]].
    + apply L; unfold cluster_cw0, cluster_cw1; cbn [String.length]; lia.
    + rewrite !str_length_append, !length_fill. cbn [String.length]. lia.
    + apply Forall_map. apply Forall_forall. intros [c v] Hin. cbn [fst snd].
      apply L.
      * assert (String.length c <= max_of (map String.length (map fst ct)))%nat.
        { apply max_of_le, in_map, in_map_iff. now exists (c, v). }
        unfold cluster_cw0. lia.
      * assert (String.length (fmt_float v) <=
                max_of (map (fun v => String.length (fmt_float v)) (map snd ct)))%nat.
        { apply max_of_le.
          apply (in_map (fun v => String.length (fmt_float v))), in_map_iff.
          now exists (c, v). }
        unfold cluster_cw1. lia.
    + constructor; [|constructor].
      apply L; unfold cluster_cw0, cluster_cw1; cbn [String.length]; lia.
Qed.

Lemma cluster_table_totals_witness :
  exists report,
    calculate_licensing [paris; lyon] "VVF" = Ok report /\
    map fst (cluster_tib (lr_rows report)) = ["ClusterA"; "ClusterB"; "Prod"] /\
    float_is (cluster_tib_total (cluster_tib (lr_rows report)))
             (inject_Z (total_cores report) * (1 # 4)) /\
    last (cluster_table report) "" =
      ljust "Total" (cluster_cw0 (cluster_tib (lr_rows report))) ++ " " ++
      rjust (fmt_float (total_tib report))
            (cluster_cw1 (cluster_tib (lr_rows report)) report).
Proof.
  destruct (calculate_licensing [paris; lyon] "VVF") as [report|] eqn:E;
    [|vm_compute in E; discriminate E].
  exists report. split; [reflexivity|].
  destruct (cluster_table_totals [paris; lyon] "VVF" report E) as (Hk & _ & _ & Hx).
  assert (Hb : exact_cores (lr_rows report) /\
               first_seen (map lr_cluster (counted (lr_rows report))) =
                 ["ClusterA"; "ClusterB"; "Prod"]).
  { vm_compute in E. inversion E; subst report. split; reflexivity. }
  destruct Hb as [Hb Hn]. destruct (Hx Hb) as (_ & Ht & _ & Hl & _).
  split; [now rewrite Hk|]. split; [exact Ht | exact Hl].
Defined.

(** Beyond [2^53] the two totals part: the lines add up to 2^55 and the
    clusters to 2^55 + 8. *)
Example cluster_total_rounds :
  match calculate_licensing uneven_sites "VVF" with
  | Ok report =>
      map entitled_tib (lr_rows report) = [Finite 4; Finite (2 ^ 55); Finite 4] /\
      total_tib report = Finite (2 ^ 55) /\
      cluster_tib (lr_rows report) = [("A", Finite 8); ("B", Finite (2 ^ 55))] /\
      cluster_tib_total (cluster_tib (lr_rows report)) = Finite (2 ^ 55 + 8)
  | Raise _ => False
  end.
Proof. vm_compute. repeat split. Qed.

(* ------------------------------------------------------------------ *)
(** ** Identifiers and bound texts of the document *)

Lemma chunked_nil n : chunked n [] n.
Proof.
  split; [exists []; split; [reflexivity | constructor]|].
  rewrite Nat.sub_diag. split; [reflexivity | lia].
Qed.

Lemma chunked_app n m k l1 l2 :
  chunked n l1 m -> chunked m l2 k -> chunked n (l1 ++ l2) k.
Proof.
  intros ((g1 & -> & F1) & I1 & L1) ((g2 & -> & F2) & I2 & L2).
  split; [|split; [|lia]].
  - exists (g1 ++ g2)%list. split; [now rewrite concat_app | now apply Forall_app].
  - rewrite map_app, I1, I2.
    replace (k - n)%nat with ((m - n) + (k - m))%nat by lia.
    rewrite seq_app. do 2 f_equal. lia.
Qed.

Lemma rect_chunked n x y w h bg stroke text fs bold tc va rounded els n' :
  rect n x y w h bg stroke text fs bold tc va rounded (S n) = (els, n') ->
  chunked n els n'.
Proof.
  unfold rect. destruct (is_empty text) eqn:E.
  - cbn [ret]. intros H; inversion H; subst. split; [|split; [|lia]].
    + eexists [[_]]. split; [reflexivity|]. constructor; [|constructor].
      cbn. repeat split.
    + replace (S n - n)%nat with 1%nat by lia. reflexivity.
  - unfold bind_gen, uid. cbn [ret]. intros H; inversion H; subst.
    split; [|split; [|lia]].
    + eexists [[_; _]]. split; [reflexivity|]. constructor; [|constructor].
      cbn. repeat split. exists text. split; [reflexivity|].
      now apply is_empty_false.
    + replace (S (S n) - n)%nat with 2%nat by lia. reflexivity.
Qed.

Lemma host_boxes_chunked p v xc cy hh chosts : forall i n els n',
  host_boxes p v xc cy hh i chosts n = (els, n') -> chunked n els n'.
Proof.
  induction chosts as [|h t IH]; intros i n els n' E; cbn [host_boxes] in E.
  - inversion E; subst. apply chunked_nil.
  - unfold bind_gen at 1 in E. unfold uid at 1 in E. unfold bind_gen at 1 in E.
    destruct (rect n _ _ _ _ _ _ _ _ _ _ _ _ (S n)) as [h_els n1] eqn:R.
    unfold bind_gen at 1 in E.
    destruct (host_boxes p v xc cy hh (i + 1) t n1) as [rest n2] eqn:H.
    cbn [ret] in E. inversion E; subst.
    exact (chunked_app _ _ _ _ _ (rect_chunked _ _ _ _ _ _ _ _ _ _ _ _ _ _ _ R)
             (IH _ _ _ _ H)).
Qed.

Lemma cluster_bands_chunked p v xc hh cl : forall cy n els n',
  cluster_bands p v xc hh cy cl n = (els, n') -> chunked n els n'.
Proof.
  induction cl as [|[cname chosts] t IH]; intros cy n els n' E;
    cbn [cluster_bands] in E.
  - inversion E; subst. apply chunked_nil.
  - unfold bind_gen at 1 in E. unfold uid at 1 in E. unfold bind_gen at 1 in E.
    destruct (rect n _ _ _ _ _ _ _ _ _ _ _ _ (S n)) as [c_els n1] eqn:R.
    unfold bind_gen at 1 in E.
    destruct (host_boxes _ _ _ _ _ _ _ n1) as [hs n2] eqn:H.
    unfold bind_gen at 1 in E.
    destruct (cluster_bands _ _ _ _ _ _ n2) as [rest n3] eqn:C.
    cbn [ret] in E. inversion E; subst.
    exact (chunked_app _ _ _ _ _ (rect_chunked _ _ _ _ _ _ _ _ _ _ _ _ _ _ _ R)
             (chunked_app _ _ _ _ _ (host_boxes_chunked _ _ _ _ _ _ _ _ _ _ H)
                (IH _ _ _ _ C))).
Qed.

Lemma site_zone_chunked v hh idx st x n els n' :
  site_zone v hh idx st x n = (els, n') -> chunked n els n'.
Proof.
  unfold site_zone. intros E.
  unfold bind_gen at 1 in E. unfold uid at 1 in E. unfold bind_gen at 1 in E.
  destruct (rect n _ _ _ _ _ _ _ _ _ _ _ _ (S n)) as [z_els n1] eqn:R1.
  unfold bind_gen at 1 in E. unfold uid at 1 in E. unfold bind_gen at 1 in E.
  destruct (rect n1 _ _ _ _ _ _ _ _ _ _ _ _ (S n1)) as [h_els n2] eqn:R2.
  unfold bind_gen at 1 in E.
  destruct (cluster_bands _ _ _ _ _ _ n2) as [cl_els n3] eqn:C.
  cbn [ret] in E. inversion E; subst.
  exact (chunked_app _ _ _ _ _ (rect_chunked _ _ _ _ _ _ _ _ _ _ _ _ _ _ _ R1)
           (chunked_app _ _ _ _ _ (rect_chunked _ _ _ _ _ _ _ _ _ _ _ _ _ _ _ R2)
              (cluster_bands_chunked _ _ _ _ _ _ _ _ _ C))).
Qed.

Lemma site_zones_chunked v hh sites : forall idx x n zs n',
  site_zones v hh idx x sites n = (zs, n') -> chunked n (fst zs) n'.
Proof.
  induction sites as [|st t IH]; intros idx x n zs n' E; cbn [site_zones] in E.
  - inversion E; subst. apply chunked_nil.
  - unfold bind_gen at 1 in E.
    destruct (site_zone v hh idx st x n) as [els n1] eqn:Z.
    unfold bind_gen at 1 in E.
    destruct (site_zones v hh (S idx) (x + ZONE_W + ZONE_GAP) t n1) as [rest n2] eqn:R.
    cbn [ret] in E. inversion E; subst. cbn [fst].
    exact (chunked_app _ _ _ _ _ (site_zone_chunked _ _ _ _ _ _ _ _ Z)
             (IH _ _ _ _ _ R)).
Qed.

Lemma generate_elements_chunked sites v n els n' :
  generate_elements sites v n = (els, n') -> chunked n els n'.
Proof.
  unfold generate_elements. cbn zeta. intros E.
  unfold bind_gen at 1 in E.
  destruct (site_zones v (host_height v) 0 CANVAS_X sites n) as [zs n1] eqn:Z.
  apply site_zones_chunked in Z. destruct v.
  - unfold bind_gen at 1 in E. unfold uid at 1 in E. unfold bind_gen at 1 in E.
    destruct (rect n1 _ _ _ _ _ _ _ _ _ _ _ _ (S n1)) as [l_els n2] eqn:R.
    cbn [ret] in E. inversion E; subst.
    exact (chunked_app _ _ _ _ _ Z (rect_chunked _ _ _ _ _ _ _ _ _ _ _ _ _ _ _ R)).
  - cbn [ret] in E. inversion E; subst. exact Z.
Qed.

(** X20. The document is a sequence of rectangles, each alone or
    followed at once by its text: the rectangle names the text as its
    only bound element, the text names the rectangle as its container,
    has the same position and size and a text that is not empty.  Every
    call of [uid] is used for exactly one element, in the order of the
    document, so that no two elements share an identifier. *)
Theorem elements_bound (sites : list site) (vcf9_enabled : bool) :
  let els := elements (generate_excalidraw sites vcf9_enabled) in
  grouped_elements els /\
  map el_id els = seq 0 (List.length els) /\
  NoDup (map el_id els).
Proof.
  intros els. subst els. unfold generate_excalidraw. cbn [elements].
  destruct (generate_elements sites vcf9_enabled 0%nat) as [els n'] eqn:E.
  destruct (generate_elements_chunked _ _ _ _ _ E) as (G & I & _).
  rewrite Nat.sub_0_r in I. cbn [fst].
  assert (L : List.length els = n').
  { rewrite <- (length_map el_id), I. apply length_seq. }
  split; [exact G|]. split.
  - now rewrite L.
  - rewrite I. apply seq_NoDup.
Qed.

(* ------------------------------------------------------------------ *)
(** ** How many elements, and where *)

Lemma length_only k r b : List.length (only k r b) = if k =? r then 1%nat else 0%nat.
Proof. unfold only. now destruct (k =? r). Qed.

Lemma length_host_grid xc cy hh count : forall i,
  List.length (host_grid xc cy hh i count) = count.
Proof. induction count as [|c IH]; intros i; cbn [host_grid List.length]; [reflexivity | now rewrite IH]. Qed.

Lemma length_band_rects_labels xc hh cl : forall cy,
  List.length (band_rects 4 xc hh cy cl) = List.length cl.
Proof.
  induction cl as [|[c hs] t IH]; intros cy; cbn [band_rects List.length]; [reflexivity|].
  rewrite !length_app, length_only, IH. reflexivity.
Qed.

Lemma length_band_rects_hosts xc hh cl : forall cy,
  List.length (band_rects 6 xc hh cy cl) =
  List.length (List.concat (map snd cl)).
Proof.
  induction cl as [|[c hs] t IH]; intros cy; [reflexivity|].
  rewrite band_rects_hosts. cbn [map snd List.concat].
  now rewrite !length_app, length_host_grid, IH.
Qed.

Lemma length_hosts_of_sites sites :
  List.length (hosts_of_sites sites) =
  List.length (List.concat (map (fun st => List.concat (map snd (clusters st))) sites)).
Proof.
  unfold hosts_of_sites. induction sites as [|st t IH]; [reflexivity|].
  cbn [flat_map map List.concat]. rewrite !length_app, IH. f_equal.
  induction (clusters st) as [|[c hs] cl IHc]; [reflexivity|].
  cbn [flat_map map snd List.concat fst]. now rewrite !length_app, length_map, IHc.
Qed.

Lemma zone_rects_counts hh sites : forall x,
  List.length (zone_rects 12 hh x sites) = List.length sites /\
  List.length (zone_rects 10 hh x sites) = List.length sites /\
  List.length (zone_rects 4 hh x sites) = List.length (flat_map clusters sites) /\
  List.length (zone_rects 6 hh x sites) = List.length (hosts_of_sites sites).
Proof.
  rewrite length_hosts_of_sites.
  induction sites as [|st t IH]; intros x; [now repeat split|].
  destruct (IH (x + ZONE_W + ZONE_GAP)) as (I12 & I10 & I4 & I6).
  cbn [zone_rects flat_map map List.concat].
  rewrite !length_app, !length_only, I12, I10, I4, I6.
  rewrite !(band_rects_none 12), !(band_rects_none 10) by discriminate.
  rewrite length_band_rects_labels, length_band_rects_hosts.
  cbn [Z.eqb Pos.eqb List.length]. repeat split; lia.
Qed.

Lemma site_zones_cursor v hh sites : forall idx x n,
  snd (fst (site_zones v hh idx x sites n)) =
  x + Z.of_nat (List.length sites) * (ZONE_W + ZONE_GAP).
Proof.
  induction sites as [|st t IH]; intros idx x n; cbn [site_zones].
  - cbn. lia.
  - unfold bind_gen at 1.
    destruct (site_zone v hh idx st x n) as [els n1].
    unfold bind_gen at 1.
    specialize (IH (S idx) (x + ZONE_W + ZONE_GAP) n1).
    destruct (site_zones v hh (S idx) (x + ZONE_W + ZONE_GAP) t n1) as [rest n2].
    cbn [ret fst snd] in *. rewrite IH. cbn [List.length]. lia.
Qed.

Lemma zone_rects_none k hh sites : forall x,
  k <> 12 -> k <> 10 -> k <> 4 -> k <> 6 -> zone_rects k hh x sites = [].
Proof.
  induction sites as [|st t IH]; intros x H12 H10 H4 H6; cbn [zone_rects];
    [reflexivity|].
  unfold only. destruct (Z.eqb_spec k 12); [contradiction|].
  destruct (Z.eqb_spec k 10); [contradiction|].
  rewrite band_rects_none, IH by assumption. reflexivity.
Qed.

(** The legend is the only rectangle of radius 8. *)
Lemma generate_legend sites v :
  shapes 8 (elements (generate_excalidraw sites v)) =
  if v then [legend_box (List.length sites)] else [].
Proof.
  unfold generate_excalidraw, generate_elements. cbn [elements].
  unfold bind_gen at 1.
  pose proof (site_zones_shapes 8 v (host_height v) sites 0 CANVAS_X 0) as S.
  pose proof (site_zones_cursor v (host_height v) sites 0 CANVAS_X 0) as C.
  destruct (site_zones v (host_height v) 0 CANVAS_X sites 0%nat) as [zs n1].
  cbn [fst snd] in S, C. rewrite zone_rects_none in S by discriminate.
  destruct v.
  - unfold bind_gen at 1. unfold uid at 1. unfold bind_gen at 1.
    destruct (rect _ _ _ _ _ _ _ _ _ _ _ _ _ _) as [l_els n2] eqn:R.
    cbn [ret fst]. rewrite shapes_app, S.
    replace l_els with (fst (l_els, n2)) by reflexivity.
    rewrite <- R, rect_shapes, C. reflexivity.
  - cbn [ret fst]. exact S.
Qed.

(** X21. The document has one zone and one header for each site, one
    label bar for each cluster and one box for each host, whatever the
    sites hold; the legend is there exactly when the compatibility check
    is enabled. *)
Theorem element_counts (sites : list site) (vcf9_enabled : bool) :
  let els := elements (generate_excalidraw sites vcf9_enabled) in
  List.length (filter is_zone els) = List.length sites /\
  List.length (filter (is_rect_of 10) els) = List.length sites /\
  List.length (filter is_cluster_label els) = List.length (flat_map clusters sites) /\
  List.length (filter is_host_box els) = List.length (hosts_of_sites sites) /\
  List.length (filter (is_rect_of 8) els) = (if vcf9_enabled then 1 else 0)%nat.
Proof.
  intros els.
  destruct (zone_rects_counts (host_height vcf9_enabled) sites CANVAS_X)
    as (Z12 & Z10 & Z4 & Z6).
  assert (G : forall k, k <> 8 ->
             List.length (filter (is_rect_of k) els) =
             List.length (zone_rects k (host_height vcf9_enabled) CANVAS_X sites)).
  { intros k Hk. rewrite <- (generate_shapes k sites vcf9_enabled Hk).
    unfold shapes. now rewrite length_map. }
  unfold is_zone, is_cluster_label, is_host_box.
  rewrite !G by discriminate. rewrite Z12, Z10, Z4, Z6.
  repeat split.
  rewrite <- (length_map geometry). fold (shapes 8 els). subst els.
  rewrite generate_legend. now destruct vcf9_enabled.
Qed.

(* ------------------------------------------------------------------ *)
(** ** Where the zones stand *)

Lemma zone_x_next k : zone_x (S k) = zone_x k + ZONE_W + ZONE_GAP.
Proof. unfold zone_x. lia. Qed.

Lemma zone_rects_zone_boxes hh sites : forall k,
  zone_rects 12 hh (zone_x k) sites = zone_boxes hh k sites /\
  zone_rects 10 hh (zone_x k) sites = header_boxes k sites.
Proof.
  unfold zone_boxes, header_boxes.
  induction sites as [|st t IH]; intros k; [now split|].
  destruct (IH (S k)) as [I12 I10]. rewrite zone_x_next in I12, I10.
  cbn [zone_rects List.length seq combine map fst snd].
  rewrite !(band_rects_none 12), !(band_rects_none 10) by discriminate.
  rewrite I12, I10. now split.
Qed.

Lemma zone_boxes_in hh sites : forall k b,
  In b (zone_boxes hh k sites) ->
  exists i h, (k <= i < k + List.length sites)%nat /\ b = (zone_x i, CANVAS_Y, ZONE_W, h).
Proof.
  unfold zone_boxes. intros k b Hb.
  apply in_map_iff in Hb as ([i st] & <- & Hin).
  apply in_combine_l, in_seq in Hin. cbn [fst snd]. eauto.
Qed.

Lemma zone_boxes_pairs hh sites : forall k,
  ForallOrdPairs (fun a b => ~ boxes_overlap a b) (zone_boxes hh k sites).
Proof.
  induction sites as [|st t IH]; intros k; [constructor|].
  change (zone_boxes hh k (st :: t))
    with ((zone_x k, CANVAS_Y, ZONE_W, zone_height hh (clusters st))
          :: zone_boxes hh (S k) t).
  constructor; [|apply IH].
  apply Forall_forall. intros b Hb.
  apply zone_boxes_in in Hb as (i & h & Hi & ->).
  unfold boxes_overlap, zone_x, ZONE_W, ZONE_GAP.
  intros (H1 & H2 & _). lia.
Qed.

(** X22. The zone of the site of index k stands at x = 60 + 810 k and
    y = 60 and is 780 wide; its header has the same left, top and width;
    no two zones overlap; and the legend stands where the next zone
    would, at the right of the last one, overlapping no zone. *)
Theorem zones_side_by_side (sites : list site) (vcf9_enabled : bool) :
  let els := elements (generate_excalidraw sites vcf9_enabled) in
  shapes 12 els = zone_boxes (host_height vcf9_enabled) 0 sites /\
  shapes 10 els = header_boxes 0 sites /\
  shapes 8 els = (if vcf9_enabled then [legend_box (List.length sites)] else []) /\
  ForallOrdPairs (fun a b => ~ boxes_overlap a b) (shapes 12 els) /\
  Forall (fun z => ~ boxes_overlap z (legend_box (List.length sites))) (shapes 12 els).
Proof.
  intros els.
  destruct (zone_rects_zone_boxes (host_height vcf9_enabled) sites 0) as [Z12 Z10].
  change (zone_x 0) with CANVAS_X in Z12, Z10.
  assert (E12 : shapes 12 els = zone_boxes (host_height vcf9_enabled) 0 sites).
  { subst els. now rewrite generate_shapes by discriminate. }
  split; [exact E12|]. split.
  { subst els. now rewrite generate_shapes by discriminate. }
  split; [apply generate_legend|]. rewrite E12. split.
  - apply zone_boxes_pairs.
  - apply Forall_forall. intros b Hb.
    apply zone_boxes_in in Hb as (i & h & Hi & ->).
    unfold boxes_overlap, legend_box, zone_x, ZONE_W, ZONE_GAP.
    intros (H1 & H2 & _). lia.
Qed.

(* ------------------------------------------------------------------ *)
(** ** Host boxes and their zone *)

Lemma host_grid_bottom xc cy hh k b :
  0 < hh -> In b (host_grid xc cy hh 0 k) ->
  box_bottom b <= cy + (Z.of_nat k + COLS - 1) / COLS * (hh + ROW_GAP) - ROW_GAP.
Proof.
  intros Hh Hb. destruct (host_grid_in _ _ _ _ _ _ Hb) as (j & Hj & ->).
  unfold host_box_at, box_bottom, COLS, ROW_GAP in *.
  pose proof (Z.div_mod j 3 ltac:(lia)) as Ej.
  pose proof (Z.mod_pos_bound j 3 ltac:(lia)) as Bj.
  pose proof (Z.div_mod (Z.of_nat k + 3 - 1) 3 ltac:(lia)) as Ek.
  pose proof (Z.mod_pos_bound (Z.of_nat k + 3 - 1) 3 ltac:(lia)) as Bk.
  assert (j / 3 + 1 <= (Z.of_nat k + 3 - 1) / 3) by lia.
  nia.
Qed.

Lemma band_height_nonneg hh item : 0 < hh -> 0 <= band_height hh item.
Proof.
  intros Hh. unfold band_height, CLUSTER_H, PAD, ROW_GAP.
  pose proof (grid_rows_nonneg (snd item)). nia.
Qed.

Lemma band_heights_sum_nonneg hh cl : 0 < hh -> 0 <= sumZ (map (band_height hh) cl).
Proof.
  intros Hh. induction cl as [|item cl IH]; cbn [map]; [cbn; lia|].
  rewrite sumZ_cons. pose proof (band_height_nonneg hh item Hh). lia.
Qed.

Lemma band_rects_bottom xc hh cl : forall cy b,
  0 < hh -> In b (band_rects 6 xc hh cy cl) ->
  box_bottom b <=
  cy + sumZ (map (band_height hh) cl) + PAD * Z.of_nat (List.length cl) - PAD - ROW_GAP.
Proof.
  induction cl as [|[c hs] t IH]; intros cy b Hh Hb; [contradiction|].
  rewrite band_rects_hosts in Hb. cbn [map List.length]. rewrite sumZ_cons.
  pose proof (band_heights_sum_nonneg hh t Hh) as Ht.
  apply in_app_or in Hb as [Hb|Hb].
  - apply host_grid_bottom in Hb; [|assumption].
    unfold band_height, grid_rows in *. cbn [snd].
    unfold CLUSTER_H, PAD, ROW_GAP in *. lia.
  - apply IH in Hb; [|assumption].
    unfold band_height in *. cbn [snd]. unfold CLUSTER_H, PAD, ROW_GAP in *. lia.
Qed.

Lemma host_grid_snoc xc cy hh m : forall i,
  host_grid xc cy hh i (S m) =
  (host_grid xc cy hh i m ++ [host_box_at xc cy hh (i + Z.of_nat m)])%list.
Proof.
  induction m as [|m IH]; intros i.
  - cbn [host_grid app]. replace (i + Z.of_nat 0) with i by (cbn; lia). reflexivity.
  - change (host_grid xc cy hh i (S (S m)))
      with (host_box_at xc cy hh i :: host_grid xc cy hh (i + 1) (S m)).
    rewrite IH. cbn [host_grid app].
    replace (i + Z.of_nat (S m)) with (i + 1 + Z.of_nat m) by lia. reflexivity.
Qed.

Lemma band_rects_snoc xc hh c hs (pre : dict (list host)) : forall cy,
  band_rects 6 xc hh cy (pre ++ [(c, hs)])%list =
  (band_rects 6 xc hh cy pre ++
   host_grid xc (cy + sumZ (map (band_height hh) pre) +
                 PAD * Z.of_nat (List.length pre) + CLUSTER_H + PAD)
             hh 0 (List.length hs))%list.
Proof.
  induction pre as [|[c' hs'] pre IH]; intros cy.
  - cbn [app]. rewrite band_rects_hosts. cbn [band_rects map List.length app].
    rewrite app_nil_r. f_equal. cbn. lia.
  - cbn [app]. rewrite !band_rects_hosts, IH, <- app_assoc. do 2 f_equal.
    cbn [map List.length]. rewrite sumZ_cons. unfold band_height at 2. cbn [snd].
    f_equal. lia.
Qed.

Lemma zone_height_bands hh cl :
  zone_height hh cl = HEADER_H + PAD + sumZ (map (band_height hh) cl) + PAD.
Proof. apply zone_height_sum. Qed.

(** X23. In the zone of a site every host box lies between the left and
    the right pad of the zone and below the header.  The zone height
    leaves out the pad that follows each cluster, so the lowest host box
    ends 12 n - 32 below the lower edge of the zone for n clusters: with
    one or two clusters the boxes are inside the zone, and with three or
    more the last row of the last cluster reaches below it. *)
Theorem host_boxes_and_zone (vcf9_enabled : bool) (idx : nat) (st : site) (x : Z)
    (n : nat) :
  let hh := host_height vcf9_enabled in
  let els := fst (site_zone vcf9_enabled hh idx st x n) in
  let bottom := CANVAS_Y + zone_height hh (clusters st) in
  shapes 12 els = [(x, CANVAS_Y, ZONE_W, zone_height hh (clusters st))] /\
  Forall (fun b : box =>
            let '(bx, by_, bw, bh) := b in
            x + PAD <= bx /\ bx + bw <= x + ZONE_W - PAD /\
            CANVAS_Y + HEADER_H + PAD <= by_ /\
            by_ + bh <= bottom + zone_overrun (clusters st))
         (shapes 6 els) /\
  ((List.length (clusters st) <= 2)%nat ->
   Forall (fun b => box_bottom b < bottom) (shapes 6 els)) /\
  (forall pre c hs,
     clusters st = (pre ++ [(c, hs)])%list -> hs <> [] ->
     box_bottom (last (shapes 6 els) (0, 0, 0, 0)) =
       bottom + zone_overrun (clusters st) /\
     ((3 <= List.length (clusters st))%nat ->
      bottom < box_bottom (last (shapes 6 els) (0, 0, 0, 0)))).
Proof.
  intros hh els bottom.
  pose proof (host_height_pos vcf9_enabled) as Hh. fold hh in Hh.
  assert (E12 : shapes 12 els = [(x, CANVAS_Y, ZONE_W, zone_height hh (clusters st))]).
  { subst els. rewrite site_zone_shapes, band_rects_none by discriminate. reflexivity. }
  assert (E6 : shapes 6 els =
               band_rects 6 x hh (CANVAS_Y + HEADER_H + PAD) (clusters st)).
  { subst els. now rewrite site_zone_shapes. }
  assert (B : Forall (fun b : box =>
                 let '(bx, by_, bw, bh) := b in
                 x + PAD <= bx /\ bx + bw <= x + ZONE_W - PAD /\
                 CANVAS_Y + HEADER_H + PAD <= by_ /\
                 by_ + bh <= bottom + zone_overrun (clusters st))
              (shapes 6 els)).
  { rewrite E6. apply Forall_forall. intros [[[bx by_] bw] bh] Hb.
    pose proof (band_rects_bounds _ _ _ _ _ _ _ _ Hh Hb) as (B1 & B2 & B3).
    pose proof (band_rects_bottom _ _ _ _ _ Hh Hb) as B4.
    cbn [box_bottom] in B4. subst bottom.
    rewrite zone_height_bands. unfold zone_overrun.
    repeat split; try assumption. lia. }
  split; [exact E12|]. split; [exact B|]. split.
  - intros Hn. revert B. apply Forall_impl. intros [[[bx by_] bw] bh] (_ & _ & _ & H).
    cbn [box_bottom]. unfold zone_overrun, PAD, ROW_GAP in H. lia.
  - intros pre c hs Hc Hne.
    assert (L : box_bottom (last (shapes 6 els) (0, 0, 0, 0)) =
                bottom + zone_overrun (clusters st)).
    { rewrite E6. subst bottom. rewrite zone_height_bands.
      unfold zone_overrun. rewrite Hc, band_rects_snoc.
      destruct hs as [|h0 hs]; [now elim Hne|].
      cbn [List.length]. rewrite host_grid_snoc, app_assoc, last_last.
      rewrite map_app, sumZ_app, length_app. cbn [map List.length].
      rewrite sumZ_cons. unfold band_height at 3, grid_rows. cbn [snd List.length].
      unfold host_box_at, box_bottom.
      replace (Z.of_nat (S (List.length hs)) + COLS - 1)
        with (Z.of_nat (List.length hs) + 1 * COLS) by (unfold COLS; lia).
      rewrite Z.div_add by (unfold COLS; lia).
      change (sumZ []) with 0. rewrite Nat2Z.inj_add.
      unfold COLS, CLUSTER_H, PAD, ROW_GAP. change (Z.of_nat 1) with 1.
      rewrite Z.add_0_l. nia. }
    split; [exact L|]. intros H3. rewrite L.
    unfold zone_overrun, PAD, ROW_GAP. lia.
Qed.

(* ------------------------------------------------------------------ *)
(** ** The alert colour *)

(** X24. The border of a host box is the alert colour when the check is
    enabled and the host is incompatible, and the host stroke of the
    palette of its site otherwise.  The palettes repeat every six sites,
    and the host stroke of the sixth palette is the alert colour itself:
    in the sites of index 5, 11, ... every host box has that border,
    incompatible or not, and in the other sites only the incompatible
    hosts have it. *)
Theorem alert_stroke (idx : nat) (vcf9_enabled : bool) (h : host) :
  host_stroke_of (palette_at idx) vcf9_enabled h =
    (if alerted vcf9_enabled h then "#E57373" else host_stroke (palette_at idx)) /\
  palette_at (idx + 6) = palette_at idx /\
  (host_stroke_of (palette_at idx) vcf9_enabled h = "#E57373" <->
   alerted vcf9_enabled h = true \/ (idx mod 6 = 5)%nat).
Proof.
  assert (E : host_stroke_of (palette_at idx) vcf9_enabled h =
              (if alerted vcf9_enabled h then "#E57373"
               else host_stroke (palette_at idx))).
  { unfold host_stroke_of, alerted.
    destruct (vcf9 h) as [v|]; [|now rewrite andb_false_r].
    reflexivity. }
  split; [exact E|]. split.
  - unfold palette_at. change (List.length PALETTES) with 6%nat.
    replace (idx + 6)%nat with (idx + 1 * 6)%nat by lia.
    now rewrite Nat.Div0.mod_add.
  - rewrite E. destruct (alerted vcf9_enabled h); [tauto|].
    unfold palette_at. change (List.length PALETTES) with 6%nat.
    pose proof (Nat.mod_upper_bound idx 6 ltac:(discriminate)) as B.
    destruct (idx mod 6)%nat as [|[|[|[|[|[|k]]]]]]; cbn [nth PALETTES mk_palette host_stroke].
    all: split; [intros H | intros [H|H]]; try discriminate H; try lia.
    all: try reflexivity; try (now right).
Qed.

(* ------------------------------------------------------------------ *)
(** ** Percentages of empty cells *)

Section Percentages.
Context {py : PyFloat}.

(** X25. Python's [float] refuses the empty text.  An RVTools host whose
    CPU cell is empty shows a dash, because [safe] turns the cell into
    the empty text first; a LiveOptics host without a line in the
    performance sheet shows a dash as well; but a LiveOptics host whose
    performance line has an empty CPU cell shows [nan%], because the
    cell reaches [fmt_pct] as it is. *)
Theorem empty_percent_cells :
  format_0f "" = None ->
  (forall vh c1 c2 c3 c4 c5 c6 c7 c8 c9 c10 row h c,
     rvtools_host vh c1 c2 c3 c4 c5 c6 c7 c8 c9 c10 row = Ok (Some h) ->
     c6 = Some c -> c <> "" -> row_at vh row c = None ->
     cpu h = EM_DASH) /\
  (forall df pdf pm c1 c2 row h,
     liveoptics_host df pdf pm c1 c2 row = Ok (Some h) ->
     (dict_get pm (hostname h) = None -> cpu h = EM_DASH /\ mem h = EM_DASH) /\
     (forall pd prow,
        pdf = Some pd -> dict_get pm (hostname h) = Some prow ->
        row_lookup (columns pd) prow "Average CPU %" = Some None ->
        cpu h = "nan%")).
Proof.
  intros Hf. split.
  - intros vh c1 c2 c3 c4 c5 c6 c7 c8 c9 c10 row h c H -> Hc Hcell.
    unfold rvtools_host in H.
    destruct (is_empty (field vh row c1 "")); [discriminate|].
    apply bind_ok in H as (s & _ & H). apply bind_ok in H as (k & _ & H).
    inversion H; subst; cbn [cpu]. unfold field, truthy.
    apply is_empty_false in Hc. rewrite Hc, Hcell. cbn [safe].
    unfold fmt_pct. now rewrite Hf.
  - intros df pdf pm c1 c2 row h H. unfold liveoptics_host in H.
    destruct (is_empty (safe (row_get df row "Host Name"))); [discriminate|].
    apply bind_ok in H as (s & _ & H). apply bind_ok in H as (k & _ & H).
    inversion H; subst; cbn [cpu mem hostname]. split.
    + intros ->. unfold perf_get.
      assert (E : fmt_pct_cell (Some "") = EM_DASH)
        by (cbn [fmt_pct_cell]; unfold fmt_pct; now rewrite Hf).
      destruct pdf; now rewrite E.
    + intros pd prow -> -> Hcell. unfold perf_get, row_get. now rewrite Hcell.
Qed.

End Percentages.

Lemma empty_percent_cells_witness :
  match @liveoptics_host digits_float
          {| columns := ["Host Name"; "Cluster"]; rows := [] |} None [] None None
          [Some "esx09.lab"; Some "ClusterA"]
  with
  | Ok (Some h) => cpu h = EM_DASH /\ mem h = EM_DASH
  | _ => False
  end.
Proof.
  destruct (@liveoptics_host digits_float
              {| columns := ["Host Name"; "Cluster"]; rows := [] |} None [] None None
              [Some "esx09.lab"; Some "ClusterA"]) as [[h|]|e] eqn:E;
    [|vm_compute in E; discriminate E ..].
  exact (proj1 (proj2 (empty_percent_cells (py := digits_float) eq_refl)
                  _ _ _ _ _ _ h E) eq_refl).
Defined.

(* ------------------------------------------------------------------ *)
(** ** The performance lines of LiveOptics *)

Lemma liveoptics_perf_map_filter perf_df :
  liveoptics_perf_map perf_df =
  dict_comp (perf_host perf_df) (fun row => row)
            (filter (fun row => negb (is_empty (perf_host perf_df row))) (rows perf_df)).
Proof.
  unfold liveoptics_perf_map, dict_comp, perf_host.
  generalize (@nil (string * list cell)) as d.
  induction (rows perf_df) as [|row rws IH]; intros d; cbn [fold_left filter];
    [reflexivity|].
  destruct (is_empty (safe (row_get perf_df row "Host"))); cbn [negb fold_left];
    apply IH.
Qed.

Lemma find_last_filter {A} (p q : A -> bool) (xs : list A) :
  find_last p (filter q xs) = find_last (fun x => q x && p x) xs.
Proof.
  induction xs as [|x xs IH]; cbn [filter find_last]; [reflexivity|].
  destruct (q x); cbn [find_last andb]; rewrite IH;
    now destruct (find_last (fun x0 => q x0 && p x0) xs).
Qed.

(** X26. The performance line of a host is the last line of the
    performance sheet that carries its name, trimmed; lines without a
    host name are skipped, so that no line is filed under the empty
    name. *)
Theorem liveoptics_perf_map_last_wins (perf_df : sheet) (k : string) :
  dict_get (liveoptics_perf_map perf_df) k =
    find_last (fun row => negb (is_empty (perf_host perf_df row)) &&
                          (perf_host perf_df row =? k)%string)
              (rows perf_df) /\
  dict_get (liveoptics_perf_map perf_df) "" = None /\
  NoDup (map fst (liveoptics_perf_map perf_df)).
Proof.
  rewrite liveoptics_perf_map_filter. split; [|split].
  - rewrite dict_comp_get, find_last_filter.
    now destruct (find_last _ (rows perf_df)).
  - rewrite dict_comp_get, find_last_filter.
    destruct (find_last _ (rows perf_df)) as [row|] eqn:F; [|reflexivity].
    exfalso. destruct (find_last_split _ _ _ F) as (l1 & l2 & _ & Hp & _).
    apply andb_prop in Hp as [H1 H2]. apply String.eqb_eq in H2.
    unfold is_empty in H1. rewrite H2 in H1. discriminate.
  - apply dict_comp_nodup.
Qed.
